(** * OpenBCSim: the GPU simulation engine

    A shallow embedding of [bcsim::GpuAlgorithm]
    (src/core/algorithm/GpuAlgorithm.cpp).  The host-side control code is
    translated statement by statement into a state-and-exception monad over
    the object's members; the device kernels, cuFFT and the helper headers
    that are not part of the sources are an interface the development is
    parameterised over. *)

From Stdlib Require Import ZArith Lia.
From stdpp Require Import base option list gmap strings pretty.

Local Open Scope Z_scope.

(** ** Machine integers *)

(** [static_cast<size_t>] and arithmetic in [size_t]: reduction modulo 2^64. *)
Definition to_size_t (v : Z) : Z := v mod 2 ^ 64.

(** [static_cast<int>]: two's complement reduction to 32 bits. *)
Definition to_int (v : Z) : Z := (v + 2 ^ 31) mod 2 ^ 32 - 2 ^ 31.

Definition INT_MAX : Z := 2 ^ 31 - 1.

Definition sizeof_float : Z := 4.
Definition sizeof_complex : Z := 8.

Lemma to_size_t_id v : 0 <= v < 2 ^ 64 -> to_size_t v = v.
Proof. intros H. unfold to_size_t. now apply Z.mod_small. Qed.

Lemma to_size_t_range v : 0 <= to_size_t v < 2 ^ 64.
Proof. unfold to_size_t. apply Z.mod_pos_bound. lia. Qed.

Lemma to_int_id v : - 2 ^ 31 <= v <= INT_MAX -> to_int v = v.
Proof.
  intros H. unfold to_int, INT_MAX in *.
  rewrite Z.mod_small by lia. lia.
Qed.

(** ** Exceptions and outcomes *)

Inductive exception :=
| runtime_error (what : string)
| logic_error (what : string)
| invalid_argument (what : string).

(** The result of running a member function on an object of type [S].  An
    exception leaves the object in the state it had at the [throw]; an
    out-of-bounds access or a null dereference has no defined result; a loop
    that has not finished when the fuel is spent has not returned. *)
Inductive outcome (S A : Type) :=
| Ok (a : A) (s : S)
| Throw (e : exception) (s : S)
| Undefined
| Diverge.

Arguments Ok {S A} a s.
Arguments Throw {S A} e s.
Arguments Undefined {S A}.
Arguments Diverge {S A}.

(** The state left behind by a call that returned or threw. *)
Definition final_state {S A} (o : outcome S A) : option S :=
  match o with
  | Ok _ s | Throw _ s => Some s
  | Undefined | Diverge => None
  end.

Definition M (S A : Type) : Type := S -> outcome S A.

Definition ret {S A} (a : A) : M S A := fun s => Ok a s.

Definition bind {S A B} (m : M S A) (k : A -> M S B) : M S B :=
  fun s =>
    match m s with
    | Ok a s' => k a s'
    | Throw e s' => Throw e s'
    | Undefined => Undefined
    | Diverge => Diverge
    end.

Definition throw {S A} (e : exception) : M S A := fun s => Throw e s.
Definition undefined {S A} : M S A := fun _ => Undefined.
Definition diverge {S A} : M S A := fun _ => Diverge.
Definition gets {S A} (f : S -> A) : M S A := fun s => Ok (f s) s.
Definition modify {S} (f : S -> S) : M S unit := fun s => Ok tt (f s).

(** Dereferencing a pointer that may be null, indexing that may be out of
    range. *)
Definition deref {S A} (p : option A) : M S A :=
  match p with
  | Some a => ret a
  | None => undefined
  end.

Definition when {S} (b : bool) (m : M S unit) : M S unit :=
  if b then m else ret tt.

Declare Scope stmt_scope.
Delimit Scope stmt_scope with stmt.
Notation "'let*' v ':=' c 'in' k" := (bind c (fun v => k))
  (at level 10, v name, c at level 100, k at level 200) : stmt_scope.
Notation "c ';;;' k" := (bind c (fun _ => k))
  (at level 100, k at level 200, right associativity) : stmt_scope.

(** [for (x : l) body], left to right. *)
Fixpoint for_each {S A} (l : list A) (body : A -> M S unit) : M S unit :=
  match l with
  | [] => ret tt
  | a :: l' => bind (body a) (fun _ => for_each l' body)
  end.

Lemma bind_Ok {S A B} (m : M S A) (k : A -> M S B) s b s2 :
  bind m k s = Ok b s2 ->
  exists a s1, m s = Ok a s1 /\ k a s1 = Ok b s2.
Proof.
  unfold bind. destruct (m s) as [a s1| | |]; try discriminate.
  intros H. exists a, s1. split; [reflexivity | exact H].
Qed.

Lemma bind_Throw {S A B} (m : M S A) (k : A -> M S B) s e s2 :
  bind m k s = Throw e s2 ->
  m s = Throw e s2 \/ exists a s1, m s = Ok a s1 /\ k a s1 = Throw e s2.
Proof.
  unfold bind. destruct (m s) as [a s1|e' s1| |]; try discriminate.
  - intros H. right. exists a, s1. split; [reflexivity | exact H].
  - intros [= -> ->]. left. reflexivity.
Qed.

Lemma deref_Ok {S A} (p : option A) (s : S) a s' :
  deref p s = Ok a s' -> p = Some a /\ s' = s.
Proof. destruct p; cbn; [intros [= -> ->]; auto | discriminate]. Qed.

(** ** The CUDA runtime calls the engine issues *)

Inductive fft_direction := CUFFT_FORWARD | CUFFT_INVERSE.

Inductive kernel_name :=
| MemsetKernel
| FixedAlgKernel (arc phase lut : bool)
| SplineAlgKernel (arc phase lut : bool)
| MultiplyFftKernel
| DemodulateKernel
| ScaleSignalKernel.

(** One entry per call into the CUDA runtime or cuFFT, in program order. *)
Inductive api_call :=
| call_cudaStreamCreate
| call_cudaMalloc (bytes : Z)
| call_cudaMallocHost (bytes : Z)
| call_cudaMalloc3DArray (width height depth : Z)
| call_cufftPlan1d (nx : Z)
| call_cudaMemcpyHostToDevice (bytes : Z)
| call_cudaMemcpyDeviceToHost (bytes : Z)
| call_cudaMemcpyToSymbol (bytes offset : Z)
| call_cudaSetDevice (device : Z)
| call_cufftExecC2C (direction : fft_direction)
| call_launch (k : kernel_name) (grid block : Z)
| call_cudaDeviceSynchronize.

(** The calls that create a stream or reserve device or pinned host memory. *)
Definition is_allocation (c : api_call) : bool :=
  match c with
  | call_cudaStreamCreate | call_cudaMalloc _ | call_cudaMallocHost _
  | call_cudaMalloc3DArray _ _ _ | call_cufftPlan1d _ => true
  | _ => false
  end.

(** The calls that move data onto the device. *)
Definition is_upload (c : api_call) : bool :=
  match c with
  | call_cudaMemcpyHostToDevice _ | call_cudaMemcpyToSymbol _ _ => true
  | _ => false
  end.

Definition is_projection (c : api_call) : bool :=
  match c with
  | call_launch (FixedAlgKernel _ _ _) _ _
  | call_launch (SplineAlgKernel _ _ _) _ _ => true
  | _ => false
  end.

(** [DeviceBufferRAII<T>] and [HostPinnedBufferRAII<T>]: the byte count they
    were created with and the elements they hold. *)
Record BufferRAII (T : Type) := {
  get_num_bytes : Z;
  data : list T;
}.
Arguments get_num_bytes {T} _.
Arguments data {T} _.

Section Engine.

(** ** Data model *)

(** [float], [std::complex<float>] (the device's [cuComplex] has the same
    layout) and the [double] of the diagnostic log.  The development never
    looks inside them: their arithmetic is the platform's. *)
Context {float complex double : Type}.

Record vector3 := { x3 : float; y3 : float; z3 : float }.

(** One direction of the scan: where it starts, its orthonormal triad, and
    the time at which it is fired. *)
Record Scanline := {
  get_origin : vector3;
  get_direction : vector3;
  get_lateral_dir : vector3;
  get_elevational_dir : vector3;
  get_timestamp : float;
}.

Record ScanSequence := {
  line_length : float;
  scanlines : list Scanline;
}.

Definition get_num_lines (seq : ScanSequence) : Z :=
  Z.of_nat (length (scanlines seq)).

Definition get_scanline (seq : ScanSequence) (beam_no : Z) : option Scanline :=
  scanlines seq !! Z.to_nat beam_no.

Record ExcitationSignal := {
  samples : list float;
  sampling_frequency : float;
  demod_freq : float;
  center_index : Z;
}.

Record PointScatterer := { pos : vector3; amplitude : float }.

Record FixedScatterers := { scatterers : list PointScatterer }.

Record SplineScatterers := {
  spline_degree : Z;
  knot_vector : list float;
  control_points : list (list vector3);
  amplitudes : list float;
}.

Record Interval := { first : float; last : float }.

Record LUTBeamProfile := {
  getNumSamplesRadial : Z;
  getNumSamplesLateral : Z;
  getNumSamplesElevational : Z;
  getRangeRange : Interval;
  getLateralRange : Interval;
  getElevationalRange : Interval;
  sampleProfile : float -> float -> float -> float;
}.

(** The dynamic type behind an [IBeamProfile::s_ptr]. *)
Inductive IBeamProfile :=
| GaussianBeamProfile (getSigmaLateral getSigmaElevational : float)
| LookupBeamProfile (lut : LUTBeamProfile).

Inductive BeamProfileType := NOT_CONFIGURED | ANALYTICAL | LOOKUP.

Definition is_NOT_CONFIGURED (ty : BeamProfileType) : bool :=
  match ty with NOT_CONFIGURED => true | _ => false end.

(** [DeviceBeamProfileRAII]: a 3D array of the given extent, bound to a
    texture. *)
Record DeviceBeamProfileRAII := {
  table_extent : Z * Z * Z;
  table_samples : list float;
}.

Record LutExtent := {
  r_min : float; r_max : float;
  l_min : float; l_max : float;
  e_min : float; e_max : float;
}.

Record cudaDeviceProp := { maxGridSize0 : Z }.

(** The members of [BaseAlgorithm] this file reads. *)
Record BaseAlgorithm := {
  m_param_verbose : bool;
  m_param_sound_speed : float;
  m_radial_decimation : Z;
  m_param_use_arc_projection : bool;
  m_enable_phase_delay : bool;
}.

Record FixedAlgKernelParams := {
  fp_point_xs : list float;
  fp_point_ys : list float;
  fp_point_zs : list float;
  fp_point_as : list float;
  fp_rad_dir : vector3;
  fp_lat_dir : vector3;
  fp_ele_dir : vector3;
  fp_origin : vector3;
  fp_fs_hertz : float;
  fp_num_time_samples : Z;
  fp_sigma_lateral : float;
  fp_sigma_elevational : float;
  fp_sound_speed : float;
  fp_demod_freq : float;
  fp_num_scatterers : Z;
  fp_lut_tex : DeviceBeamProfileRAII;
  fp_lut : LutExtent;
}.

Record SplineAlgKernelParams := {
  sp_control_xs : list float;
  sp_control_ys : list float;
  sp_control_zs : list float;
  sp_control_as : list float;
  sp_rad_dir : vector3;
  sp_lat_dir : vector3;
  sp_ele_dir : vector3;
  sp_origin : vector3;
  sp_fs_hertz : float;
  sp_num_time_samples : Z;
  sp_sigma_lateral : float;
  sp_sigma_elevational : float;
  sp_sound_speed : float;
  sp_cs_idx_start : Z;
  sp_cs_idx_end : Z;
  sp_NUM_SPLINES : Z;
  sp_eval_basis : list float;
  sp_eval_basis_offset_elements : Z;
  sp_demod_freq : float;
  sp_lut_tex : DeviceBeamProfileRAII;
  sp_lut : LutExtent;
}.

(** ** What the sources leave open *)

(** Single-precision arithmetic and conversions. *)
Class FloatArith := {
  float_lit : Z -> float;
  float_of_int : Z -> float;
  float_PI : float;
  fadd : float -> float -> float;
  fsub : float -> float -> float;
  fmul : float -> float -> float;
  fdiv : float -> float -> float;
  make_complex : float -> float -> complex;
  double_of_size_t : Z -> double;
}.

(** The machine the engine runs on: the devices that are present, the parse
    of a decimal parameter value ([None]: [std::stoi] throws), the reading of
    an event timer, and what freshly reserved memory holds. *)
Class Platform := {
  cudaGetDeviceCount : Z;
  cudaGetDeviceProperties : Z -> cudaDeviceProp;
  stoi : string -> option Z;
  timer_stop : nat -> double;
  fresh_float : float;
  fresh_complex : complex;
}.

(** Declarations of this repository that [GpuAlgorithm.cpp] includes but
    that are not among the sources: [common_utils.hpp],
    [common_definitions.h], [discrete_hilbert_mask.hpp], [bspline.hpp], the
    base class and the default-constructed members. *)
Class Collaborators := {
  compute_num_rf_samples : float -> float -> float -> Z;
  MAX_NUM_CUDA_STREAMS : Z;
  MAX_SPLINE_DEGREE : Z;
  BaseAlgorithm_new : BaseAlgorithm;
  BaseAlgorithm_set_parameter : string -> string -> M BaseAlgorithm unit;
  ExcitationSignal_new : ExcitationSignal;
  LutExtent_new : LutExtent;
  sigma_new : float;
  discrete_hilbert_mask : Z -> list complex;
  bsplineBasis : Z -> Z -> float -> list float -> float;
  get_lower_upper_inds : list float -> float -> Z -> Z * Z;
  sanity_check_spline_lower_upper_bound : list float -> Z -> Z -> bool;
  splineAlg2_updateConstantMemory : list float -> Z -> Z -> bool;
}.

(** [cuda_kernels_c_interface.h] and cuFFT.  A kernel that works in place on
    [n] samples is given by the value it leaves at each index, as a function
    of the [n] samples it found. *)
Class CudaKernels := {
  run_FixedAlgKernel :
    bool -> bool -> bool -> Z -> Z -> FixedAlgKernelParams ->
    list complex -> nat -> complex;
  run_SplineAlgKernel :
    bool -> bool -> bool -> Z -> Z -> SplineAlgKernelParams ->
    list complex -> nat -> complex;
  run_cufftExecC2C : fft_direction -> list complex -> nat -> complex;
  run_MultiplyFftKernel : list complex -> list complex -> nat -> complex;
  run_DemodulateKernel : float -> list complex -> nat -> complex;
  run_ScaleSignalKernel : float -> list complex -> nat -> complex;
}.

Context `{FA : FloatArith} `{PF : Platform} `{CO : Collaborators}
        `{KE : CudaKernels}.


(** ** The object *)

Record Params := {
  m_param_cuda_device_no : Z;
  m_param_num_cuda_streams : Z;
  m_param_threads_per_block : Z;
  m_store_kernel_details : bool;
}.

Record LineBuffers := {
  m_num_time_samples : Z;
  m_num_beams_allocated : Z;
  m_device_time_proj : list (BufferRAII complex);
  m_host_rf_lines : list (BufferRAII complex);
}.

Record ExcitationState := {
  m_excitation : ExcitationSignal;
  m_device_excitation_fft : option (BufferRAII complex);
  m_fft_plan : option Z;
}.

Record BeamProfileState := {
  m_cur_beam_profile_type : BeamProfileType;
  m_analytical_sigma_lat : float;
  m_analytical_sigma_ele : float;
  m_device_beam_profile : option DeviceBeamProfileRAII;
  m_lut : LutExtent;
}.

Record FixedState := {
  m_num_fixed_scatterers : Z;
  m_device_point_xs : option (BufferRAII float);
  m_device_point_ys : option (BufferRAII float);
  m_device_point_zs : option (BufferRAII float);
  m_device_point_as : option (BufferRAII float);
}.

Record SplineState := {
  m_num_spline_scatterers : Z;
  m_spline_degree : Z;
  m_num_cs : Z;
  m_device_control_xs : option (BufferRAII float);
  m_device_control_ys : option (BufferRAII float);
  m_device_control_zs : option (BufferRAII float);
  m_device_control_as : option (BufferRAII float);
  m_common_knots : list float;
}.

(** The members of [GpuAlgorithm], grouped by the part of the engine that
    owns them, and the calls it has made into the CUDA runtime so far. *)
Record GpuAlgorithm := {
  base : BaseAlgorithm;
  params : Params;
  m_can_change_cuda_device : bool;
  m_cur_device_prop : cudaDeviceProp;
  m_stream_wrappers : list unit;
  m_debug_data : gmap string (list double);
  m_scan_seq : option ScanSequence;
  line_buffers : LineBuffers;
  excitation : ExcitationState;
  beam_profile : BeamProfileState;
  fixed : FixedState;
  spline : SplineState;
  cuda_trace : list api_call;
}.

(** Assignment to one member. *)
Definition upd_base v (s : GpuAlgorithm) : GpuAlgorithm :=
  {| base := v;
     params := params s;
     m_can_change_cuda_device := m_can_change_cuda_device s;
     m_cur_device_prop := m_cur_device_prop s;
     m_stream_wrappers := m_stream_wrappers s;
     m_debug_data := m_debug_data s;
     m_scan_seq := m_scan_seq s;
     line_buffers := line_buffers s;
     excitation := excitation s;
     beam_profile := beam_profile s;
     fixed := fixed s;
     spline := spline s;
     cuda_trace := cuda_trace s |}.

Definition upd_params v (s : GpuAlgorithm) : GpuAlgorithm :=
  {| base := base s;
     params := v;
     m_can_change_cuda_device := m_can_change_cuda_device s;
     m_cur_device_prop := m_cur_device_prop s;
     m_stream_wrappers := m_stream_wrappers s;
     m_debug_data := m_debug_data s;
     m_scan_seq := m_scan_seq s;
     line_buffers := line_buffers s;
     excitation := excitation s;
     beam_profile := beam_profile s;
     fixed := fixed s;
     spline := spline s;
     cuda_trace := cuda_trace s |}.

Definition upd_m_can_change_cuda_device v (s : GpuAlgorithm) : GpuAlgorithm :=
  {| base := base s;
     params := params s;
     m_can_change_cuda_device := v;
     m_cur_device_prop := m_cur_device_prop s;
     m_stream_wrappers := m_stream_wrappers s;
     m_debug_data := m_debug_data s;
     m_scan_seq := m_scan_seq s;
     line_buffers := line_buffers s;
     excitation := excitation s;
     beam_profile := beam_profile s;
     fixed := fixed s;
     spline := spline s;
     cuda_trace := cuda_trace s |}.

Definition upd_m_cur_device_prop v (s : GpuAlgorithm) : GpuAlgorithm :=
  {| base := base s;
     params := params s;
     m_can_change_cuda_device := m_can_change_cuda_device s;
     m_cur_device_prop := v;
     m_stream_wrappers := m_stream_wrappers s;
     m_debug_data := m_debug_data s;
     m_scan_seq := m_scan_seq s;
     line_buffers := line_buffers s;
     excitation := excitation s;
     beam_profile := beam_profile s;
     fixed := fixed s;
     spline := spline s;
     cuda_trace := cuda_trace s |}.

Definition upd_m_stream_wrappers v (s : GpuAlgorithm) : GpuAlgorithm :=
  {| base := base s;
     params := params s;
     m_can_change_cuda_device := m_can_change_cuda_device s;
     m_cur_device_prop := m_cur_device_prop s;
     m_stream_wrappers := v;
     m_debug_data := m_debug_data s;
     m_scan_seq := m_scan_seq s;
     line_buffers := line_buffers s;
     excitation := excitation s;
     beam_profile := beam_profile s;
     fixed := fixed s;
     spline := spline s;
     cuda_trace := cuda_trace s |}.

Definition upd_m_debug_data v (s : GpuAlgorithm) : GpuAlgorithm :=
  {| base := base s;
     params := params s;
     m_can_change_cuda_device := m_can_change_cuda_device s;
     m_cur_device_prop := m_cur_device_prop s;
     m_stream_wrappers := m_stream_wrappers s;
     m_debug_data := v;
     m_scan_seq := m_scan_seq s;
     line_buffers := line_buffers s;
     excitation := excitation s;
     beam_profile := beam_profile s;
     fixed := fixed s;
     spline := spline s;
     cuda_trace := cuda_trace s |}.

Definition upd_m_scan_seq v (s : GpuAlgorithm) : GpuAlgorithm :=
  {| base := base s;
     params := params s;
     m_can_change_cuda_device := m_can_change_cuda_device s;
     m_cur_device_prop := m_cur_device_prop s;
     m_stream_wrappers := m_stream_wrappers s;
     m_debug_data := m_debug_data s;
     m_scan_seq := v;
     line_buffers := line_buffers s;
     excitation := excitation s;
     beam_profile := beam_profile s;
     fixed := fixed s;
     spline := spline s;
     cuda_trace := cuda_trace s |}.

Definition upd_line_buffers v (s : GpuAlgorithm) : GpuAlgorithm :=
  {| base := base s;
     params := params s;
     m_can_change_cuda_device := m_can_change_cuda_device s;
     m_cur_device_prop := m_cur_device_prop s;
     m_stream_wrappers := m_stream_wrappers s;
     m_debug_data := m_debug_data s;
     m_scan_seq := m_scan_seq s;
     line_buffers := v;
     excitation := excitation s;
     beam_profile := beam_profile s;
     fixed := fixed s;
     spline := spline s;
     cuda_trace := cuda_trace s |}.

Definition upd_excitation v (s : GpuAlgorithm) : GpuAlgorithm :=
  {| base := base s;
     params := params s;
     m_can_change_cuda_device := m_can_change_cuda_device s;
     m_cur_device_prop := m_cur_device_prop s;
     m_stream_wrappers := m_stream_wrappers s;
     m_debug_data := m_debug_data s;
     m_scan_seq := m_scan_seq s;
     line_buffers := line_buffers s;
     excitation := v;
     beam_profile := beam_profile s;
     fixed := fixed s;
     spline := spline s;
     cuda_trace := cuda_trace s |}.

Definition upd_beam_profile v (s : GpuAlgorithm) : GpuAlgorithm :=
  {| base := base s;
     params := params s;
     m_can_change_cuda_device := m_can_change_cuda_device s;
     m_cur_device_prop := m_cur_device_prop s;
     m_stream_wrappers := m_stream_wrappers s;
     m_debug_data := m_debug_data s;
     m_scan_seq := m_scan_seq s;
     line_buffers := line_buffers s;
     excitation := excitation s;
     beam_profile := v;
     fixed := fixed s;
     spline := spline s;
     cuda_trace := cuda_trace s |}.

Definition upd_fixed v (s : GpuAlgorithm) : GpuAlgorithm :=
  {| base := base s;
     params := params s;
     m_can_change_cuda_device := m_can_change_cuda_device s;
     m_cur_device_prop := m_cur_device_prop s;
     m_stream_wrappers := m_stream_wrappers s;
     m_debug_data := m_debug_data s;
     m_scan_seq := m_scan_seq s;
     line_buffers := line_buffers s;
     excitation := excitation s;
     beam_profile := beam_profile s;
     fixed := v;
     spline := spline s;
     cuda_trace := cuda_trace s |}.

Definition upd_spline v (s : GpuAlgorithm) : GpuAlgorithm :=
  {| base := base s;
     params := params s;
     m_can_change_cuda_device := m_can_change_cuda_device s;
     m_cur_device_prop := m_cur_device_prop s;
     m_stream_wrappers := m_stream_wrappers s;
     m_debug_data := m_debug_data s;
     m_scan_seq := m_scan_seq s;
     line_buffers := line_buffers s;
     excitation := excitation s;
     beam_profile := beam_profile s;
     fixed := fixed s;
     spline := v;
     cuda_trace := cuda_trace s |}.

Definition upd_cuda_trace v (s : GpuAlgorithm) : GpuAlgorithm :=
  {| base := base s;
     params := params s;
     m_can_change_cuda_device := m_can_change_cuda_device s;
     m_cur_device_prop := m_cur_device_prop s;
     m_stream_wrappers := m_stream_wrappers s;
     m_debug_data := m_debug_data s;
     m_scan_seq := m_scan_seq s;
     line_buffers := line_buffers s;
     excitation := excitation s;
     beam_profile := beam_profile s;
     fixed := fixed s;
     spline := spline s;
     cuda_trace := v |}.


(** ** Helpers shared by the member functions *)

Local Open Scope stmt_scope.

Abbreviation St := (M GpuAlgorithm).

(** A call into the CUDA runtime is appended to the trace. *)
Definition api (c : api_call) : St unit :=
  modify (fun s => upd_cuda_trace (cuda_trace s ++ [c]) s).

(** A member function of the base class runs on the base-class members. *)
Definition lift_base {A} (m : M BaseAlgorithm A) : St A :=
  fun s =>
    match m (base s) with
    | Ok a b => Ok a (upd_base b s)
    | Throw e b => Throw e (upd_base b s)
    | Undefined => Undefined
    | Diverge => Diverge
    end.

(** [new DeviceBufferRAII<T>(bytes)] and [new HostPinnedBufferRAII<T>(bytes)]:
    room for [bytes / sizeof(T)] elements of unspecified content. *)
Definition new_buffer {T} (fill : T) (size bytes : Z) : BufferRAII T :=
  {| get_num_bytes := bytes;
     data := replicate (Z.to_nat (bytes / size)) fill |}.

Definition new_DeviceBufferRAII {T} (fill : T) (size bytes : Z)
  : St (BufferRAII T) :=
  api (call_cudaMalloc bytes) ;;; ret (new_buffer fill size bytes).

Definition new_HostPinnedBufferRAII {T} (fill : T) (size bytes : Z)
  : St (BufferRAII T) :=
  api (call_cudaMallocHost bytes) ;;; ret (new_buffer fill size bytes).

Fixpoint repeatM {A} (n : nat) (m : St A) : St (list A) :=
  match n with
  | O => ret []
  | S n' => let* a := m in let* l := repeatM n' m in ret (a :: l)
  end.

(** [cudaMemcpy] of [count] elements from [src] to the start of [dst]. *)
Definition memcpy {T} (dst src : list T) (count : nat) : option (list T) :=
  if decide (count <= length dst /\ count <= length src)%nat
  then Some (take count src ++ drop count dst)
  else None.

(** A kernel that rewrites the first [n] elements of a buffer in place. *)
Definition in_place {T} (n : nat) (f : list T -> nat -> T) (buf : list T)
  : option (list T) :=
  if decide (n <= length buf)%nat
  then Some (map (f (take n buf)) (seq 0 n) ++ drop n buf)
  else None.

(** Modelled from the spec: [launch_MemsetKernel] of
    cuda_kernels_c_interface.h is not among the sources; "zero the projection
    buffer": each of the [n] elements is set to [value]. *)
Definition run_MemsetKernel {T} (value : T) : list T -> nat -> T :=
  fun _ _ => value.

(** [v[i] = x] on a [std::vector] or through a raw pointer. *)
Definition store {T} (l : list T) (i : Z) (v : T) : option (list T) :=
  if decide (0 <= i < Z.of_nat (length l))
  then Some (<[Z.to_nat i := v]> l)
  else None.

(** Modelled from the spec: [round_up_div] of cuda_helpers.h is not among the
    sources; "block count = ceil(scatterer_count / threads_per_block)". *)
Definition round_up_div (num den : Z) : Z := (num + den - 1) `quot` den.

(** [m_debug_data[key].push_back(v)]. *)
Definition debug_push (key : string) (v : double) : St unit :=
  modify (fun s =>
    upd_m_debug_data
      (<[key := default [] (m_debug_data s !! key) ++ [v]]> (m_debug_data s)) s).

(** [m_debug_data[key].push_back(static_cast<double>(event_timer->stop()))];
    the reading depends on when it is taken. *)
Definition debug_timer (key : string) : St unit :=
  let* now := gets (fun s => length (cuda_trace s)) in
  debug_push key (timer_stop now).

(** ** Device selection and parameters *)

Definition get_num_cuda_devices : St Z := ret cudaGetDeviceCount.

Definition save_cuda_device_properties : St unit :=
  let* num_devices := get_num_cuda_devices in
  let* device_no := gets (fun s => m_param_cuda_device_no (params s)) in
  if (device_no <? 0) || (device_no >=? num_devices)
  then throw (runtime_error "illegal CUDA device number")
  else modify (upd_m_cur_device_prop (cudaGetDeviceProperties device_no)).

Definition upd_m_param_cuda_device_no v (p : Params) : Params :=
  {| m_param_cuda_device_no := v;
     m_param_num_cuda_streams := m_param_num_cuda_streams p;
     m_param_threads_per_block := m_param_threads_per_block p;
     m_store_kernel_details := m_store_kernel_details p |}.

Definition upd_m_param_num_cuda_streams v (p : Params) : Params :=
  {| m_param_cuda_device_no := m_param_cuda_device_no p;
     m_param_num_cuda_streams := v;
     m_param_threads_per_block := m_param_threads_per_block p;
     m_store_kernel_details := m_store_kernel_details p |}.

Definition upd_m_param_threads_per_block v (p : Params) : Params :=
  {| m_param_cuda_device_no := m_param_cuda_device_no p;
     m_param_num_cuda_streams := m_param_num_cuda_streams p;
     m_param_threads_per_block := v;
     m_store_kernel_details := m_store_kernel_details p |}.

Definition upd_m_store_kernel_details v (p : Params) : Params :=
  {| m_param_cuda_device_no := m_param_cuda_device_no p;
     m_param_num_cuda_streams := m_param_num_cuda_streams p;
     m_param_threads_per_block := m_param_threads_per_block p;
     m_store_kernel_details := v |}.

Definition std_stoi (value : string) : St Z :=
  match stoi value with
  | Some n => ret n
  | None => throw (invalid_argument "stoi")
  end.

Definition set_parameter (key value : string) : St unit :=
  if decide (key = "gpu_device") then
    let* can_change := gets m_can_change_cuda_device in
    if negb can_change then
      throw (runtime_error "cannot change CUDA device now")
    else
      let* device_count := get_num_cuda_devices in
      let* device_no := std_stoi value in
      if (device_no <? 0) || (device_no >=? device_count) then
        throw (runtime_error "illegal device number")
      else
        modify (fun s => upd_params (upd_m_param_cuda_device_no device_no (params s)) s) ;;;
        api (call_cudaSetDevice device_no) ;;;
        save_cuda_device_properties
  else if decide (key = "cuda_streams") then
    let* num_streams := std_stoi value in
    if num_streams >? MAX_NUM_CUDA_STREAMS then
      throw (runtime_error "number of CUDA streams exceeds MAX_NUM_CUDA_STREAMS")
    else if num_streams <=? 0 then
      throw (runtime_error "number of CUDA streams must be more than zero")
    else
      modify (fun s => upd_params (upd_m_param_num_cuda_streams num_streams (params s)) s)
  else if decide (key = "threads_per_block") then
    let* threads_per_block := std_stoi value in
    if threads_per_block <=? 0 then
      throw (runtime_error "invalid number of threads per block")
    else
      modify (fun s => upd_params (upd_m_param_threads_per_block threads_per_block (params s)) s)
  else if decide (key = "noise_amplitude") then
    throw (runtime_error "noise is not yet implemented in GPU algorithms")
  else if decide (key = "store_kernel_details") then
    if decide (value = "on" \/ value = "true") then
      modify (fun s => upd_params (upd_m_store_kernel_details true (params s)) s)
    else if decide (value = "off" \/ value = "false") then
      modify (fun s => upd_params (upd_m_store_kernel_details false (params s)) s)
    else
      throw (runtime_error "invalid value")
  else
    lift_base (BaseAlgorithm_set_parameter key value).

Definition create_cuda_stream_wrappers (num_streams : Z) : St unit :=
  modify (upd_m_stream_wrappers []) ;;;
  for_each (seqZ 0 num_streams) (fun _ =>
    api call_cudaStreamCreate ;;;
    modify (fun s => upd_m_stream_wrappers (m_stream_wrappers s ++ [tt]) s)) ;;;
  modify (upd_m_can_change_cuda_device false).

(** ** Beam profiles *)

Definition upd_m_device_beam_profile v (b : BeamProfileState) : BeamProfileState :=
  {| m_cur_beam_profile_type := m_cur_beam_profile_type b;
     m_analytical_sigma_lat := m_analytical_sigma_lat b;
     m_analytical_sigma_ele := m_analytical_sigma_ele b;
     m_device_beam_profile := v;
     m_lut := m_lut b |}.

(** [new DeviceBeamProfileRAII(extent, samples)]. *)
Definition new_DeviceBeamProfileRAII (extent : Z * Z * Z) (table : list float)
  : St DeviceBeamProfileRAII :=
  api (call_cudaMalloc3DArray extent.1.1 extent.1.2 extent.2) ;;;
  ret {| table_extent := extent; table_samples := table |}.

Definition create_dummy_lut_profile : St unit :=
  let n := 16 in
  let dummy_samples := replicate (Z.to_nat (n * n * n)) (float_lit 0) in
  let* p := new_DeviceBeamProfileRAII (n, n, n) dummy_samples in
  modify (fun s => upd_beam_profile (upd_m_device_beam_profile (Some p) (beam_profile s)) s).

Definition set_analytical_profile (profile : IBeamProfile) : St unit :=
  match profile with
  | GaussianBeamProfile sigma_lat sigma_ele =>
      modify (fun s =>
        upd_beam_profile
          {| m_cur_beam_profile_type := ANALYTICAL;
             m_analytical_sigma_lat := sigma_lat;
             m_analytical_sigma_ele := sigma_ele;
             m_device_beam_profile := m_device_beam_profile (beam_profile s);
             m_lut := m_lut (beam_profile s) |} s)
  | _ => throw (runtime_error "GpuAlgorithm: failed to cast beam profile")
  end.

(** [first + idx*(last - first)/(n - 1)], evaluated in [float]. *)
Definition grid_coordinate (range : Interval) (idx n : Z) : float :=
  fadd (first range)
       (fdiv (fmul (float_of_int idx) (fsub (last range) (first range)))
             (float_of_int (n - 1))).

(** The nest of three loops of [set_lookup_profile] that fills
    [temp_samples]. *)
Definition lookup_table_samples (lut : LUTBeamProfile) : list float :=
  let num_samples_rad := getNumSamplesRadial lut in
  let num_samples_lat := getNumSamplesLateral lut in
  let num_samples_ele := getNumSamplesElevational lut in
  let r_range := getRangeRange lut in
  let l_range := getLateralRange lut in
  let e_range := getElevationalRange lut in
  zi ← seqZ 0 num_samples_rad;
  yi ← seqZ 0 num_samples_lat;
  xi ← seqZ 0 num_samples_ele;
  let x := grid_coordinate l_range xi num_samples_lat in
  let y := grid_coordinate e_range yi num_samples_ele in
  let z := grid_coordinate r_range zi num_samples_rad in
  [sampleProfile lut z x y].

Definition set_lookup_profile (profile : IBeamProfile) : St unit :=
  match profile with
  | LookupBeamProfile lut =>
      modify (fun s =>
        upd_beam_profile
          {| m_cur_beam_profile_type := LOOKUP;
             m_analytical_sigma_lat := m_analytical_sigma_lat (beam_profile s);
             m_analytical_sigma_ele := m_analytical_sigma_ele (beam_profile s);
             m_device_beam_profile := m_device_beam_profile (beam_profile s);
             m_lut := m_lut (beam_profile s) |} s) ;;;
      let temp_samples := lookup_table_samples lut in
      let* p :=
        new_DeviceBeamProfileRAII
          (getNumSamplesLateral lut, getNumSamplesElevational lut,
           getNumSamplesRadial lut) temp_samples in
      modify (fun s =>
        upd_beam_profile
          {| m_cur_beam_profile_type := m_cur_beam_profile_type (beam_profile s);
             m_analytical_sigma_lat := m_analytical_sigma_lat (beam_profile s);
             m_analytical_sigma_ele := m_analytical_sigma_ele (beam_profile s);
             m_device_beam_profile := Some p;
             m_lut :=
               {| r_min := first (getRangeRange lut);
                  r_max := last (getRangeRange lut);
                  l_min := first (getLateralRange lut);
                  l_max := last (getLateralRange lut);
                  e_min := first (getElevationalRange lut);
                  e_max := last (getElevationalRange lut) |} |} s)
  | _ => throw (runtime_error "GpuAlgorithm: failed to cast beam profile")
  end.


(** ** Excitation and scan sequence *)

Definition complex_zero : complex := make_complex (float_lit 0) (float_lit 0).

Definition set_excitation (new_excitation : ExcitationSignal) : St unit :=
  modify (upd_m_can_change_cuda_device false) ;;;
  let* num_time_samples := gets (fun s => m_num_time_samples (line_buffers s)) in
  let n := Z.to_nat num_time_samples in
  let rf_line_bytes := to_size_t (sizeof_complex * num_time_samples) in
  let* excitation_fft := new_DeviceBufferRAII fresh_complex sizeof_complex rf_line_bytes in
  (* std::vector<std::complex<float>> temp(m_num_time_samples), then
     temp[i] = std::complex<float>(samples[i], 0.0f) for every sample *)
  let padded := map (fun v => make_complex v (float_lit 0)) (samples new_excitation) in
  let* temp :=
    (if decide (length padded <= n)%nat
     then ret (padded ++ replicate (n - length padded) complex_zero)
     else undefined) in
  api (call_cudaMemcpyHostToDevice rf_line_bytes) ;;;
  let* uploaded := deref (memcpy (data excitation_fft) temp (Z.to_nat (rf_line_bytes / sizeof_complex))) in
  api (call_cufftPlan1d num_time_samples) ;;;
  api (call_cufftExecC2C CUFFT_FORWARD) ;;;
  let* spectrum := deref (in_place n (run_cufftExecC2C CUFFT_FORWARD) uploaded) in
  let mask := discrete_hilbert_mask num_time_samples in
  let* device_hilbert_mask := new_DeviceBufferRAII fresh_complex sizeof_complex rf_line_bytes in
  api (call_cudaMemcpyHostToDevice rf_line_bytes) ;;;
  let* device_mask := deref (memcpy (data device_hilbert_mask) mask (Z.to_nat (rf_line_bytes / sizeof_complex))) in
  api (call_launch ScaleSignalKernel (num_time_samples `quot` 128) 128) ;;;
  let* scaled :=
    deref (in_place n
             (run_ScaleSignalKernel (fdiv (float_lit 1) (float_of_int num_time_samples)))
             spectrum) in
  api (call_launch MultiplyFftKernel (num_time_samples `quot` 128) 128) ;;;
  let* masked := deref (in_place n (run_MultiplyFftKernel (take n device_mask)) scaled) in
  modify (upd_excitation
            {| m_excitation := new_excitation;
               m_device_excitation_fft :=
                 Some {| get_num_bytes := rf_line_bytes; data := masked |};
               m_fft_plan := Some num_time_samples |}).

(** The number of RF samples of a line, as [simulate_lines] and
    [set_scan_sequence] compute it and compare it with [size_t] values. *)
Definition num_rf_samples_of (s : GpuAlgorithm) (seq : ScanSequence) : Z :=
  to_size_t (compute_num_rf_samples
               (m_param_sound_speed (base s))
               (line_length seq)
               (sampling_frequency (m_excitation (excitation s)))).

Definition set_scan_sequence (new_scan_sequence : ScanSequence) : St unit :=
  modify (upd_m_can_change_cuda_device false) ;;;
  modify (upd_m_scan_seq (Some new_scan_sequence)) ;;;
  let* num_rf_samples := gets (fun s => num_rf_samples_of s new_scan_sequence) in
  let* num_time_samples := gets (fun s => m_num_time_samples (line_buffers s)) in
  if num_rf_samples >? num_time_samples then
    throw (runtime_error "Too many RF samples required. TODO: remove limitation")
  else
    let num_beams := to_size_t (get_num_lines new_scan_sequence) in
    let* allocated := gets (fun s => m_num_beams_allocated (line_buffers s)) in
    if allocated <? to_int num_beams then
      let device_iq_line_bytes := to_size_t (sizeof_complex * num_time_samples) in
      let host_iq_line_bytes := to_size_t (sizeof_complex * num_time_samples) in
      let* num_streams := gets (fun s => m_param_num_cuda_streams (params s)) in
      let* device_time_proj :=
        repeatM (Z.to_nat (to_size_t num_streams))
                (new_DeviceBufferRAII fresh_complex sizeof_complex device_iq_line_bytes) in
      let* host_rf_lines :=
        repeatM (Z.to_nat num_beams)
                (new_HostPinnedBufferRAII fresh_complex sizeof_complex host_iq_line_bytes) in
      modify (upd_line_buffers
                {| m_num_time_samples := num_time_samples;
                   m_num_beams_allocated := to_int num_beams;
                   m_device_time_proj := device_time_proj;
                   m_host_rf_lines := host_rf_lines |})
    else
      ret tt.

(** ** Scatterers *)

Definition upd_m_num_fixed_scatterers v (f : FixedState) : FixedState :=
  {| m_num_fixed_scatterers := v;
     m_device_point_xs := m_device_point_xs f;
     m_device_point_ys := m_device_point_ys f;
     m_device_point_zs := m_device_point_zs f;
     m_device_point_as := m_device_point_as f |}.

Definition upd_m_num_spline_scatterers v (f : SplineState) : SplineState :=
  {| m_num_spline_scatterers := v;
     m_spline_degree := m_spline_degree f;
     m_num_cs := m_num_cs f;
     m_device_control_xs := m_device_control_xs f;
     m_device_control_ys := m_device_control_ys f;
     m_device_control_zs := m_device_control_zs f;
     m_device_control_as := m_device_control_as f;
     m_common_knots := m_common_knots f |}.

Definition clear_fixed_scatterers : St unit :=
  modify (fun s => upd_fixed (upd_m_num_fixed_scatterers 0 (fixed s)) s).

Definition clear_spline_scatterers : St unit :=
  modify (fun s => upd_spline (upd_m_num_spline_scatterers 0 (spline s)) s).

Definition has_num_bytes {T} (bytes : Z) (p : option (BufferRAII T)) : bool :=
  match p with
  | Some b => get_num_bytes b =? bytes
  | None => false
  end.

(** Fill the pinned staging buffer with one component of every scatterer and
    copy it to the device array. *)
Definition upload_component {T} (bytes : Z) (values : list T) (dst : BufferRAII T)
  : St (BufferRAII T) :=
  api (call_cudaMemcpyHostToDevice bytes) ;;;
  let* d := deref (memcpy (data dst) values (length values)) in
  ret {| get_num_bytes := get_num_bytes dst; data := d |}.

Definition copy_fixed_scatterers_to_device (sc : FixedScatterers) : St unit :=
  modify (upd_m_can_change_cuda_device false) ;;;
  let num_scatterers := Z.of_nat (length (scatterers sc)) in
  let points_common_bytes := to_size_t (num_scatterers * sizeof_float) in
  let* host_temp := new_HostPinnedBufferRAII fresh_float sizeof_float points_common_bytes in
  (* host_temp.data()[i] is written for every i < num_scatterers *)
  (if decide (length (scatterers sc) <= length (data host_temp))%nat
   then ret tt else undefined) ;;;
  let* f := gets fixed in
  let reallocate_device_mem :=
    negb (has_num_bytes points_common_bytes (m_device_point_xs f)
          && has_num_bytes points_common_bytes (m_device_point_ys f)
          && has_num_bytes points_common_bytes (m_device_point_zs f)
          && has_num_bytes points_common_bytes (m_device_point_as f)) in
  let fresh := new_DeviceBufferRAII fresh_float sizeof_float points_common_bytes in
  let* xs := (if reallocate_device_mem then fresh else deref (m_device_point_xs f)) in
  let* ys := (if reallocate_device_mem then fresh else deref (m_device_point_ys f)) in
  let* zs := (if reallocate_device_mem then fresh else deref (m_device_point_zs f)) in
  let* a_s := (if reallocate_device_mem then fresh else deref (m_device_point_as f)) in
  let* xs := upload_component points_common_bytes (map (fun p => x3 (pos p)) (scatterers sc)) xs in
  let* ys := upload_component points_common_bytes (map (fun p => y3 (pos p)) (scatterers sc)) ys in
  let* zs := upload_component points_common_bytes (map (fun p => z3 (pos p)) (scatterers sc)) zs in
  let* a_s := upload_component points_common_bytes (map amplitude (scatterers sc)) a_s in
  modify (upd_fixed
            {| m_num_fixed_scatterers := num_scatterers;
               m_device_point_xs := Some xs;
               m_device_point_ys := Some ys;
               m_device_point_zs := Some zs;
               m_device_point_as := Some a_s |}).

Definition add_fixed_scatterers (sc : FixedScatterers) : St unit :=
  copy_fixed_scatterers_to_device sc.

(** Modelled from the spec: the class [SplineScatterers] is not among the
    sources; "a collection of per-scatterer control-point sequences (each of
    length num_control_points) ... count N_spline". *)
Definition num_scatterers (sc : SplineScatterers) : Z :=
  Z.of_nat (length (control_points sc)).

Definition get_num_control_points (sc : SplineScatterers) : Z :=
  match control_points sc with
  | [] => 0
  | cs :: _ => Z.of_nat (length cs)
  end.

Fixpoint foldlM {A B} (f : B -> A -> option B) (l : list A) (b : B) : option B :=
  match l with
  | [] => Some b
  | a :: l' => b' ← f b a; foldlM f l' b'
  end.

(** The four host arrays of the spline upload. *)
Record HostControl := {
  host_control_xs : list float;
  host_control_ys : list float;
  host_control_zs : list float;
  host_control_as : list float;
}.

(** The body of the inner loop: the three stores at [offset]. *)
Definition store_control_point (sc : SplineScatterers) (N spline_no : Z)
    (h : HostControl) (i : Z) : option HostControl :=
  let offset := to_size_t (spline_no + i * N) in
  cs ← control_points sc !! Z.to_nat spline_no;
  p ← cs !! Z.to_nat i;
  xs ← store (host_control_xs h) offset (x3 p);
  ys ← store (host_control_ys h) offset (y3 p);
  zs ← store (host_control_zs h) offset (z3 p);
  Some {| host_control_xs := xs; host_control_ys := ys;
          host_control_zs := zs; host_control_as := host_control_as h |}.

(** The body of the outer loop. *)
Definition store_spline (sc : SplineScatterers) (N num_cs : Z)
    (h : HostControl) (spline_no : Z) : option HostControl :=
  a ← amplitudes sc !! Z.to_nat spline_no;
  a_s ← store (host_control_as h) spline_no a;
  foldlM (store_control_point sc N spline_no) (seqZ 0 num_cs)
         {| host_control_xs := host_control_xs h;
            host_control_ys := host_control_ys h;
            host_control_zs := host_control_zs h;
            host_control_as := a_s |}.

(** The host arrays after the two loops of the spline upload. *)
Definition reorganize_control_points (sc : SplineScatterers) (N num_cs : Z)
  : option HostControl :=
  let total_num_cs := to_size_t (N * num_cs) in
  foldlM (store_spline sc N num_cs) (seqZ 0 N)
         {| host_control_xs := replicate (Z.to_nat total_num_cs) (float_lit 0);
            host_control_ys := replicate (Z.to_nat total_num_cs) (float_lit 0);
            host_control_zs := replicate (Z.to_nat total_num_cs) (float_lit 0);
            host_control_as := replicate (Z.to_nat N) (float_lit 0) |}.

Definition copy_spline_scatterers_to_device (sc : SplineScatterers) : St unit :=
  modify (upd_m_can_change_cuda_device false) ;;;
  modify (fun s => upd_spline (upd_m_num_spline_scatterers (num_scatterers sc) (spline s)) s) ;;;
  let* N := gets (fun s => m_num_spline_scatterers (spline s)) in
  if N =? 0 then throw (runtime_error "No scatterers") else
  modify (fun s =>
    upd_spline
      {| m_num_spline_scatterers := m_num_spline_scatterers (spline s);
         m_spline_degree := spline_degree sc;
         m_num_cs := get_num_control_points sc;
         m_device_control_xs := m_device_control_xs (spline s);
         m_device_control_ys := m_device_control_ys (spline s);
         m_device_control_zs := m_device_control_zs (spline s);
         m_device_control_as := m_device_control_as (spline s);
         m_common_knots := m_common_knots (spline s) |} s) ;;;
  let* degree := gets (fun s => m_spline_degree (spline s)) in
  let* num_cs := gets (fun s => m_num_cs (spline s)) in
  if degree >? MAX_SPLINE_DEGREE then
    throw (runtime_error ("maximum spline degree supported is " +:+ pretty MAX_SPLINE_DEGREE))
  else
  let total_num_cs := to_size_t (N * num_cs) in
  let cs_num_bytes := to_size_t (total_num_cs * sizeof_float) in
  let amplitudes_num_bytes := to_size_t (N * sizeof_float) in
  let* xs := new_DeviceBufferRAII fresh_float sizeof_float cs_num_bytes in
  let* ys := new_DeviceBufferRAII fresh_float sizeof_float cs_num_bytes in
  let* zs := new_DeviceBufferRAII fresh_float sizeof_float cs_num_bytes in
  let* a_s := new_DeviceBufferRAII fresh_float sizeof_float amplitudes_num_bytes in
  let* host := deref (reorganize_control_points sc N num_cs) in
  let* xs := upload_component cs_num_bytes (host_control_xs host) xs in
  let* ys := upload_component cs_num_bytes (host_control_ys host) ys in
  let* zs := upload_component cs_num_bytes (host_control_zs host) zs in
  let* a_s := upload_component amplitudes_num_bytes (host_control_as host) a_s in
  modify (fun s =>
    upd_spline
      {| m_num_spline_scatterers := m_num_spline_scatterers (spline s);
         m_spline_degree := m_spline_degree (spline s);
         m_num_cs := m_num_cs (spline s);
         m_device_control_xs := Some xs;
         m_device_control_ys := Some ys;
         m_device_control_zs := Some zs;
         m_device_control_as := Some a_s;
         m_common_knots := knot_vector sc |} s).

Definition add_spline_scatterers (sc : SplineScatterers) : St unit :=
  copy_spline_scatterers_to_device sc.


(** ** Projection kernels *)

Definition upd_m_device_time_proj v (l : LineBuffers) : LineBuffers :=
  {| m_num_time_samples := m_num_time_samples l;
     m_num_beams_allocated := m_num_beams_allocated l;
     m_device_time_proj := v;
     m_host_rf_lines := m_host_rf_lines l |}.

Definition upd_m_host_rf_lines v (l : LineBuffers) : LineBuffers :=
  {| m_num_time_samples := m_num_time_samples l;
     m_num_beams_allocated := m_num_beams_allocated l;
     m_device_time_proj := m_device_time_proj l;
     m_host_rf_lines := v |}.

Definition with_data {T} (b : BufferRAII T) (d : list T) : BufferRAII T :=
  {| get_num_bytes := get_num_bytes b; data := d |}.

(** Work in place on [m_device_time_proj[stream_no]->data()]. *)
Definition on_time_proj (stream_no : Z)
    (f : list complex -> option (list complex)) : St unit :=
  let* proj := gets (fun s => m_device_time_proj (line_buffers s)) in
  let* b := deref (proj !! Z.to_nat stream_no) in
  let* d := deref (f (data b)) in
  modify (fun s =>
    upd_line_buffers
      (upd_m_device_time_proj
         (<[Z.to_nat stream_no := with_data b d]> (m_device_time_proj (line_buffers s)))
         (line_buffers s)) s).

(** The [switch] that maps the beam profile type to [use_lut]. *)
Definition use_lut_flag (what : string) : St bool :=
  let* ty := gets (fun s => m_cur_beam_profile_type (beam_profile s)) in
  match ty with
  | ANALYTICAL => ret false
  | LOOKUP => ret true
  | NOT_CONFIGURED => throw (logic_error what)
  end.

(** The chain of eight tests that picks the template instance. *)
Definition dispatch (arc phase use_lut : bool)
    (launch : bool -> bool -> bool -> St unit) : St unit :=
  if negb arc && negb phase && negb use_lut then launch false false false
  else if negb arc && negb phase && use_lut then launch false false true
  else if negb arc && phase && negb use_lut then launch false true false
  else if negb arc && phase && use_lut then launch false true true
  else if arc && negb phase && negb use_lut then launch true false false
  else if arc && negb phase && use_lut then launch true false true
  else if arc && phase && negb use_lut then launch true true false
  else if arc && phase && use_lut then launch true true true
  else throw (logic_error "this should never happen").

(** [m_device_time_proj[stream_no]->data()]: the pointer is fetched, nothing
    is read through it. *)
Definition time_proj_ptr (stream_no : Z) : St unit :=
  let* present :=
    gets (fun s => bool_decide (is_Some (m_device_time_proj (line_buffers s) !! Z.to_nat stream_no))) in
  if present then ret tt else undefined.

Definition fixed_projection_kernel (stream_no : Z) (scanline : Scanline)
    (num_blocks : Z) : St unit :=
  let* wrappers := gets m_stream_wrappers in
  let* cur_stream := deref (wrappers !! Z.to_nat stream_no) in
  let* fx := gets fixed in
  let* point_xs := deref (m_device_point_xs fx) in
  let* point_ys := deref (m_device_point_ys fx) in
  let* point_zs := deref (m_device_point_zs fx) in
  let* point_as := deref (m_device_point_as fx) in
  let* exc := gets (fun s => m_excitation (excitation s)) in
  let* num_time_samples := gets (fun s => m_num_time_samples (line_buffers s)) in
  let* bp := gets beam_profile in
  let* b := gets base in
  time_proj_ptr stream_no ;;;
  let* lut_tex := deref (m_device_beam_profile bp) in
  let kernel_params :=
    {| fp_point_xs := data point_xs;
       fp_point_ys := data point_ys;
       fp_point_zs := data point_zs;
       fp_point_as := data point_as;
       fp_rad_dir := get_direction scanline;
       fp_lat_dir := get_lateral_dir scanline;
       fp_ele_dir := get_elevational_dir scanline;
       fp_origin := get_origin scanline;
       fp_fs_hertz := sampling_frequency exc;
       fp_num_time_samples := num_time_samples;
       fp_sigma_lateral := m_analytical_sigma_lat bp;
       fp_sigma_elevational := m_analytical_sigma_ele bp;
       fp_sound_speed := m_param_sound_speed b;
       fp_demod_freq := demod_freq exc;
       fp_num_scatterers := m_num_fixed_scatterers fx;
       fp_lut_tex := lut_tex;
       fp_lut := m_lut bp |} in
  let* use_lut := use_lut_flag "unknown beam profile type" in
  let* threads := gets (fun s => m_param_threads_per_block (params s)) in
  let n := Z.to_nat num_time_samples in
  dispatch (m_param_use_arc_projection b) (m_enable_phase_delay b) use_lut
    (fun arc phase lut =>
       api (call_launch (FixedAlgKernel arc phase lut) num_blocks threads) ;;;
       on_time_proj stream_no
         (in_place n (run_FixedAlgKernel arc phase lut num_blocks threads kernel_params))).

Definition spline_projection_kernel (stream_no : Z) (scanline : Scanline)
    (num_blocks : Z) : St unit :=
  let* wrappers := gets m_stream_wrappers in
  let* cur_stream := deref (wrappers !! Z.to_nat stream_no) in
  let* sp := gets spline in
  let degree := m_spline_degree sp in
  let knots := m_common_knots sp in
  let num_nonzero := degree + 1 in
  let eval_basis_offset_elements := to_size_t (num_nonzero * stream_no) in
  let host_basis_functions :=
    map (fun i => bsplineBasis i degree (get_timestamp scanline) knots)
        (seqZ 0 (m_num_cs sp)) in
  let '(cs_idx_start, cs_idx_end) :=
    get_lower_upper_inds knots (get_timestamp scanline) degree in
  if negb (sanity_check_spline_lower_upper_bound host_basis_functions cs_idx_start cs_idx_end)
  then throw (runtime_error "b-spline basis bounds failed sanity check")
  else if negb (cs_idx_end - cs_idx_start + 1 =? num_nonzero)
  then throw (logic_error "illegal number of non-zero basis functions")
  else
  (* host_basis_functions.data() + cs_idx_start, num_nonzero floats *)
  let* eval_basis :=
    (if decide (0 <= cs_idx_start /\ 0 <= num_nonzero /\
                cs_idx_start + num_nonzero <= Z.of_nat (length host_basis_functions))
     then ret (take (Z.to_nat num_nonzero) (drop (Z.to_nat cs_idx_start) host_basis_functions))
     else undefined) in
  api (call_cudaMemcpyToSymbol (to_size_t (num_nonzero * sizeof_float))
                               (to_size_t (eval_basis_offset_elements * sizeof_float))) ;;;
  if negb (splineAlg2_updateConstantMemory eval_basis
             (to_size_t (num_nonzero * sizeof_float))
             (to_size_t (eval_basis_offset_elements * sizeof_float)))
  then throw (runtime_error "Failed to copy to symbol memory")
  else
  let* control_xs := deref (m_device_control_xs sp) in
  let* control_ys := deref (m_device_control_ys sp) in
  let* control_zs := deref (m_device_control_zs sp) in
  let* control_as := deref (m_device_control_as sp) in
  let* exc := gets (fun s => m_excitation (excitation s)) in
  let* num_time_samples := gets (fun s => m_num_time_samples (line_buffers s)) in
  let* bp := gets beam_profile in
  let* b := gets base in
  time_proj_ptr stream_no ;;;
  let* lut_tex := deref (m_device_beam_profile bp) in
  let kernel_params :=
    {| sp_control_xs := data control_xs;
       sp_control_ys := data control_ys;
       sp_control_zs := data control_zs;
       sp_control_as := data control_as;
       sp_rad_dir := get_direction scanline;
       sp_lat_dir := get_lateral_dir scanline;
       sp_ele_dir := get_elevational_dir scanline;
       sp_origin := get_origin scanline;
       sp_fs_hertz := sampling_frequency exc;
       sp_num_time_samples := to_int num_time_samples;
       sp_sigma_lateral := m_analytical_sigma_lat bp;
       sp_sigma_elevational := m_analytical_sigma_ele bp;
       sp_sound_speed := m_param_sound_speed b;
       sp_cs_idx_start := cs_idx_start;
       sp_cs_idx_end := cs_idx_end;
       sp_NUM_SPLINES := m_num_spline_scatterers sp;
       sp_eval_basis := eval_basis;
       sp_eval_basis_offset_elements := eval_basis_offset_elements;
       sp_demod_freq := demod_freq exc;
       sp_lut_tex := lut_tex;
       sp_lut := m_lut bp |} in
  let* use_lut := use_lut_flag "spline_projection_kernel(): unknown beam profile type" in
  let* threads := gets (fun s => m_param_threads_per_block (params s)) in
  let n := Z.to_nat num_time_samples in
  dispatch (m_param_use_arc_projection b) (m_enable_phase_delay b) use_lut
    (fun arc phase lut =>
       api (call_launch (SplineAlgKernel arc phase lut) num_blocks threads) ;;;
       on_time_proj stream_no
         (in_place n (run_SplineAlgKernel arc phase lut num_blocks threads kernel_params))).

(** [cudaMemcpyAsync(m_host_rf_lines[beam_no]->data(), rf_ptr, num_bytes_iq,
    cudaMemcpyDeviceToHost, cur_stream)]. *)
Definition copy_line_to_host (beam_no stream_no num_bytes_iq : Z) : St unit :=
  let* hosts := gets (fun s => m_host_rf_lines (line_buffers s)) in
  let* host := deref (hosts !! Z.to_nat beam_no) in
  let* proj := gets (fun s => m_device_time_proj (line_buffers s)) in
  let* rf := deref (proj !! Z.to_nat stream_no) in
  api (call_cudaMemcpyDeviceToHost num_bytes_iq) ;;;
  let* copied := deref (memcpy (data host) (data rf) (Z.to_nat (num_bytes_iq / sizeof_complex))) in
  modify (fun s =>
    upd_line_buffers
      (upd_m_host_rf_lines
         (<[Z.to_nat beam_no := with_data host copied]> (m_host_rf_lines (line_buffers s)))
         (line_buffers s)) s).

(** ** The pipeline *)

(** The body of the loop over the beams in [simulate_lines]. *)
Definition simulate_beam (seq : ScanSequence)
    (num_blocks_fixed num_blocks_spline : Z) (beam_no : Z) : St unit :=
  let* num_streams := gets (fun s => m_param_num_cuda_streams (params s)) in
  (if num_streams =? 0 then undefined else ret tt) ;;;
  let stream_no := to_size_t (beam_no `rem` num_streams) in
  let* wrappers := gets m_stream_wrappers in
  let* cur_stream := deref (wrappers !! Z.to_nat stream_no) in
  let* details := gets (fun s => m_store_kernel_details (params s)) in
  when details (debug_push "stream_numbers" (double_of_size_t stream_no)) ;;;
  let* scanline := deref (get_scanline seq beam_no) in
  let threads_per_line := 128 in
  let* num_time_samples := gets (fun s => m_num_time_samples (line_buffers s)) in
  let n := Z.to_nat num_time_samples in
  time_proj_ptr stream_no ;;;
  (* clear time projections *)
  api (call_launch MemsetKernel (num_time_samples `quot` threads_per_line) threads_per_line) ;;;
  on_time_proj stream_no (in_place n (run_MemsetKernel complex_zero)) ;;;
  when details (debug_timer "kernel_memset_ms") ;;;
  (* project fixed scatterers *)
  let* num_fixed := gets (fun s => m_num_fixed_scatterers (fixed s)) in
  when (num_fixed >? 0)
    (fixed_projection_kernel stream_no scanline num_blocks_fixed ;;;
     when details (debug_timer "fixed_projection_kernel_ms")) ;;;
  (* project spline scatterers *)
  let* num_spline := gets (fun s => m_num_spline_scatterers (spline s)) in
  when (num_spline >? 0)
    (spline_projection_kernel stream_no scanline num_blocks_spline ;;;
     when details (debug_timer "spline_projection_kernel_ms")) ;;;
  (* in-place forward FFT *)
  let* plan := gets (fun s => m_fft_plan (excitation s)) in
  let* nx := deref plan in
  api (call_cufftExecC2C CUFFT_FORWARD) ;;;
  on_time_proj stream_no (in_place (Z.to_nat nx) (run_cufftExecC2C CUFFT_FORWARD)) ;;;
  when details (debug_timer "kernel_forward_fft_ms") ;;;
  (* multiply with FFT of impulse response w/Hilbert transform *)
  let* excitation_fft_ptr := gets (fun s => m_device_excitation_fft (excitation s)) in
  let* excitation_fft := deref excitation_fft_ptr in
  (if decide (n <= length (data excitation_fft))%nat then ret tt else undefined) ;;;
  api (call_launch MultiplyFftKernel (num_time_samples `quot` threads_per_line) threads_per_line) ;;;
  on_time_proj stream_no (in_place n (run_MultiplyFftKernel (take n (data excitation_fft)))) ;;;
  when details (debug_timer "kernel_multiply_fft_ms") ;;;
  (* in-place inverse FFT *)
  api (call_cufftExecC2C CUFFT_INVERSE) ;;;
  on_time_proj stream_no (in_place (Z.to_nat nx) (run_cufftExecC2C CUFFT_INVERSE)) ;;;
  when details (debug_timer "kernel_inverse_fft_ms") ;;;
  (* IQ demodulation *)
  let* exc := gets (fun s => m_excitation (excitation s)) in
  let f_demod := demod_freq exc in
  let norm_f_demod := fdiv f_demod (sampling_frequency exc) in
  let normalized_angular_freq := fmul (fmul (float_of_int 2) float_PI) norm_f_demod in
  api (call_launch DemodulateKernel (num_time_samples `quot` threads_per_line) threads_per_line) ;;;
  on_time_proj stream_no (in_place n (run_DemodulateKernel normalized_angular_freq)) ;;;
  when details (debug_timer "kernel_demodulate_ms") ;;;
  (* copy to host *)
  let num_bytes_iq := to_size_t (sizeof_complex * num_time_samples) in
  copy_line_to_host beam_no stream_no num_bytes_iq ;;;
  when details (debug_timer "kernel_memcpy_ms").

(** The inner loop of the output assembly,
    [for (size_t i = ...; i < num_return_samples; i += m_radial_decimation)],
    from the current value of [i]. *)
Fixpoint collect_samples (fuel : nat) (line : list complex)
    (num_return_samples delay_compensation_num_samples radial_decimation : Z)
    (i : Z) : St (list complex) :=
  if i <? num_return_samples then
    match fuel with
    | O => diverge
    | S fuel' =>
        let* sample :=
          deref (line !! Z.to_nat (to_size_t (i + delay_compensation_num_samples))) in
        let* temp_samples :=
          collect_samples fuel' line num_return_samples
            delay_compensation_num_samples radial_decimation
            (to_size_t (i + to_size_t radial_decimation)) in
        ret (sample :: temp_samples)
    end
  else ret [].

(** The outer loop of the output assembly, over the given line numbers. *)
Fixpoint assemble_lines (fuel : nat)
    (num_return_samples delay_compensation_num_samples radial_decimation : Z)
    (line_nos : list Z) : St (list (list complex)) :=
  match line_nos with
  | [] => ret []
  | line_no :: rest =>
      let* hosts := gets (fun s => m_host_rf_lines (line_buffers s)) in
      let* host := deref (hosts !! Z.to_nat line_no) in
      let* temp_samples :=
        collect_samples fuel (data host) num_return_samples
          delay_compensation_num_samples radial_decimation 0 in
      let* rf_lines :=
        assemble_lines fuel num_return_samples delay_compensation_num_samples
          radial_decimation rest in
      ret (temp_samples :: rf_lines)
  end.

(** [simulate_lines], up to the validation: the latch, the streams, the
    diagnostic log. *)
Definition simulate_lines_prepare : St unit :=
  modify (upd_m_can_change_cuda_device false) ;;;
  let* wrappers := gets m_stream_wrappers in
  let* num_streams := gets (fun s => m_param_num_cuda_streams (params s)) in
  when (bool_decide (length wrappers = 0%nat)) (create_cuda_stream_wrappers num_streams) ;;;
  let* details := gets (fun s => m_store_kernel_details (params s)) in
  when details (modify (upd_m_debug_data ∅)).

(** [simulate_lines], from the validation on: the checks, the loop over the
    beams, the barrier and the assembly of the output. *)
Definition simulate_lines_run (fuel : nat) : St (list (list complex)) :=
  let* scan_seq := gets m_scan_seq in
  let* seq := deref scan_seq in
  let num_lines := get_num_lines seq in
  if num_lines <? 1 then throw (runtime_error "No scanlines in scansequence") else
  let* ty := gets (fun s => m_cur_beam_profile_type (beam_profile s)) in
  if is_NOT_CONFIGURED ty
  then throw (runtime_error "No beam profile is configured") else
  let* threads := gets (fun s => m_param_threads_per_block (params s)) in
  (if threads =? 0 then undefined else ret tt) ;;;
  let* max_grid := gets (fun s => maxGridSize0 (m_cur_device_prop s)) in
  let* num_fixed := gets (fun s => m_num_fixed_scatterers (fixed s)) in
  let num_blocks_fixed := round_up_div num_fixed threads in
  if num_blocks_fixed >? max_grid then
    throw (runtime_error "required number of x-blocks is larger than device supports (fixed scatterers)")
  else
  let* num_spline := gets (fun s => m_num_spline_scatterers (spline s)) in
  let num_blocks_spline := round_up_div num_spline threads in
  if num_blocks_spline >? max_grid then
    throw (runtime_error "required number of x-blocks is larger than device supports (spline scatterers)")
  else
  let* exc := gets (fun s => m_excitation (excitation s)) in
  let delay_compensation_num_samples := to_size_t (center_index exc) in
  let* num_return_samples := gets (fun s => num_rf_samples_of s seq) in
  for_each (seqZ 0 num_lines) (simulate_beam seq num_blocks_fixed num_blocks_spline) ;;;
  api call_cudaDeviceSynchronize ;;;
  let* radial_decimation := gets (fun s => m_radial_decimation (base s)) in
  assemble_lines fuel num_return_samples delay_compensation_num_samples
    radial_decimation (seqZ 0 num_lines).

Definition simulate_lines (fuel : nat) : St (list (list complex)) :=
  simulate_lines_prepare ;;; simulate_lines_run fuel.

(** ** Construction *)

(** The members as the initialiser list and the default member initialisers
    leave them, before the body of the constructor runs. *)
Definition initial_members : GpuAlgorithm :=
  {| base := BaseAlgorithm_new;
     params :=
       {| m_param_cuda_device_no := 0;
          m_param_num_cuda_streams := 2;
          m_param_threads_per_block := 128;
          m_store_kernel_details := false |};
     m_can_change_cuda_device := true;
     m_cur_device_prop := {| maxGridSize0 := 0 |};
     m_stream_wrappers := [];
     m_debug_data := ∅;
     m_scan_seq := None;
     line_buffers :=
       {| m_num_time_samples := 8192;
          m_num_beams_allocated := -1;
          m_device_time_proj := [];
          m_host_rf_lines := [] |};
     excitation :=
       {| m_excitation := ExcitationSignal_new;
          m_device_excitation_fft := None;
          m_fft_plan := None |};
     beam_profile :=
       {| m_cur_beam_profile_type := NOT_CONFIGURED;
          m_analytical_sigma_lat := sigma_new;
          m_analytical_sigma_ele := sigma_new;
          m_device_beam_profile := None;
          m_lut := LutExtent_new |};
     fixed :=
       {| m_num_fixed_scatterers := 0;
          m_device_point_xs := None;
          m_device_point_ys := None;
          m_device_point_zs := None;
          m_device_point_as := None |};
     spline :=
       {| m_num_spline_scatterers := 0;
          m_spline_degree := 0;
          m_num_cs := 0;
          m_device_control_xs := None;
          m_device_control_ys := None;
          m_device_control_zs := None;
          m_device_control_as := None;
          m_common_knots := [] |};
     cuda_trace := [] |}.

(** [GpuAlgorithm::GpuAlgorithm()]. *)
Definition GpuAlgorithm_new : outcome GpuAlgorithm unit :=
  (save_cuda_device_properties ;;; create_dummy_lut_profile) initial_members.


(** ** The public operations and their callers *)

Inductive operation :=
| call_set_parameter (key value : string)
| call_set_analytical_profile (profile : IBeamProfile)
| call_set_lookup_profile (profile : IBeamProfile)
| call_clear_fixed_scatterers
| call_clear_spline_scatterers
| call_simulate_lines (fuel : nat)
| call_set_excitation (new_excitation : ExcitationSignal)
| call_set_scan_sequence (new_scan_sequence : ScanSequence)
| call_add_fixed_scatterers (sc : FixedScatterers)
| call_add_spline_scatterers (sc : SplineScatterers).

Definition run (o : operation) : St unit :=
  match o with
  | call_set_parameter key value => set_parameter key value
  | call_set_analytical_profile profile => set_analytical_profile profile
  | call_set_lookup_profile profile => set_lookup_profile profile
  | call_clear_fixed_scatterers => clear_fixed_scatterers
  | call_clear_spline_scatterers => clear_spline_scatterers
  | call_simulate_lines fuel => simulate_lines fuel ;;; ret tt
  | call_set_excitation e => set_excitation e
  | call_set_scan_sequence seq => set_scan_sequence seq
  | call_add_fixed_scatterers sc => add_fixed_scatterers sc
  | call_add_spline_scatterers sc => add_spline_scatterers sc
  end.

(** The calls that lock the device selection: the pipeline, the excitation,
    the scan sequence and the scatterer uploads.  ([set_lookup_profile] and
    the constructor reserve a device array as well, but leave the latch
    alone.) *)
Definition allocating (o : operation) : bool :=
  match o with
  | call_simulate_lines _ | call_set_excitation _ | call_set_scan_sequence _
  | call_add_fixed_scatterers _ | call_add_spline_scatterers _ => true
  | _ => false
  end.

(** A caller that makes the calls one after the other and goes on after an
    exception with the object as the exception left it. *)
Fixpoint run_all (ops : list operation) (s : GpuAlgorithm) : option GpuAlgorithm :=
  match ops with
  | [] => Some s
  | o :: ops' =>
      match final_state (run o s) with
      | Some s' => run_all ops' s'
      | None => None
      end
  end.

(** ** Frame reasoning

    [leaves P m]: whatever state [m] returns or throws in is [P]-related to
    the state it was started in. *)

Definition leaves {S A} (P : S -> S -> Prop) (m : M S A) : Prop :=
  forall s,
    match m s with
    | Ok _ s' | Throw _ s' => P s s'
    | Undefined | Diverge => True
    end.

Section Leaves.
Context {S : Type} (P : S -> S -> Prop) `{!PreOrder P}.

Lemma leaves_ret {A} (a : A) : leaves P (ret a).
Proof. intros s. cbn. reflexivity. Qed.

Lemma leaves_throw {A} e : leaves P (@throw S A e).
Proof. intros s. cbn. reflexivity. Qed.

Lemma leaves_undefined {A} : leaves P (@undefined S A).
Proof. intros s. exact I. Qed.

Lemma leaves_diverge {A} : leaves P (@diverge S A).
Proof. intros s. exact I. Qed.

Lemma leaves_gets {A} (f : S -> A) : leaves P (gets f).
Proof. intros s. cbn. reflexivity. Qed.

Lemma leaves_deref {A} (p : option A) : leaves P (deref p).
Proof. destruct p; [apply leaves_ret | apply leaves_undefined]. Qed.

Lemma leaves_modify (f : S -> S) : (forall s, P s (f s)) -> leaves P (modify f).
Proof. intros H s. cbn. apply H. Qed.

Lemma leaves_bind {A B} (m : M S A) (k : A -> M S B) :
  leaves P m -> (forall a, leaves P (k a)) -> leaves P (bind m k).
Proof.
  intros Hm Hk s. unfold bind. specialize (Hm s).
  destruct (m s) as [a s1|e s1| |]; try exact Hm; try exact I.
  specialize (Hk a s1). destruct (k a s1); try exact I; etrans; eauto.
Qed.

Lemma leaves_when b (m : M S unit) : leaves P m -> leaves P (when b m).
Proof. intros H. destruct b; [exact H | apply leaves_ret]. Qed.

Lemma leaves_for_each {A} (l : list A) (body : A -> M S unit) :
  (forall a, leaves P (body a)) -> leaves P (for_each l body).
Proof.
  intros H. induction l as [|a l IH]; cbn.
  - apply leaves_ret.
  - apply leaves_bind; auto.
Qed.

Lemma leaves_final {A} (m : M S A) s s' :
  leaves P m -> final_state (m s) = Some s' -> P s s'.
Proof.
  intros H. specialize (H s). destruct (m s); cbn; intros [= <-]; exact H.
Qed.
End Leaves.

Section LeavesEngine.
Context (P : GpuAlgorithm -> GpuAlgorithm -> Prop) `{!PreOrder P}.

Lemma leaves_repeatM {A} n (m : St A) : leaves P m -> leaves P (repeatM n m).
Proof.
  intros H. induction n as [|n IH]; cbn.
  - apply (leaves_ret P).
  - apply (leaves_bind P); [exact H | intros a].
    apply (leaves_bind P); [exact IH | intros l]. apply (leaves_ret P).
Qed.

Lemma leaves_lift_base {A} (m : M BaseAlgorithm A) :
  (forall b s, P s (upd_base b s)) -> leaves P (lift_base m).
Proof.
  intros H s. unfold lift_base. destruct (m (base s)); try exact I; apply H.
Qed.

Lemma leaves_collect_samples fuel line nrs dc rd i :
  leaves P (collect_samples fuel line nrs dc rd i).
Proof.
  revert i. induction fuel as [|fuel IH]; intros i; cbn.
  - destruct (i <? nrs); [apply (leaves_diverge P) | apply (leaves_ret P)].
  - destruct (i <? nrs); [| apply (leaves_ret P)].
    apply (leaves_bind P); [apply (leaves_deref P) | intros x].
    apply (leaves_bind P); [apply IH | intros l]. apply (leaves_ret P).
Qed.

Lemma leaves_assemble_lines fuel nrs dc rd line_nos :
  leaves P (assemble_lines fuel nrs dc rd line_nos).
Proof.
  induction line_nos as [|j l IH]; cbn.
  - apply (leaves_ret P).
  - apply (leaves_bind P); [apply (leaves_gets P) | intros hosts].
    apply (leaves_bind P); [apply (leaves_deref P) | intros host].
    apply (leaves_bind P); [apply leaves_collect_samples | intros x].
    apply (leaves_bind P); [exact IH | intros r]. apply (leaves_ret P).
Qed.
End LeavesEngine.

(** Steps through a member function, leaving one goal [P s (f s)] for every
    assignment [modify f]. *)
Ltac leaves_step :=
  lazymatch goal with
  | |- leaves ?P (if ?b then _ else _) => destruct b
  | |- leaves ?P (match ?x with _ => _ end) => destruct x
  | |- leaves ?P _ =>
      first
        [ apply (leaves_bind P); [| intros ?]
        | apply (leaves_ret P)
        | apply (leaves_throw P)
        | apply (leaves_undefined P)
        | apply (leaves_diverge P)
        | apply (leaves_gets P)
        | apply (leaves_deref P)
        | apply (leaves_when P)
        | apply (leaves_for_each P); intros ?
        | apply (leaves_repeatM P)
        | apply (leaves_collect_samples P)
        | apply (leaves_assemble_lines P)
        | apply (leaves_lift_base P); intros ? ?
        | apply (leaves_modify P); intros ? ]
  end.

Create HintDb engine discriminated.
#[local] Hint Unfold
  api new_DeviceBufferRAII new_HostPinnedBufferRAII new_DeviceBeamProfileRAII
  debug_push debug_timer get_num_cuda_devices save_cuda_device_properties
  std_stoi set_parameter create_cuda_stream_wrappers create_dummy_lut_profile
  set_analytical_profile set_lookup_profile set_excitation set_scan_sequence
  clear_fixed_scatterers clear_spline_scatterers upload_component
  copy_fixed_scatterers_to_device add_fixed_scatterers
  copy_spline_scatterers_to_device add_spline_scatterers
  on_time_proj time_proj_ptr use_lut_flag dispatch fixed_projection_kernel
  spline_projection_kernel copy_line_to_host simulate_beam
  simulate_lines_prepare simulate_lines_run simulate_lines run : engine.

Ltac leaves_tac := autounfold with engine; repeat leaves_step.

(** *** The latch only ever goes from unlocked to locked *)

Definition stays_locked (s s' : GpuAlgorithm) : Prop :=
  m_can_change_cuda_device s = false -> m_can_change_cuda_device s' = false.

#[local] Instance stays_locked_preorder : PreOrder stays_locked.
Proof. split; [intros s; red; auto | intros s1 s2 s3 H1 H2; red; auto]. Qed.

Lemma run_stays_locked o : leaves stays_locked (run o).
Proof.
  destruct o; leaves_tac; red; cbn; auto.
Qed.

(** *** Calls that do not allocate leave the latch alone *)

Definition same_latch (s s' : GpuAlgorithm) : Prop :=
  m_can_change_cuda_device s' = m_can_change_cuda_device s.

#[local] Instance same_latch_preorder : PreOrder same_latch.
Proof. split; [intros s; red; auto | intros s1 s2 s3 H1 H2; unfold same_latch in *; congruence]. Qed.

Lemma run_same_latch o : allocating o = false -> leaves same_latch (run o).
Proof.
  destruct o; try discriminate; intros _; leaves_tac; red; cbn; auto.
Qed.

Lemma GpuAlgorithm_new_unlocked s0 :
  GpuAlgorithm_new = Ok tt s0 -> m_can_change_cuda_device s0 = true.
Proof.
  intros H.
  assert (L : leaves same_latch (save_cuda_device_properties ;;; create_dummy_lut_profile))
    by (leaves_tac; red; cbn; auto).
  specialize (L initial_members). unfold GpuAlgorithm_new in H.
  rewrite H in L. exact L.
Qed.

Lemma run_all_same_latch ops s s' :
  forallb (fun o => negb (allocating o)) ops = true ->
  run_all ops s = Some s' ->
  m_can_change_cuda_device s' = m_can_change_cuda_device s.
Proof.
  revert s. induction ops as [|o ops IH]; cbn; intros s Hops Hrun.
  - congruence.
  - apply andb_prop in Hops as [Ho Hops].
    destruct (final_state (run o s)) as [s1|] eqn:E; [| discriminate].
    rewrite (IH s1 Hops Hrun).
    apply (leaves_final same_latch (run o)); [| exact E].
    apply run_same_latch. now destruct (allocating o).
Qed.

Lemma run_all_stays_locked ops s s' :
  m_can_change_cuda_device s = false ->
  run_all ops s = Some s' ->
  m_can_change_cuda_device s' = false.
Proof.
  revert s. induction ops as [|o ops IH]; cbn; intros s Hs Hrun.
  - congruence.
  - destruct (final_state (run o s)) as [s1|] eqn:E; [| discriminate].
    apply (IH s1); [| exact Hrun].
    apply (leaves_final stays_locked (run o) s s1 (run_stays_locked o) E Hs).
Qed.

Lemma set_gpu_device_locked s value :
  m_can_change_cuda_device s = false ->
  set_parameter "gpu_device" value s
  = Throw (runtime_error "cannot change CUDA device now") s.
Proof.
  intros H. unfold set_parameter. rewrite decide_True by reflexivity.
  unfold bind, gets. rewrite H. reflexivity.
Qed.

Lemma set_gpu_device_unlocked s value n :
  m_can_change_cuda_device s = true ->
  stoi value = Some n ->
  0 <= n < cudaGetDeviceCount ->
  exists s',
    set_parameter "gpu_device" value s = Ok tt s' /\
    m_param_cuda_device_no (params s') = n /\
    m_cur_device_prop s' = cudaGetDeviceProperties n.
Proof.
  intros H Hv Hn.
  assert (Hc : (n <? 0) || (n >=? cudaGetDeviceCount) = false) by lia.
  unfold set_parameter. rewrite decide_True by reflexivity.
  unfold save_cuda_device_properties, get_num_cuda_devices, std_stoi, api,
    modify, gets, bind, ret.
  rewrite H, Hv. cbn. rewrite !Hc.
  eexists. split; [reflexivity |]. cbn. auto.
Qed.

(** Creating the streams cannot fail. *)
Lemma create_cuda_stream_wrappers_Ok num_streams s :
  exists s',
    create_cuda_stream_wrappers num_streams s = Ok tt s' /\
    m_can_change_cuda_device s' = false /\
    m_stream_wrappers s' = replicate (Z.to_nat num_streams) tt.
Proof.
  unfold create_cuda_stream_wrappers.
  set (body := fun _ : Z => _).
  assert (L : forall l u, exists u',
             for_each l body u = Ok tt u' /\
             m_stream_wrappers u' = m_stream_wrappers u ++ replicate (length l) tt).
  { induction l as [|a l IH]; intros u; cbn.
    - exists u. split; [reflexivity |]. now rewrite app_nil_r.
    - edestruct IH as (u' & E & W). exists u'. split; [exact E |].
      rewrite W. cbn. now rewrite <- app_assoc. }
  destruct (L (seqZ 0 num_streams) (upd_m_stream_wrappers [] s)) as (u' & E & W).
  unfold bind, modify. rewrite E. eexists. split; [reflexivity |]. cbn.
  split; [reflexivity |]. rewrite W. cbn. now rewrite length_seqZ.
Qed.

(** C3. Selecting the device with a valid number succeeds on an engine on
    which no allocating call ([simulate_lines], [set_excitation],
    [set_scan_sequence], a scatterer upload) has been made yet; once the
    latch is locked the selection is refused with an error and nothing is
    changed; creating the streams locks the latch; no operation, whether it
    returns or throws, unlocks it again, so every later attempt is refused
    as well. *)
Theorem device_selection_latch
    (s0 s : GpuAlgorithm) (ops : list operation) (value : string) (n : Z) :
  GpuAlgorithm_new = Ok tt s0 ->
  forallb (fun o => negb (allocating o)) ops = true ->
  run_all ops s0 = Some s ->
  stoi value = Some n ->
  0 <= n < cudaGetDeviceCount ->
  (exists s',
      set_parameter "gpu_device" value s = Ok tt s' /\
      m_param_cuda_device_no (params s') = n /\
      m_cur_device_prop s' = cudaGetDeviceProperties n)
  /\ (forall t v,
        m_can_change_cuda_device t = false ->
        set_parameter "gpu_device" v t
        = Throw (runtime_error "cannot change CUDA device now") t)
  /\ (forall t num_streams t',
        final_state (create_cuda_stream_wrappers num_streams t) = Some t' ->
        m_can_change_cuda_device t' = false)
  /\ (forall t o t',
        m_can_change_cuda_device t = false ->
        final_state (run o t) = Some t' ->
        m_can_change_cuda_device t' = false)
  /\ (forall t later t' v,
        m_can_change_cuda_device t = false ->
        run_all later t = Some t' ->
        set_parameter "gpu_device" v t'
        = Throw (runtime_error "cannot change CUDA device now") t').
Proof.
  intros Hnew Hops Hrun Hv Hn. repeat split.
  - apply set_gpu_device_unlocked; auto.
    rewrite (run_all_same_latch ops s0 s Hops Hrun).
    now apply GpuAlgorithm_new_unlocked.
  - intros t v Ht. now apply set_gpu_device_locked.
  - intros t k t' Hf.
    destruct (create_cuda_stream_wrappers_Ok k t) as (u & E & L & _).
    rewrite E in Hf. cbn in Hf. now injection Hf as <-.
  - intros t o t' Ht Hf.
    exact (leaves_final stays_locked (run o) t t' (run_stays_locked o) Hf Ht).
  - intros t later t' v Ht Hl. apply set_gpu_device_locked.
    eapply run_all_stays_locked; eauto.
Qed.

(** *** Allocation helpers, evaluated *)

Lemma upd_cuda_trace_twice t1 t2 (s : GpuAlgorithm) :
  upd_cuda_trace t2 (upd_cuda_trace t1 s) = upd_cuda_trace t2 s.
Proof. reflexivity. Qed.

Lemma repeatM_alloc {A} (m : St A) (alloc : api_call) (a : A) n s :
  (forall u, m u = Ok a (upd_cuda_trace (cuda_trace u ++ [alloc]) u)) ->
  repeatM n m s
  = Ok (replicate n a) (upd_cuda_trace (cuda_trace s ++ replicate n alloc) s).
Proof.
  intros Hm. revert s. induction n as [|n IH]; intros s; cbn [repeatM replicate].
  - unfold ret. f_equal. destruct s; cbn. now rewrite app_nil_r.
  - unfold bind. rewrite Hm, IH. unfold ret. f_equal.
    rewrite upd_cuda_trace_twice. f_equal. cbn. now rewrite <- app_assoc.
Qed.

Lemma new_DeviceBufferRAII_eq {T} (fill : T) size bytes u :
  new_DeviceBufferRAII fill size bytes u
  = Ok (new_buffer fill size bytes)
       (upd_cuda_trace (cuda_trace u ++ [call_cudaMalloc bytes]) u).
Proof. reflexivity. Qed.

Lemma new_HostPinnedBufferRAII_eq {T} (fill : T) size bytes u :
  new_HostPinnedBufferRAII fill size bytes u
  = Ok (new_buffer fill size bytes)
       (upd_cuda_trace (cuda_trace u ++ [call_cudaMallocHost bytes]) u).
Proof. reflexivity. Qed.

(** The object after [k] more streams have been created. *)
Definition streams_created (k : nat) (s : GpuAlgorithm) : GpuAlgorithm :=
  upd_m_stream_wrappers (m_stream_wrappers s ++ replicate k tt)
    (upd_cuda_trace (cuda_trace s ++ replicate k call_cudaStreamCreate) s).

Lemma create_cuda_stream_wrappers_eq num_streams s :
  create_cuda_stream_wrappers num_streams s
  = Ok tt (upd_m_can_change_cuda_device false
             (streams_created (Z.to_nat num_streams) (upd_m_stream_wrappers [] s))).
Proof.
  unfold create_cuda_stream_wrappers.
  set (body := fun _ : Z => _).
  assert (L : forall l u, for_each l body u = Ok tt (streams_created (length l) u)).
  { induction l as [|a l IH]; intros u; cbn.
    - unfold ret, streams_created. f_equal. destruct u; cbn.
      now rewrite !app_nil_r.
    - rewrite IH. f_equal. unfold streams_created, upd_m_stream_wrappers,
        upd_cuda_trace. cbn. f_equal; now rewrite <- app_assoc. }
  unfold bind, modify. rewrite L, length_seqZ. reflexivity.
Qed.

(** *** The allocating calls lock the latch before anything else *)

Lemma allocating_locks o s s' :
  allocating o = true ->
  final_state (run o s) = Some s' ->
  m_can_change_cuda_device s' = false.
Proof.
  intros Ho Hf.
  assert (E : run o s = run o (upd_m_can_change_cuda_device false s))
    by (destruct o; try discriminate; reflexivity).
  rewrite E in Hf.
  exact (leaves_final stays_locked (run o) _ s' (run_stays_locked o) Hf eq_refl).
Qed.

(** The events a call has added to the trace. *)
Definition new_calls (s s' : GpuAlgorithm) : list api_call :=
  drop (length (cuda_trace s)) (cuda_trace s').

(** The object when [simulate_lines] reaches its validation. *)
Definition after_prepare (s : GpuAlgorithm) : GpuAlgorithm :=
  let s1 := upd_m_can_change_cuda_device false s in
  let s2 :=
    if bool_decide (length (m_stream_wrappers s) = 0%nat)
    then upd_m_can_change_cuda_device false
           (streams_created (Z.to_nat (m_param_num_cuda_streams (params s)))
                            (upd_m_stream_wrappers [] s1))
    else s1 in
  if m_store_kernel_details (params s) then upd_m_debug_data ∅ s2 else s2.

Lemma simulate_lines_prepare_eq s :
  simulate_lines_prepare s = Ok tt (after_prepare s).
Proof.
  unfold simulate_lines_prepare, after_prepare.
  unfold bind at 1, modify at 1. unfold bind at 1, gets at 1.
  unfold bind at 1, gets at 1. cbn [m_stream_wrappers upd_m_can_change_cuda_device params].
  unfold bind at 1.
  destruct (bool_decide _); cbn [when].
  - rewrite create_cuda_stream_wrappers_eq.
    destruct (m_store_kernel_details (params s)) eqn:E; cbn; rewrite E; reflexivity.
  - cbn. destruct (m_store_kernel_details (params s)) eqn:E; reflexivity.
Qed.

Lemma simulate_lines_eq fuel s :
  simulate_lines fuel s = simulate_lines_run fuel (after_prepare s).
Proof.
  unfold simulate_lines, bind. now rewrite simulate_lines_prepare_eq.
Qed.

Lemma new_calls_after_prepare s :
  new_calls s (after_prepare s)
  = (if bool_decide (length (m_stream_wrappers s) = 0%nat)
     then replicate (Z.to_nat (m_param_num_cuda_streams (params s))) call_cudaStreamCreate
     else []).
Proof.
  unfold new_calls, after_prepare.
  destruct (bool_decide _), (m_store_kernel_details (params s)); cbn;
    rewrite ?drop_app_length, ?drop_all; reflexivity.
Qed.

Lemma simulate_lines_no_scanlines fuel s seq :
  m_scan_seq s = Some seq ->
  scanlines seq = [] ->
  exists s',
    simulate_lines fuel s = Throw (runtime_error "No scanlines in scansequence") s' /\
    m_can_change_cuda_device s' = false /\
    line_buffers s' = line_buffers s /\
    new_calls s s' =
      (if bool_decide (length (m_stream_wrappers s) = 0%nat)
       then replicate (Z.to_nat (m_param_num_cuda_streams (params s))) call_cudaStreamCreate
       else []).
Proof.
  intros Hseq Hl. exists (after_prepare s).
  rewrite simulate_lines_eq. unfold simulate_lines_run.
  assert (E : m_scan_seq (after_prepare s) = Some seq).
  { rewrite <- Hseq. unfold after_prepare.
    destruct (bool_decide _), (m_store_kernel_details (params s)); reflexivity. }
  split.
  { unfold bind at 1, gets at 1. rewrite E. cbn.
    unfold get_num_lines. rewrite Hl. reflexivity. }
  split; [| split].
  - unfold after_prepare.
    destruct (bool_decide _), (m_store_kernel_details (params s)); reflexivity.
  - unfold after_prepare.
    destruct (bool_decide _), (m_store_kernel_details (params s)); reflexivity.
  - apply new_calls_after_prepare.
Qed.

Lemma set_scan_sequence_too_many seq s :
  m_num_time_samples (line_buffers s) < num_rf_samples_of s seq ->
  exists s',
    set_scan_sequence seq s
    = Throw (runtime_error "Too many RF samples required. TODO: remove limitation") s' /\
    m_can_change_cuda_device s' = false /\
    m_scan_seq s' = Some seq /\
    line_buffers s' = line_buffers s /\
    new_calls s s' = [].
Proof.
  intros H. unfold set_scan_sequence, new_calls. cbn.
  change (num_rf_samples_of _ seq) with (num_rf_samples_of s seq).
  replace (num_rf_samples_of s seq >? m_num_time_samples (line_buffers s))
    with true by lia.
  cbn. eexists. split; [reflexivity |]. cbn. rewrite drop_all. auto.
Qed.

Lemma spline_upload_no_scatterers sc s :
  control_points sc = [] ->
  exists s',
    add_spline_scatterers sc s = Throw (runtime_error "No scatterers") s' /\
    m_can_change_cuda_device s' = false /\
    new_calls s s' = [].
Proof.
  intros H. unfold add_spline_scatterers, copy_spline_scatterers_to_device,
    new_calls, num_scatterers. rewrite H. cbn.
  eexists. split; [reflexivity |]. cbn. rewrite drop_all. auto.
Qed.

(** C9 (as amended). Each allocating call locks the latch before it validates
    or allocates anything: whatever state it returns or throws in has the
    latch locked.  [set_scan_sequence] rejecting the sample count and a
    spline upload of no scatterers fail with the latch locked and without a
    single call into the CUDA runtime; [simulate_lines] rejecting a scan
    sequence without lines fails with the latch locked and the line buffers
    untouched, having created the streams if there were none. *)
Theorem allocating_calls_lock_first (o : operation) (s s' : GpuAlgorithm) :
  allocating o = true ->
  final_state (run o s) = Some s' ->
  m_can_change_cuda_device s' = false
  /\ (forall t seq,
        m_num_time_samples (line_buffers t) < num_rf_samples_of t seq ->
        exists t',
          set_scan_sequence seq t
          = Throw (runtime_error "Too many RF samples required. TODO: remove limitation") t' /\
          m_can_change_cuda_device t' = false /\
          new_calls t t' = [])
  /\ (forall t sc,
        control_points sc = [] ->
        exists t',
          add_spline_scatterers sc t = Throw (runtime_error "No scatterers") t' /\
          m_can_change_cuda_device t' = false /\
          new_calls t t' = [])
  /\ (forall t fuel seq,
        m_scan_seq t = Some seq ->
        scanlines seq = [] ->
        exists t',
          simulate_lines fuel t
          = Throw (runtime_error "No scanlines in scansequence") t' /\
          m_can_change_cuda_device t' = false /\
          line_buffers t' = line_buffers t /\
          new_calls t t' =
            (if bool_decide (length (m_stream_wrappers t) = 0%nat)
             then replicate (Z.to_nat (m_param_num_cuda_streams (params t)))
                            call_cudaStreamCreate
             else [])).
Proof.
  intros Ho Hf. split; [eapply allocating_locks; eauto |].
  split; [| split].
  - intros t seq Ht.
    destruct (set_scan_sequence_too_many seq t Ht) as (t' & E & L & _ & _ & N).
    eauto.
  - intros t sc Ht. now apply spline_upload_no_scatterers.
  - intros t fuel seq Ht Hl. eapply simulate_lines_no_scanlines; eauto.
Qed.

(** *** Uploading spline scatterers *)

Definition spline_degree_message : string :=
  "maximum spline degree supported is " +:+ pretty MAX_SPLINE_DEGREE.

(** C5. A spline upload of no scatterers fails with "No scatterers", and one
    whose degree exceeds [MAX_SPLINE_DEGREE] fails with the message naming
    the maximum; in both cases the call has not entered the CUDA runtime at
    all (no allocation, no copy) and the four device arrays are the ones
    from before the call. *)
Theorem spline_upload_fails_before_device_work (sc : SplineScatterers) (s : GpuAlgorithm) :
  num_scatterers sc = 0 \/ MAX_SPLINE_DEGREE < spline_degree sc ->
  exists s',
    add_spline_scatterers sc s
    = Throw (runtime_error (if num_scatterers sc =? 0 then "No scatterers"
                            else spline_degree_message)) s' /\
    cuda_trace s' = cuda_trace s /\
    filter is_allocation (new_calls s s') = [] /\
    filter is_upload (new_calls s s') = [] /\
    m_device_control_xs (spline s') = m_device_control_xs (spline s) /\
    m_device_control_ys (spline s') = m_device_control_ys (spline s) /\
    m_device_control_zs (spline s') = m_device_control_zs (spline s) /\
    m_device_control_as (spline s') = m_device_control_as (spline s).
Proof.
  intros H. unfold add_spline_scatterers, copy_spline_scatterers_to_device, new_calls.
  cbn. destruct (num_scatterers sc =? 0) eqn:E0.
  - cbn. eexists. split; [reflexivity |]. cbn. rewrite drop_all. auto 10.
  - cbn. destruct H as [H | H]; [lia |].
    replace (spline_degree sc >? MAX_SPLINE_DEGREE) with true by lia.
    cbn. eexists. split; [reflexivity |]. cbn. rewrite drop_all. auto 10.
Qed.


(** *** Setting the scan sequence *)

(** What [set_scan_sequence] reserves for one line. *)
Definition iq_line_bytes (s : GpuAlgorithm) : Z :=
  to_size_t (sizeof_complex * m_num_time_samples (line_buffers s)).

Definition fresh_iq_line (s : GpuAlgorithm) : BufferRAII complex :=
  new_buffer fresh_complex sizeof_complex (iq_line_bytes s).

(** The object after [set_scan_sequence] has replaced the line buffers. *)
Definition reallocated (seq : ScanSequence) (s : GpuAlgorithm) : GpuAlgorithm :=
  let num_streams := Z.to_nat (to_size_t (m_param_num_cuda_streams (params s))) in
  let num_beams := Z.to_nat (get_num_lines seq) in
  upd_line_buffers
    {| m_num_time_samples := m_num_time_samples (line_buffers s);
       m_num_beams_allocated := get_num_lines seq;
       m_device_time_proj := replicate num_streams (fresh_iq_line s);
       m_host_rf_lines := replicate num_beams (fresh_iq_line s) |}
    (upd_cuda_trace
       (cuda_trace s
        ++ replicate num_streams (call_cudaMalloc (iq_line_bytes s))
        ++ replicate num_beams (call_cudaMallocHost (iq_line_bytes s)))
       (upd_m_scan_seq (Some seq) (upd_m_can_change_cuda_device false s))).

Lemma get_num_lines_size_t seq :
  get_num_lines seq <= INT_MAX -> to_size_t (get_num_lines seq) = get_num_lines seq.
Proof.
  intros H. apply to_size_t_id. unfold get_num_lines, INT_MAX in *. lia.
Qed.

Lemma get_num_lines_int seq :
  get_num_lines seq <= INT_MAX -> to_int (get_num_lines seq) = get_num_lines seq.
Proof.
  intros H. apply to_int_id. unfold get_num_lines, INT_MAX in *. lia.
Qed.

Lemma set_scan_sequence_eq seq s :
  get_num_lines seq <= INT_MAX ->
  num_rf_samples_of s seq <= m_num_time_samples (line_buffers s) ->
  set_scan_sequence seq s
  = Ok tt (if m_num_beams_allocated (line_buffers s) <? get_num_lines seq
           then reallocated seq s
           else upd_m_scan_seq (Some seq) (upd_m_can_change_cuda_device false s)).
Proof.
  intros HL Hrf. unfold set_scan_sequence. cbn.
  change (num_rf_samples_of _ seq) with (num_rf_samples_of s seq).
  replace (num_rf_samples_of s seq >? m_num_time_samples (line_buffers s))
    with false by lia.
  cbn. rewrite get_num_lines_size_t, get_num_lines_int by assumption.
  destruct (m_num_beams_allocated (line_buffers s) <? get_num_lines seq); [| reflexivity].
  cbn. unfold bind.
  erewrite repeatM_alloc by (intros u; apply new_DeviceBufferRAII_eq).
  erewrite repeatM_alloc by (intros u; apply new_HostPinnedBufferRAII_eq).
  unfold modify, reallocated. f_equal.
  unfold upd_line_buffers, upd_cuda_trace. cbn. f_equal.
  now rewrite <- app_assoc.
Qed.

(** C4. Two calls of [set_scan_sequence] in a row, with [L1] and then [L2]
    lines, both within the sample capacity: the first leaves the larger of
    the old count and [L1] as the allocated count.  If [L2] exceeds the
    allocated count (as it does when [L2 > L1] and the first call had to
    allocate), the second call replaces every per-stream device buffer and
    every per-line pinned host buffer by a new one and records [L2];
    otherwise it returns early, makes no call into the CUDA runtime and
    leaves the buffers and the count as they are.  The allocated count never
    goes down. *)
Theorem scan_sequence_reallocation (seq1 seq2 : ScanSequence) (s : GpuAlgorithm) :
  get_num_lines seq1 <= INT_MAX ->
  get_num_lines seq2 <= INT_MAX ->
  num_rf_samples_of s seq1 <= m_num_time_samples (line_buffers s) ->
  num_rf_samples_of s seq2 <= m_num_time_samples (line_buffers s) ->
  exists s1 s2,
    set_scan_sequence seq1 s = Ok tt s1 /\
    set_scan_sequence seq2 s1 = Ok tt s2 /\
    m_num_beams_allocated (line_buffers s1)
    = Z.max (m_num_beams_allocated (line_buffers s)) (get_num_lines seq1) /\
    (m_num_beams_allocated (line_buffers s1) < get_num_lines seq2 ->
       m_num_beams_allocated (line_buffers s2) = get_num_lines seq2 /\
       m_device_time_proj (line_buffers s2)
       = replicate (Z.to_nat (to_size_t (m_param_num_cuda_streams (params s))))
                   (fresh_iq_line s) /\
       m_host_rf_lines (line_buffers s2)
       = replicate (Z.to_nat (get_num_lines seq2)) (fresh_iq_line s) /\
       new_calls s1 s2
       = replicate (Z.to_nat (to_size_t (m_param_num_cuda_streams (params s))))
                   (call_cudaMalloc (iq_line_bytes s))
         ++ replicate (Z.to_nat (get_num_lines seq2))
                      (call_cudaMallocHost (iq_line_bytes s))) /\
    (m_num_beams_allocated (line_buffers s) <= get_num_lines seq1 ->
     get_num_lines seq1 < get_num_lines seq2 ->
     m_num_beams_allocated (line_buffers s2) = get_num_lines seq2) /\
    (get_num_lines seq2 <= m_num_beams_allocated (line_buffers s1) ->
       line_buffers s2 = line_buffers s1 /\ new_calls s1 s2 = []) /\
    m_num_beams_allocated (line_buffers s) <= m_num_beams_allocated (line_buffers s1) /\
    m_num_beams_allocated (line_buffers s1) <= m_num_beams_allocated (line_buffers s2).
Proof.
  intros HL1 HL2 Hrf1 Hrf2.
  pose proof (set_scan_sequence_eq seq1 s HL1 Hrf1) as E1.
  set (s1 := if _ <? _ then _ else _) in E1.
  assert (Hn : m_num_time_samples (line_buffers s1) = m_num_time_samples (line_buffers s))
    by (subst s1; destruct (_ <? _); reflexivity).
  assert (Hp : params s1 = params s) by (subst s1; destruct (_ <? _); reflexivity).
  assert (Hrf : num_rf_samples_of s1 seq2 = num_rf_samples_of s seq2)
    by (subst s1; destruct (_ <? _); reflexivity).
  assert (Ha : m_num_beams_allocated (line_buffers s1)
               = Z.max (m_num_beams_allocated (line_buffers s)) (get_num_lines seq1)).
  { subst s1. destruct (Z.ltb_spec (m_num_beams_allocated (line_buffers s)) (get_num_lines seq1));
      cbn; lia. }
  clearbody s1.
  assert (E2 := set_scan_sequence_eq seq2 s1 HL2).
  rewrite Hrf, Hn in E2. specialize (E2 Hrf2).
  exists s1. eexists. split; [exact E1 |]. split; [exact E2 |].
  split; [exact Ha |].
  assert (Hb : iq_line_bytes s1 = iq_line_bytes s) by (unfold iq_line_bytes; now rewrite Hn).
  assert (Hf : fresh_iq_line s1 = fresh_iq_line s) by (unfold fresh_iq_line; now rewrite Hb).
  destruct (Z.ltb_spec (m_num_beams_allocated (line_buffers s1)) (get_num_lines seq2)) as [Hlt | Hge].
  - repeat split; cbn; try lia.
    + now rewrite Hp, Hf.
    + now rewrite Hf.
    + unfold new_calls, reallocated; cbn. rewrite drop_app_length.
      now rewrite Hp, Hb.
  - repeat split; cbn; try lia.
    unfold new_calls. cbn. now rewrite drop_all.
Qed.


(** *** The layout of the spline control points *)

Lemma store_Some {T} (l : list T) i v l' :
  store l i v = Some l' ->
  0 <= i < Z.of_nat (length l) /\ l' = <[Z.to_nat i := v]> l.
Proof.
  unfold store. destruct (decide _); [| discriminate].
  intros [= <-]. auto.
Qed.

(** The index [s + i * N], as the code computes it. *)
Definition control_offset (N spline_no i : Z) : nat :=
  Z.to_nat (to_size_t (spline_no + i * N)).

(** The control point [control_points[spline_no][i]]. *)
Definition control_point (sc : SplineScatterers) (spline_no i : Z) : option vector3 :=
  cs ← control_points sc !! Z.to_nat spline_no; cs !! Z.to_nat i.

(** [h'] holds control point [i] of scatterer [spline_no] at its offset. *)
Definition holds_point (sc : SplineScatterers) (N : Z) (h' : HostControl)
    (spline_no i : Z) : Prop :=
  exists p,
    control_point sc spline_no i = Some p /\
    host_control_xs h' !! control_offset N spline_no i = Some (x3 p) /\
    host_control_ys h' !! control_offset N spline_no i = Some (y3 p) /\
    host_control_zs h' !! control_offset N spline_no i = Some (z3 p).

(** [h'] agrees with [h] at index [k] of the three coordinate arrays. *)
Definition same_at (h h' : HostControl) (k : nat) : Prop :=
  host_control_xs h' !! k = host_control_xs h !! k /\
  host_control_ys h' !! k = host_control_ys h !! k /\
  host_control_zs h' !! k = host_control_zs h !! k.

Lemma store_control_point_Some sc N spline_no h i h' :
  store_control_point sc N spline_no h i = Some h' ->
  host_control_as h' = host_control_as h /\
  holds_point sc N h' spline_no i /\
  (forall k, k <> control_offset N spline_no i -> same_at h h' k).
Proof.
  unfold store_control_point, holds_point, control_point, same_at, control_offset.
  intros H.
  destruct (control_points sc !! Z.to_nat spline_no) as [cs|]; [| discriminate].
  cbn in H |- *.
  destruct (cs !! Z.to_nat i) as [p|]; [| discriminate]. cbn in H.
  destruct (store (host_control_xs h) _ _) as [xs|] eqn:Ex; [| discriminate].
  destruct (store (host_control_ys h) _ _) as [ys|] eqn:Ey; [| discriminate].
  destruct (store (host_control_zs h) _ _) as [zs|] eqn:Ez; [| discriminate].
  cbn in H. injection H as <-. cbn.
  apply store_Some in Ex as [Rx ->], Ey as [Ry ->], Ez as [Rz ->].
  split; [reflexivity |]. split.
  - exists p. split; [reflexivity |].
    rewrite !list_lookup_insert_eq by lia. auto.
  - intros k Hk. rewrite !list_lookup_insert_ne by auto. auto.
Qed.

Lemma control_offset_range N num_cs s i :
  N * num_cs < 2 ^ 64 -> 0 <= s < N -> 0 <= i < num_cs ->
  0 <= s + i * N < 2 ^ 64.
Proof.
  intros Hb Hs Hi.
  assert (i * N <= (num_cs - 1) * N) by (apply Z.mul_le_mono_nonneg_r; lia).
  assert (0 <= i * N) by (apply Z.mul_nonneg_nonneg; lia).
  lia.
Qed.

Lemma control_offset_inj N num_cs s1 i1 s2 i2 :
  N * num_cs < 2 ^ 64 ->
  0 <= s1 < N -> 0 <= i1 < num_cs ->
  0 <= s2 < N -> 0 <= i2 < num_cs ->
  control_offset N s1 i1 = control_offset N s2 i2 ->
  s1 = s2 /\ i1 = i2.
Proof.
  intros Hb Hs1 Hi1 Hs2 Hi2. unfold control_offset.
  pose proof (control_offset_range N num_cs s1 i1 Hb Hs1 Hi1) as R1.
  pose proof (control_offset_range N num_cs s2 i2 Hb Hs2 Hi2) as R2.
  rewrite !to_size_t_id by assumption. intros H.
  apply Z2Nat.inj in H; [| lia | lia].
  assert (i1 = i2) by nia. subst. split; lia.
Qed.

(** The inner loop, over any duplicate-free list of control-point indices. *)
Lemma inner_loop_spec sc N num_cs spline_no l : forall h h',
  N * num_cs < 2 ^ 64 ->
  0 <= spline_no < N ->
  NoDup l ->
  (forall i, i ∈ l -> 0 <= i < num_cs) ->
  foldlM (store_control_point sc N spline_no) l h = Some h' ->
  host_control_as h' = host_control_as h /\
  (forall i, i ∈ l -> holds_point sc N h' spline_no i) /\
  (forall k, (forall i, i ∈ l -> k <> control_offset N spline_no i) -> same_at h h' k).
Proof.
  induction l as [|a l IH]; intros h h' Hb Hs Hnd Hr H; cbn in H.
  - injection H as <-. split; [reflexivity |]. split.
    + intros i Hi. inversion Hi.
    + intros k _. red. auto.
  - destruct (store_control_point sc N spline_no h a) as [h1|] eqn:E1; [| discriminate].
    cbn in H. apply NoDup_cons in Hnd as [Ha Hnd].
    apply store_control_point_Some in E1 as (A1 & P1 & F1).
    apply IH in H as (A2 & P2 & F2); auto.
    2: { intros i Hi. apply Hr. now right. }
    split; [congruence |]. split.
    + intros i Hi. apply elem_of_cons in Hi as [-> | Hi]; [| now apply P2].
      destruct P1 as (p & Cp & X & Y & Z).
      assert (S : same_at h1 h' (control_offset N spline_no a)).
      { apply F2. intros i Hi E.
        apply (control_offset_inj N num_cs) in E as [_ ->]; auto.
        - apply Hr. now left.
        - apply Hr. now right. }
      destruct S as (Sx & Sy & Sz).
      exists p. rewrite Sx, Sy, Sz. auto.
    + intros k Hk.
      assert (S1 : same_at h h1 k) by (apply F1, Hk; now left).
      assert (S2 : same_at h1 h' k) by (apply F2; intros i Hi; apply Hk; now right).
      destruct S1 as (? & ? & ?), S2 as (? & ? & ?). repeat split; congruence.
Qed.

Lemma store_spline_Some sc N num_cs h spline_no h' :
  N * num_cs < 2 ^ 64 ->
  0 <= spline_no < N ->
  store_spline sc N num_cs h spline_no = Some h' ->
  (exists a, amplitudes sc !! Z.to_nat spline_no = Some a /\
             host_control_as h' = <[Z.to_nat spline_no := a]> (host_control_as h) /\
             (Z.to_nat spline_no < length (host_control_as h))%nat) /\
  (forall i, 0 <= i < num_cs -> holds_point sc N h' spline_no i) /\
  (forall k, (forall i, 0 <= i < num_cs -> k <> control_offset N spline_no i) ->
             same_at h h' k).
Proof.
  intros Hb Hs. unfold store_spline. intros H.
  destruct (amplitudes sc !! Z.to_nat spline_no) as [a|]; [| discriminate].
  cbn in H.
  destruct (store (host_control_as h) spline_no a) as [a_s|] eqn:Ea; [| discriminate].
  cbn in H. apply store_Some in Ea as [Ra ->].
  apply (inner_loop_spec sc N num_cs) in H as (A & P & F); auto.
  - cbn in A. split; [exists a; split; [reflexivity |]; split; [exact A | lia] |].
    split.
    + intros i Hi. apply P. apply elem_of_seqZ. lia.
    + intros k Hk. apply F. intros i Hi. apply Hk. apply elem_of_seqZ in Hi. lia.
  - apply NoDup_seqZ.
  - intros i Hi. apply elem_of_seqZ in Hi. lia.
Qed.

(** The outer loop, over any duplicate-free list of scatterer numbers. *)
Lemma outer_loop_spec sc N num_cs l : forall h h',
  N * num_cs < 2 ^ 64 ->
  NoDup l ->
  (forall s, s ∈ l -> 0 <= s < N) ->
  foldlM (store_spline sc N num_cs) l h = Some h' ->
  (forall s i, s ∈ l -> 0 <= i < num_cs -> holds_point sc N h' s i) /\
  (forall s, s ∈ l ->
     exists a, amplitudes sc !! Z.to_nat s = Some a /\
               host_control_as h' !! Z.to_nat s = Some a) /\
  (forall k, (forall s, s ∈ l -> k <> Z.to_nat s) ->
     host_control_as h' !! k = host_control_as h !! k) /\
  (forall k, (forall s i, s ∈ l -> 0 <= i < num_cs -> k <> control_offset N s i) ->
     same_at h h' k).
Proof.
  induction l as [|a l IH]; intros h h' Hb Hnd Hr H; cbn in H.
  - injection H as <-.
    split; [intros s i Hs; inversion Hs |].
    split; [intros s Hs; inversion Hs |].
    split; [auto |]. intros k _. red. auto.
  - destruct (store_spline sc N num_cs h a) as [h1|] eqn:E1; [| discriminate].
    cbn in H. apply NoDup_cons in Hnd as [Ha Hnd].
    assert (Ra : 0 <= a < N) by (apply Hr; now left).
    apply store_spline_Some in E1 as ((amp & Amp & A1 & L1) & P1 & F1); auto.
    apply IH in H as (P2 & A2 & FA2 & F2); auto.
    2: { intros s Hs. apply Hr. now right. }
    split; [| split; [| split]].
    + intros s i Hs Hi. apply elem_of_cons in Hs as [-> | Hs]; [| now apply P2].
      destruct (P1 i Hi) as (p & Cp & X & Y & Z).
      assert (S : same_at h1 h' (control_offset N a i)).
      { apply F2. intros s i' Hs Hi' E.
        apply (control_offset_inj N num_cs) in E as [-> _]; auto.
        apply Hr. now right. }
      destruct S as (Sx & Sy & Sz).
      exists p. rewrite Sx, Sy, Sz. auto.
    + intros s Hs. apply elem_of_cons in Hs as [-> | Hs]; [| now apply A2].
      exists amp. split; [exact Amp |].
      rewrite FA2.
      * rewrite A1. now apply list_lookup_insert_eq.
      * intros s Hs E. apply Z2Nat.inj in E; [congruence | lia |].
        assert (0 <= s < N) by (apply Hr; now right). lia.
    + intros k Hk. rewrite FA2 by (intros s Hs; apply Hk; now right).
      rewrite A1. apply list_lookup_insert_ne. intros E. apply (Hk a); [now left | auto].
    + intros k Hk.
      assert (S1 : same_at h h1 k) by (apply F1; intros i Hi; apply Hk; [now left | auto]).
      assert (S2 : same_at h1 h' k) by (apply F2; intros s i Hs Hi; apply Hk; [now right | auto]).
      destruct S1 as (? & ? & ?), S2 as (? & ? & ?). repeat split; congruence.
Qed.

(** The host arrays after the two loops. *)
Lemma reorganize_control_points_spec sc N num_cs h :
  N * num_cs < 2 ^ 64 ->
  reorganize_control_points sc N num_cs = Some h ->
  (forall s i, 0 <= s < N -> 0 <= i < num_cs -> holds_point sc N h s i) /\
  (forall s, 0 <= s < N ->
     exists a, amplitudes sc !! Z.to_nat s = Some a /\
               host_control_as h !! Z.to_nat s = Some a).
Proof.
  intros Hb H. unfold reorganize_control_points in H.
  apply (outer_loop_spec sc N num_cs) in H as (P & A & _ & _); auto.
  - split.
    + intros s i Hs Hi. apply P; auto. apply elem_of_seqZ. lia.
    + intros s Hs. apply A. apply elem_of_seqZ. lia.
  - apply NoDup_seqZ.
  - intros s Hs. apply elem_of_seqZ in Hs. lia.
Qed.

Lemma upload_component_Ok {T} bytes (values : list T) dst u dst' u' :
  upload_component bytes values dst u = Ok dst' u' ->
  forall k x, values !! k = Some x -> data dst' !! k = Some x.
Proof.
  unfold upload_component, memcpy. cbn.
  destruct (decide _) as [[_ _]|]; [| discriminate]. cbn.
  intros [= <- _] k x Hk. cbn.
  rewrite take_ge by lia. now apply lookup_app_l_Some.
Qed.

(** C6. After a spline upload that returned, in which the number of
    scatterers times the number of control points fits [size_t]: the host
    arrays hold, at offset [s + i * N_spline], the x, y and z of control
    point [i] of scatterer [s], and at offset [s] of the amplitude array the
    amplitude of scatterer [s]; the device arrays hold the same values at
    the same offsets. *)
Theorem spline_upload_layout (sc : SplineScatterers) (s s' : GpuAlgorithm) :
  add_spline_scatterers sc s = Ok tt s' ->
  num_scatterers sc * get_num_control_points sc < 2 ^ 64 ->
  exists h xs ys zs a_s,
    reorganize_control_points sc (num_scatterers sc) (get_num_control_points sc) = Some h /\
    m_device_control_xs (spline s') = Some xs /\
    m_device_control_ys (spline s') = Some ys /\
    m_device_control_zs (spline s') = Some zs /\
    m_device_control_as (spline s') = Some a_s /\
    (forall spline_no i,
       0 <= spline_no < num_scatterers sc ->
       0 <= i < get_num_control_points sc ->
       exists p,
         control_point sc spline_no i = Some p /\
         host_control_xs h !! Z.to_nat (spline_no + i * num_scatterers sc) = Some (x3 p) /\
         host_control_ys h !! Z.to_nat (spline_no + i * num_scatterers sc) = Some (y3 p) /\
         host_control_zs h !! Z.to_nat (spline_no + i * num_scatterers sc) = Some (z3 p) /\
         data xs !! Z.to_nat (spline_no + i * num_scatterers sc) = Some (x3 p) /\
         data ys !! Z.to_nat (spline_no + i * num_scatterers sc) = Some (y3 p) /\
         data zs !! Z.to_nat (spline_no + i * num_scatterers sc) = Some (z3 p)) /\
    (forall spline_no,
       0 <= spline_no < num_scatterers sc ->
       exists a,
         amplitudes sc !! Z.to_nat spline_no = Some a /\
         host_control_as h !! Z.to_nat spline_no = Some a /\
         data a_s !! Z.to_nat spline_no = Some a).
Proof.
  intros H Hb. unfold add_spline_scatterers, copy_spline_scatterers_to_device in H.
  cbn in H.
  destruct (num_scatterers sc =? 0); [discriminate |]. cbn in H.
  destruct (spline_degree sc >? MAX_SPLINE_DEGREE); [discriminate |]. cbn in H.
  destruct (reorganize_control_points sc (num_scatterers sc) (get_num_control_points sc))
    as [h|] eqn:Eh; [| discriminate].
  cbn in H.
  apply bind_Ok in H as (xs & u1 & Hx & H).
  apply bind_Ok in H as (ys & u2 & Hy & H).
  apply bind_Ok in H as (zs & u3 & Hz & H).
  apply bind_Ok in H as (a_s & u4 & Ha & H).
  injection H as <-. cbn.
  exists h, xs, ys, zs, a_s. repeat (split; [reflexivity |]).
  destruct (reorganize_control_points_spec _ _ _ _ Hb Eh) as [P A].
  split.
  - intros spline_no i Hs Hi.
    destruct (P spline_no i Hs Hi) as (p & Cp & X & Y & Z).
    unfold control_offset in X, Y, Z.
    rewrite to_size_t_id in X, Y, Z by (eapply control_offset_range; eauto).
    exists p. repeat split; auto.
    + eapply upload_component_Ok; eauto.
    + eapply upload_component_Ok; eauto.
    + eapply upload_component_Ok; eauto.
  - intros spline_no Hs. destruct (A spline_no Hs) as (a & A1 & A2).
    exists a. repeat split; auto. eapply upload_component_Ok; eauto.
Qed.


(** *** The lookup table of a sampled beam profile *)








(** *** What a beam of the pipeline leaves alone *)

Definition same_settings (s s' : GpuAlgorithm) : Prop :=
  base s' = base s /\
  params s' = params s /\
  m_can_change_cuda_device s' = m_can_change_cuda_device s /\
  m_cur_device_prop s' = m_cur_device_prop s /\
  m_stream_wrappers s' = m_stream_wrappers s /\
  m_scan_seq s' = m_scan_seq s /\
  excitation s' = excitation s /\
  beam_profile s' = beam_profile s /\
  fixed s' = fixed s /\
  spline s' = spline s /\
  m_num_time_samples (line_buffers s') = m_num_time_samples (line_buffers s) /\
  m_num_beams_allocated (line_buffers s') = m_num_beams_allocated (line_buffers s).

#[local] Instance same_settings_preorder : PreOrder same_settings.
Proof.
  split.
  - intros s. unfold same_settings. tauto.
  - intros s1 s2 s3 H1 H2. unfold same_settings in *.
    repeat match goal with H : _ /\ _ |- _ => destruct H end.
    repeat split; congruence.
Qed.

Lemma simulate_beam_same_settings seq nbf nbs beam_no :
  leaves same_settings (simulate_beam seq nbf nbs beam_no).
Proof. leaves_tac; unfold same_settings; cbn; tauto. Qed.

Lemma beams_same_settings seq nbf nbs l :
  leaves same_settings (for_each l (simulate_beam seq nbf nbs)).
Proof. apply (leaves_for_each same_settings). intros b. apply simulate_beam_same_settings. Qed.

#[local] Instance eq_state_preorder : PreOrder (fun s s' : GpuAlgorithm => s' = s).
Proof. split; [intros s; reflexivity | intros s1 s2 s3 H1 H2; congruence]. Qed.

(** The assembly only reads. *)
Lemma assemble_lines_state fuel nrs dc rd l s out s' :
  assemble_lines fuel nrs dc rd l s = Ok out s' -> s' = s.
Proof.
  intros H.
  pose proof (leaves_assemble_lines (fun s s' => s' = s) fuel nrs dc rd l s) as L.
  now rewrite H in L.
Qed.

Lemma collect_samples_state fuel line nrs dc rd i (s : GpuAlgorithm) xs s' :
  collect_samples fuel line nrs dc rd i s = Ok xs s' -> s' = s.
Proof.
  intros H.
  pose proof (leaves_collect_samples (fun s s' => s' = s) fuel line nrs dc rd i s) as L.
  now rewrite H in L.
Qed.

(** The state does not matter to the inner loop. *)
Lemma collect_samples_any_state fuel line nrs dc rd : forall i (s t : GpuAlgorithm) xs,
  collect_samples fuel line nrs dc rd i s = Ok xs s ->
  collect_samples fuel line nrs dc rd i t = Ok xs t.
Proof.
  induction fuel as [|fuel IH]; intros i s t xs; cbn.
  - destruct (i <? nrs); cbn; [discriminate | intros [= <-]; reflexivity].
  - destruct (i <? nrs); cbn; [| intros [= <-]; reflexivity].
    destruct (line !! _) as [x|]; cbn; [| discriminate].
    unfold bind.
    destruct (collect_samples fuel line nrs dc rd _ s) as [ys u| | |] eqn:E;
      try discriminate.
    pose proof (collect_samples_state _ _ _ _ _ _ _ _ _ E) as ->.
    rewrite (IH _ _ t _ E). cbn. intros [= <-]. reflexivity.
Qed.

(** *** The output assembly *)

(** The [k]-th sample the inner loop collects, counted from the current
    value [i] of the loop variable, is the one at
    [i + k * decimation + center_index] of the line. *)
Lemma collect_samples_nth line nrs center dec fuel : forall i (s s' : GpuAlgorithm) xs k,
  collect_samples fuel line nrs (to_size_t center) dec i s = Ok xs s' ->
  1 <= dec -> 0 <= center -> center + nrs <= 2 ^ 64 ->
  0 <= i -> 0 <= k -> i + k * dec < nrs ->
  exists x,
    xs !! Z.to_nat k = Some x /\
    line !! Z.to_nat (i + k * dec + center) = Some x.
Proof.
  induction fuel as [|fuel IH]; intros i s s' xs k H Hd Hc Hb Hi Hk Hlt; cbn in H.
  - replace (i <? nrs) with true in H by nia. discriminate.
  - replace (i <? nrs) with true in H by nia.
    apply bind_Ok in H as (x0 & s1 & Hx & H).
    apply deref_Ok in Hx as [Hx ->].
    apply bind_Ok in H as (ys & s2 & Hys & H).
    injection H as <- <-.
    rewrite (to_size_t_id center) in Hx by nia.
    rewrite (to_size_t_id (i + center)) in Hx by nia.
    destruct (Z.eq_dec k 0) as [-> | Hk0].
    + exists x0. split; [reflexivity |].
      now replace (i + 0 * dec + center) with (i + center) by lia.
    + assert (Hstep : i + dec <= i + k * dec) by nia.
      rewrite (to_size_t_id dec) in Hys by lia.
      rewrite (to_size_t_id (i + dec)) in Hys by lia.
      destruct (IH _ _ _ _ (k - 1) Hys) as (x & X1 & X2); try lia.
      exists x. split.
      * replace (Z.to_nat k) with (S (Z.to_nat (k - 1))) by lia. exact X1.
      * now replace (i + k * dec + center) with (i + dec + (k - 1) * dec + center) by lia.
Qed.

Lemma assemble_lines_Ok fuel nrs dc rd l : forall s out s',
  assemble_lines fuel nrs dc rd l s = Ok out s' ->
  s' = s /\
  Forall2 (fun line_no temp_samples =>
             exists host,
               m_host_rf_lines (line_buffers s) !! Z.to_nat line_no = Some host /\
               collect_samples fuel (data host) nrs dc rd 0 s = Ok temp_samples s)
          l out.
Proof.
  induction l as [|j l IH]; intros s out s' H; cbn [assemble_lines] in H.
  - injection H as <- <-. split; [reflexivity | constructor].
  - apply bind_Ok in H as (hosts & s1 & Hh & H). injection Hh as <- <-.
    apply bind_Ok in H as (host & s1 & Hh & H). apply deref_Ok in Hh as [Hh ->].
    apply bind_Ok in H as (xs & s1 & Hx & H).
    pose proof (collect_samples_state _ _ _ _ _ _ _ _ _ Hx) as ->.
    apply bind_Ok in H as (rest & s1 & Hr & H). injection H as <- <-.
    apply IH in Hr as [-> F]. split; [reflexivity |].
    constructor; [| exact F]. exists host. auto.
Qed.

(** The checks of [simulate_lines] passed and the loop over the beams ran. *)
Lemma simulate_lines_run_Ok fuel t out s' :
  simulate_lines_run fuel t = Ok out s' ->
  exists seq t1,
    m_scan_seq t = Some seq /\
    1 <= get_num_lines seq /\
    same_settings t t1 /\
    for_each (seqZ 0 (get_num_lines seq))
      (simulate_beam seq
         (round_up_div (m_num_fixed_scatterers (fixed t)) (m_param_threads_per_block (params t)))
         (round_up_div (m_num_spline_scatterers (spline t)) (m_param_threads_per_block (params t))))
      t = Ok tt t1 /\
    assemble_lines fuel (num_rf_samples_of t seq)
      (to_size_t (center_index (m_excitation (excitation t))))
      (m_radial_decimation (base t)) (seqZ 0 (get_num_lines seq))
      (upd_cuda_trace (cuda_trace t1 ++ [call_cudaDeviceSynchronize]) t1)
    = Ok out s'.
Proof.
  unfold simulate_lines_run. intros H.
  apply bind_Ok in H as (scan_seq & u & Hg & H). injection Hg as <- <-.
  apply bind_Ok in H as (seq & u & Hg & H). apply deref_Ok in Hg as [Hseq ->].
  destruct (get_num_lines seq <? 1) eqn:EL; [discriminate |].
  apply bind_Ok in H as (ty & u & Hg & H). injection Hg as <- <-.
  destruct (is_NOT_CONFIGURED _); [discriminate |].
  apply bind_Ok in H as (threads & u & Hg & H). injection Hg as <- <-.
  apply bind_Ok in H as ([] & u & Hg & H).
  destruct (_ =? 0); [discriminate |]. injection Hg as <-.
  apply bind_Ok in H as (max_grid & u & Hg & H). injection Hg as <- <-.
  apply bind_Ok in H as (num_fixed & u & Hg & H). injection Hg as <- <-.
  destruct (_ >? _); [discriminate |].
  apply bind_Ok in H as (num_spline & u & Hg & H). injection Hg as <- <-.
  destruct (_ >? _); [discriminate |].
  apply bind_Ok in H as (exc & u & Hg & H). injection Hg as <- <-.
  apply bind_Ok in H as (nrs & u & Hg & H). injection Hg as <- <-.
  apply bind_Ok in H as ([] & t1 & Hloop & H).
  apply bind_Ok in H as ([] & u & Hg & H). injection Hg as <-.
  apply bind_Ok in H as (rd & u & Hg & H). injection Hg as <- <-.
  cbn in H.
  match type of Hloop with for_each ?l (simulate_beam _ ?a ?b) _ = _ =>
    pose proof (beams_same_settings seq a b l t) as L end.
  rewrite Hloop in L.
  exists seq, t1. split; [exact Hseq |]. split; [lia |]. split; [exact L |].
  split; [exact Hloop |].
  destruct L as (Hb & _). rewrite <- Hb. exact H.
Qed.

Lemma after_prepare_settings s :
  base (after_prepare s) = base s /\
  params (after_prepare s) = params s /\
  m_scan_seq (after_prepare s) = m_scan_seq s /\
  excitation (after_prepare s) = excitation s /\
  beam_profile (after_prepare s) = beam_profile s /\
  fixed (after_prepare s) = fixed s /\
  spline (after_prepare s) = spline s /\
  m_cur_device_prop (after_prepare s) = m_cur_device_prop s /\
  line_buffers (after_prepare s) = line_buffers s /\
  m_can_change_cuda_device (after_prepare s) = false.
Proof.
  unfold after_prepare.
  destruct (bool_decide _), (m_store_kernel_details (params s)); cbn; tauto.
Qed.

Lemma num_rf_samples_of_settings s t seq :
  base t = base s -> excitation t = excitation s ->
  num_rf_samples_of t seq = num_rf_samples_of s seq.
Proof. intros Hb He. unfold num_rf_samples_of. now rewrite Hb, He. Qed.

(** C1. A call of [simulate_lines] that returns, on a scan sequence of [L]
    lines, with a decimation factor of at least one and a non-negative centre
    index: [L] is at least one, the output has exactly [L] lines, in the
    order of the scan lines, and sample [k] of line [j] is the sample at
    index [k * decimation + center_index] of the [j]-th host line buffer, for
    every [k] with [k * decimation < num_rf_samples], where [num_rf_samples]
    is computed from the sound speed, the line length of the scan sequence
    and the sampling frequency of the excitation. *)
Theorem simulate_lines_output
    (fuel : nat) (s s' : GpuAlgorithm) (seq : ScanSequence)
    (out : list (list complex)) :
  m_scan_seq s = Some seq ->
  simulate_lines fuel s = Ok out s' ->
  1 <= m_radial_decimation (base s) ->
  0 <= center_index (m_excitation (excitation s)) ->
  center_index (m_excitation (excitation s)) + num_rf_samples_of s seq <= 2 ^ 64 ->
  (1 <= length (scanlines seq))%nat /\
  length out = length (scanlines seq) /\
  forall j, (j < length (scanlines seq))%nat ->
    exists line host,
      out !! j = Some line /\
      m_host_rf_lines (line_buffers s') !! j = Some host /\
      forall k, 0 <= k ->
        k * m_radial_decimation (base s) < num_rf_samples_of s seq ->
        exists x,
          line !! Z.to_nat k = Some x /\
          data host
            !! Z.to_nat (k * m_radial_decimation (base s)
                         + center_index (m_excitation (excitation s)))
          = Some x.
Proof.
  intros Hseq H Hd Hc Hb. rewrite simulate_lines_eq in H.
  destruct (after_prepare_settings s) as (Eb & _ & Es & Ee & _).
  apply simulate_lines_run_Ok in H as (seq' & t1 & Hs' & HL & _ & _ & H).
  rewrite Es, Hseq in Hs'. injection Hs' as <-.
  rewrite (num_rf_samples_of_settings s _ seq Eb Ee), Eb, Ee in H.
  apply assemble_lines_Ok in H as [-> F].
  unfold get_num_lines in *.
  pose proof (Forall2_length _ _ _ F) as Hlen. rewrite length_seqZ in Hlen.
  split; [lia |]. split; [lia |].
  intros j Hj.
  destruct (Forall2_lookup_l _ _ _ j (Z.of_nat j) F) as (line & Hline & host & Hhost & Hcol).
  { rewrite lookup_seqZ. split; lia. }
  rewrite Nat2Z.id in Hhost.
  exists line, host. split; [exact Hline |]. split; [exact Hhost |].
  intros k Hk Hlt.
  destruct (collect_samples_nth _ _ _ _ _ _ _ _ _ k Hcol Hd Hc Hb) as (x & X1 & X2);
    try lia.
  exists x. split; [exact X1 |]. exact X2.
Qed.


(** *** Where the output assembly reads *)

(** The indices at which the inner loop reads the host line buffer, in the
    order of the reads. *)
Fixpoint read_positions (fuel : nat)
    (num_return_samples delay_compensation_num_samples radial_decimation i : Z)
  : list Z :=
  if i <? num_return_samples then
    match fuel with
    | O => []
    | S fuel' =>
        to_size_t (i + delay_compensation_num_samples)
        :: read_positions fuel' num_return_samples delay_compensation_num_samples
             radial_decimation (to_size_t (i + to_size_t radial_decimation))
    end
  else [].

(** The samples the loop returns are the ones at those indices. *)
Lemma collect_samples_reads line nrs dc rd fuel : forall i (s s' : GpuAlgorithm) xs,
  collect_samples fuel line nrs dc rd i s = Ok xs s' ->
  Forall2 (fun p x => line !! Z.to_nat p = Some x) (read_positions fuel nrs dc rd i) xs.
Proof.
  induction fuel as [|fuel IH]; intros i s s' xs H; cbn in H |- *.
  - destruct (i <? nrs); [discriminate |]. injection H as <- <-. constructor.
  - destruct (i <? nrs); [| injection H as <- <-; constructor].
    apply bind_Ok in H as (x0 & s1 & Hx & H). apply deref_Ok in Hx as [Hx ->].
    apply bind_Ok in H as (ys & s2 & Hys & H). injection H as <- <-.
    constructor; [exact Hx | eapply IH; eauto].
Qed.

Lemma read_positions_in_range nrs center dec capacity fuel : forall i,
  0 <= center -> center + nrs <= capacity -> capacity <= 2 ^ 64 -> 0 <= i ->
  Forall (fun p => exists j, 0 <= j < nrs /\ p = j + center /\ 0 <= p < capacity)
         (read_positions fuel nrs (to_size_t center) dec i).
Proof.
  induction fuel as [|fuel IH]; intros i Hc Hb Hcap Hi; cbn.
  - destruct (i <? nrs); constructor.
  - destruct (Z.ltb_spec i nrs); [| constructor].
    constructor.
    + exists i. rewrite (to_size_t_id center) by lia.
      rewrite to_size_t_id by lia. lia.
    + apply IH; auto. apply to_size_t_range.
Qed.

(** No read of the inner loop is out of bounds when every index it can
    compute is within the line. *)
Lemma collect_samples_defined line nrs center dec capacity fuel :
  forall i (s : GpuAlgorithm),
  0 <= center -> center + nrs <= capacity ->
  capacity <= Z.of_nat (length line) -> capacity <= 2 ^ 64 -> 0 <= i ->
  (exists xs, collect_samples fuel line nrs (to_size_t center) dec i s = Ok xs s) \/
  collect_samples fuel line nrs (to_size_t center) dec i s = Diverge.
Proof.
  induction fuel as [|fuel IH]; intros i s Hc Hb Hlen Hcap Hi; cbn.
  - destruct (i <? nrs); [right; reflexivity | left; eexists; reflexivity].
  - destruct (Z.ltb_spec i nrs); [| left; eexists; reflexivity].
    rewrite (to_size_t_id center) by lia.
    rewrite (to_size_t_id (i + center)) by lia.
    destruct (lookup_lt_is_Some_2 line (Z.to_nat (i + center))) as [x Hx]; [lia |].
    rewrite Hx. cbn. unfold bind.
    destruct (IH (to_size_t (i + to_size_t dec)) s Hc Hb Hlen Hcap) as [[xs E] | E].
    + apply to_size_t_range.
    + rewrite (to_size_t_id center) in E by lia. rewrite E. left. eexists. reflexivity.
    + rewrite (to_size_t_id center) in E by lia. rewrite E. now right.
Qed.

(** With a decimation factor of at least one the inner loop ends. *)
Lemma collect_samples_terminates line nrs center dec capacity fuel :
  forall i (s : GpuAlgorithm),
  0 <= center -> center + nrs <= capacity ->
  capacity <= Z.of_nat (length line) -> capacity <= 2 ^ 64 ->
  1 <= dec -> nrs + dec <= 2 ^ 64 -> 0 <= i ->
  (Z.to_nat (nrs - i) <= fuel)%nat ->
  exists xs, collect_samples fuel line nrs (to_size_t center) dec i s = Ok xs s.
Proof.
  induction fuel as [|fuel IH]; intros i s Hc Hb Hlen Hcap Hd Hw Hi Hf; cbn.
  - replace (i <? nrs) with false by lia. eexists. reflexivity.
  - destruct (Z.ltb_spec i nrs); [| eexists; reflexivity].
    rewrite (to_size_t_id center) by lia.
    rewrite (to_size_t_id (i + center)) by lia.
    destruct (lookup_lt_is_Some_2 line (Z.to_nat (i + center))) as [x Hx]; [lia |].
    rewrite Hx. cbn. unfold bind.
    rewrite (to_size_t_id dec) by lia. rewrite (to_size_t_id (i + dec)) by lia.
    destruct (IH (i + dec) s Hc Hb Hlen Hcap Hd Hw) as [xs E]; [lia | lia |].
    rewrite (to_size_t_id center) in E by lia. rewrite E. eexists. reflexivity.
Qed.

(** The first read is out of bounds when the centre index is not within the
    line. *)
Lemma collect_samples_out_of_bounds line nrs center dec fuel (s : GpuAlgorithm) :
  Z.of_nat (length line) <= center < 2 ^ 64 -> 0 < nrs ->
  collect_samples (S fuel) line nrs (to_size_t center) dec 0 s = Undefined.
Proof.
  intros Hc Hn. cbn [collect_samples]. replace (0 <? nrs) with true by lia.
  rewrite Z.add_0_l, !(to_size_t_id center) by lia.
  rewrite lookup_ge_None_2 by lia. reflexivity.
Qed.

(** The object with another centre index in its excitation. *)
Definition with_center_index (c : Z) (s : GpuAlgorithm) : GpuAlgorithm :=
  upd_excitation
    {| m_excitation :=
         {| samples := samples (m_excitation (excitation s));
            sampling_frequency := sampling_frequency (m_excitation (excitation s));
            demod_freq := demod_freq (m_excitation (excitation s));
            center_index := c |};
       m_device_excitation_fft := m_device_excitation_fft (excitation s);
       m_fft_plan := m_fft_plan (excitation s) |} s.

(** [set_scan_sequence] throws exactly when the number of RF samples exceeds
    the number of time samples. *)
Lemma set_scan_sequence_check seq s :
  (m_num_time_samples (line_buffers s) < num_rf_samples_of s seq ->
   exists s', set_scan_sequence seq s
              = Throw (runtime_error "Too many RF samples required. TODO: remove limitation") s') /\
  (num_rf_samples_of s seq <= m_num_time_samples (line_buffers s) ->
   exists s', set_scan_sequence seq s = Ok tt s').
Proof.
  split; intros H.
  - destruct (set_scan_sequence_too_many seq s H) as (s' & E & _). eauto.
  - unfold set_scan_sequence. cbn.
    change (num_rf_samples_of _ seq) with (num_rf_samples_of s seq).
    replace (num_rf_samples_of s seq >? m_num_time_samples (line_buffers s))
      with false by lia.
    cbn. destruct (_ <? _); [| eexists; reflexivity].
    cbn. unfold bind.
    erewrite repeatM_alloc by (intros u; apply new_DeviceBufferRAII_eq).
    erewrite repeatM_alloc by (intros u; apply new_HostPinnedBufferRAII_eq).
    eexists. reflexivity.
Qed.

(** C10. The output assembly reads a host line buffer of [num_time_samples]
    samples only at indices [i + center_index] with [i < num_rf_samples]; with
    a non-negative centre index and
    [center_index + num_rf_samples <= num_time_samples] every such index is
    within the buffer and no read is out of bounds.  The check of
    [set_scan_sequence] is on [num_rf_samples] alone: with any centre index in
    the excitation it throws exactly when [num_rf_samples] exceeds
    [num_time_samples], so it also passes when the centre index is past the
    end of the buffer, and then the first read of the assembly is out of
    bounds. *)
Theorem assembly_reads_and_capacity_check
    (s : GpuAlgorithm) (seq : ScanSequence) (host : BufferRAII complex) (fuel : nat) :
  let num_time_samples := m_num_time_samples (line_buffers s) in
  let center := center_index (m_excitation (excitation s)) in
  let num_rf_samples := num_rf_samples_of s seq in
  let decimation := m_radial_decimation (base s) in
  Z.of_nat (length (data host)) = num_time_samples ->
  num_time_samples <= 2 ^ 64 ->
  0 <= center ->
  center + num_rf_samples <= num_time_samples ->
  Forall (fun p => exists i, 0 <= i < num_rf_samples /\ p = i + center /\
                             0 <= p < num_time_samples)
         (read_positions fuel num_rf_samples (to_size_t center) decimation 0)
  /\ (forall xs s',
        collect_samples fuel (data host) num_rf_samples (to_size_t center) decimation 0 s
        = Ok xs s' ->
        Forall2 (fun p x => data host !! Z.to_nat p = Some x)
                (read_positions fuel num_rf_samples (to_size_t center) decimation 0) xs)
  /\ collect_samples fuel (data host) num_rf_samples (to_size_t center) decimation 0 s
     <> Undefined
  /\ (forall c,
        (num_time_samples < num_rf_samples ->
         exists s', set_scan_sequence seq (with_center_index c s)
                    = Throw (runtime_error "Too many RF samples required. TODO: remove limitation") s') /\
        (num_rf_samples <= num_time_samples ->
         exists s', set_scan_sequence seq (with_center_index c s) = Ok tt s'))
  /\ (forall c fuel',
        num_time_samples <= c < 2 ^ 64 -> 0 < num_rf_samples ->
        collect_samples (S fuel') (data host) num_rf_samples (to_size_t c) decimation 0
          (with_center_index c s)
        = Undefined).
Proof.
  intros n c nrs dec Hlen Hcap Hc Hb.
  split; [apply read_positions_in_range; auto; lia |].
  split; [intros xs s' H; eapply collect_samples_reads; eauto |].
  split.
  { destruct (collect_samples_defined (data host) nrs c dec n fuel 0 s) as [[xs E] | E];
      try lia; rewrite E; discriminate. }
  split.
  - intros c'. apply (set_scan_sequence_check seq (with_center_index c' s)).
  - intros c' fuel' Hc' Hn. apply collect_samples_out_of_bounds; lia.
Qed.


(** ** Two runs of the same code

    [rel R m Q]: when [m] returns from the first of two [R]-related states,
    it returns the same value from the second, in [Q]-related states. *)

Definition rel {A} (R : GpuAlgorithm -> GpuAlgorithm -> Prop) (m : St A)
    (Q : GpuAlgorithm -> GpuAlgorithm -> Prop) : Prop :=
  forall s1 s2 a s1',
    R s1 s2 -> m s1 = Ok a s1' -> exists s2', m s2 = Ok a s2' /\ Q s1' s2'.

Section Rel.
Context {A B : Type} (R Q Q' : GpuAlgorithm -> GpuAlgorithm -> Prop).

Lemma rel_bind (m : St A) (k : A -> St B) :
  rel R m Q -> (forall a, rel Q (k a) Q') -> rel R (bind m k) Q'.
Proof.
  intros Hm Hk s1 s2 b s1' HR H.
  apply bind_Ok in H as (a & u1 & H1 & H2).
  destruct (Hm _ _ _ _ HR H1) as (u2 & E & HQ).
  destruct (Hk a _ _ _ _ HQ H2) as (s2' & E' & HQ').
  exists s2'. split; [| exact HQ']. unfold bind. now rewrite E.
Qed.

Lemma rel_gets_bind (f : GpuAlgorithm -> A) (v : A) (k : A -> St B) :
  (forall s1 s2, R s1 s2 -> f s1 = v /\ f s2 = v) ->
  rel R (k v) Q -> rel R (bind (gets f) k) Q.
Proof.
  intros Hf Hk s1 s2 b s1' HR H. unfold bind, gets in *.
  destruct (Hf _ _ HR) as [E1 E2]. rewrite E1 in H. rewrite E2.
  eapply Hk; eauto.
Qed.

Lemma rel_deref_bind (p : option A) (k : A -> St B) :
  (forall a, p = Some a -> rel R (k a) Q) -> rel R (bind (deref p) k) Q.
Proof.
  intros Hk s1 s2 b s1' HR H. destruct p as [a|]; [| discriminate].
  unfold bind, deref, ret in *. eapply Hk; eauto.
Qed.

Lemma rel_ret (a : A) : (forall s1 s2, R s1 s2 -> Q s1 s2) -> rel R (ret a) Q.
Proof. intros H s1 s2 b s1' HR [= <- <-]. exists s2. split; [reflexivity | auto]. Qed.

Lemma rel_throw e : rel R (@throw GpuAlgorithm A e) Q.
Proof. intros s1 s2 b s1' _ H. discriminate. Qed.

Lemma rel_undefined : rel R (@undefined GpuAlgorithm A) Q.
Proof. intros s1 s2 b s1' _ H. discriminate. Qed.

Lemma rel_diverge : rel R (@diverge GpuAlgorithm A) Q.
Proof. intros s1 s2 b s1' _ H. discriminate. Qed.

Lemma rel_modify (f : GpuAlgorithm -> GpuAlgorithm) :
  (forall s1 s2, R s1 s2 -> Q (f s1) (f s2)) -> rel R (modify f) Q.
Proof. intros H s1 s2 b s1' HR [= <- <-]. exists (f s2). split; [reflexivity | auto]. Qed.
End Rel.

Lemma rel_when R b (m : St unit) : rel R m R -> rel R (when b m) R.
Proof. intros H. destruct b; [exact H | apply rel_ret; auto]. Qed.

Lemma rel_bind_assoc {A B C} R Q (m : St A) (f : A -> St B) (k : B -> St C) :
  rel R (bind m (fun a => bind (f a) k)) Q -> rel R (bind (bind m f) k) Q.
Proof.
  intros H s1 s2 c s1' HR E.
  assert (X : forall s, bind (bind m f) k s = bind m (fun a => bind (f a) k) s).
  { intros s. unfold bind. destruct (m s); reflexivity. }
  rewrite X in E. destruct (H _ _ _ _ HR E) as (s2' & E2 & HQ).
  exists s2'. rewrite X. auto.
Qed.

Lemma rel_ret_bind {A B} R Q (a : A) (k : A -> St B) :
  rel R (k a) Q -> rel R (bind (ret a) k) Q.
Proof. intros H. exact H. Qed.

Lemma rel_throw_bind {A B} R Q e (k : A -> St B) : rel R (bind (throw e) k) Q.
Proof. intros s1 s2 b s1' _ H. discriminate. Qed.

Lemma rel_undefined_bind {A B} R Q (k : A -> St B) : rel R (bind undefined k) Q.
Proof. intros s1 s2 b s1' _ H. discriminate. Qed.

Lemma in_place_Some {T} n (f : list T -> nat -> T) buf d :
  in_place n f buf = Some d ->
  (n <= length buf)%nat /\
  d = map (f (take n buf)) (seq 0 n) ++ drop n buf /\
  length d = length buf /\ drop n d = drop n buf.
Proof.
  unfold in_place. destruct (decide _) as [Hn|]; [| discriminate].
  intros [= <-]. split; [exact Hn |]. split; [reflexivity |]. split.
  - rewrite length_app, length_map, length_seq, length_drop. lia.
  - rewrite drop_app_length'; [reflexivity |].
    now rewrite length_map, length_seq.
Qed.

Lemma memcpy_Some {T} (dst src : list T) count out :
  memcpy dst src count = Some out ->
  (count <= length dst)%nat /\ (count <= length src)%nat /\
  out = take count src ++ drop count dst.
Proof.
  unfold memcpy. destruct (decide _) as [[? ?]|]; [| discriminate].
  intros [= <-]. auto.
Qed.

(** *** The relation between the two runs of a pipeline *)

Section Related.
(** The object when the pipeline was entered for the first time. *)
Variable s0 : GpuAlgorithm.

Let num_time_samples0 := m_num_time_samples (line_buffers s0).
Let n0 := Z.to_nat num_time_samples0.

(** Two buffers of the same size that agree beyond the samples the
    pipeline rewrites. *)
Definition shape (b1 b2 : BufferRAII complex) : Prop :=
  get_num_bytes b2 = get_num_bytes b1 /\
  length (data b2) = length (data b1) /\
  drop n0 (data b2) = drop n0 (data b1).

(** The settings of [s0], and line buffers of the shape of those of [s0]. *)
Definition framed (s : GpuAlgorithm) : Prop :=
  same_settings s0 s /\
  Forall2 shape (m_device_time_proj (line_buffers s0)) (m_device_time_proj (line_buffers s)) /\
  Forall2 shape (m_host_rf_lines (line_buffers s0)) (m_host_rf_lines (line_buffers s)).

(** Both runs are framed; they agree on the projection buffer of stream
    [d], if any, and on the host lines below [h]. *)
Definition related (d : option nat) (h : nat) (s1 s2 : GpuAlgorithm) : Prop :=
  framed s1 /\ framed s2 /\
  (forall i, d = Some i ->
     m_device_time_proj (line_buffers s1) !! i = m_device_time_proj (line_buffers s2) !! i) /\
  (forall j, (j < h)%nat ->
     m_host_rf_lines (line_buffers s1) !! j = m_host_rf_lines (line_buffers s2) !! j).

Lemma shape_refl b : shape b b.
Proof. red; auto. Qed.

Lemma framed_refl : framed s0.
Proof.
  split; [reflexivity |].
  split; apply Forall2_same_length_lookup_2; auto;
    intros i x y Hx Hy; rewrite Hx in Hy; injection Hy as <-; apply shape_refl.
Qed.

Lemma related_weaken d h s1 s2 : related d h s1 s2 -> related None h s1 s2.
Proof.
  intros (F1 & F2 & _ & H). split; [exact F1 |]. split; [exact F2 |].
  split; [intros i Hi; discriminate | exact H].
Qed.

(** Assignments to the trace or to the diagnostic log. *)
Lemma framed_upd_cuda_trace t s : framed s -> framed (upd_cuda_trace t s).
Proof. intros H; exact H. Qed.

Lemma framed_upd_m_debug_data t s : framed s -> framed (upd_m_debug_data t s).
Proof. intros H; exact H. Qed.

Lemma rel_api d h c : rel (related d h) (api c) (related d h).
Proof. apply rel_modify. intros s1 s2 H. exact H. Qed.

Lemma rel_debug_push d h key v : rel (related d h) (debug_push key v) (related d h).
Proof. apply rel_modify. intros s1 s2 H. exact H. Qed.

Lemma rel_debug_timer d h key : rel (related d h) (debug_timer key) (related d h).
Proof.
  intros s1 s2 a s1' HR H. unfold debug_timer, debug_push, bind, gets, modify in *.
  injection H as <- <-. eexists. split; [reflexivity |]. exact HR.
Qed.

Lemma framed_proj_lookup s i b0 :
  framed s ->
  m_device_time_proj (line_buffers s0) !! i = Some b0 ->
  exists b, m_device_time_proj (line_buffers s) !! i = Some b /\ shape b0 b.
Proof. intros (_ & F & _) H. apply (Forall2_lookup_l _ _ _ _ _ F H). Qed.

Lemma framed_proj_lookup_r s i b :
  framed s ->
  m_device_time_proj (line_buffers s) !! i = Some b ->
  exists b0, m_device_time_proj (line_buffers s0) !! i = Some b0 /\ shape b0 b.
Proof. intros (_ & F & _) H. apply (Forall2_lookup_r _ _ _ _ _ F H). Qed.

Lemma framed_host_lookup_r s i b :
  framed s ->
  m_host_rf_lines (line_buffers s) !! i = Some b ->
  exists b0, m_host_rf_lines (line_buffers s0) !! i = Some b0 /\ shape b0 b.
Proof. intros (_ & _ & F) H. apply (Forall2_lookup_r _ _ _ _ _ F H). Qed.

Lemma framed_host_lookup s i b0 :
  framed s ->
  m_host_rf_lines (line_buffers s0) !! i = Some b0 ->
  exists b, m_host_rf_lines (line_buffers s) !! i = Some b /\ shape b0 b.
Proof. intros (_ & _ & F) H. apply (Forall2_lookup_l _ _ _ _ _ F H). Qed.

Lemma rel_time_proj_ptr d h stream_no :
  rel (related d h) (time_proj_ptr stream_no) (related d h).
Proof.
  intros s1 s2 a s1' HR H. unfold time_proj_ptr, bind, gets in *.
  destruct (bool_decide _) eqn:E in H; [| discriminate].
  injection H as <- <-. apply bool_decide_eq_true in E as [b1 E].
  destruct HR as (F1 & F2 & HR).
  destruct (framed_proj_lookup_r _ _ _ F1 E) as (b0 & E0 & _).
  destruct (framed_proj_lookup _ _ _ F2 E0) as (b2 & E2 & _).
  exists s2. rewrite bool_decide_eq_true_2 by (rewrite E2; eauto).
  split; [reflexivity |]. split; [exact F1 |]. split; [exact F2 |]. exact HR.
Qed.

(** Replacing the data of a projection buffer by data of the same shape. *)
Lemma framed_set_proj s i b d :
  framed s ->
  m_device_time_proj (line_buffers s) !! i = Some b ->
  length d = length (data b) ->
  drop n0 d = drop n0 (data b) ->
  framed (upd_line_buffers
            (upd_m_device_time_proj
               (<[i := with_data b d]> (m_device_time_proj (line_buffers s)))
               (line_buffers s)) s).
Proof.
  intros F Hb Hl Hd.
  destruct (framed_proj_lookup_r _ _ _ F Hb) as (b0 & E0 & S0 & S1 & S2).
  destruct F as (S & Fp & Fh). split; [exact S |]. split; [| exact Fh].
  cbn. rewrite <- (list_insert_id _ _ _ E0). apply Forall2_insert; auto.
  repeat split; cbn; congruence.
Qed.

Lemma framed_set_host s i b d :
  framed s ->
  m_host_rf_lines (line_buffers s) !! i = Some b ->
  length d = length (data b) ->
  drop n0 d = drop n0 (data b) ->
  framed (upd_line_buffers
            (upd_m_host_rf_lines
               (<[i := with_data b d]> (m_host_rf_lines (line_buffers s)))
               (line_buffers s)) s).
Proof.
  intros F Hb Hl Hd.
  destruct (framed_host_lookup_r _ _ _ F Hb) as (b0 & E0 & S0 & S1 & S2).
  destruct F as (S & Fp & Fh). split; [exact S |]. split; [exact Fp |].
  cbn. rewrite <- (list_insert_id _ _ _ E0). apply Forall2_insert; auto.
  repeat split; cbn; congruence.
Qed.


(** A kernel that works in place on the projection buffer of a stream: the
    two runs agree on the buffer afterwards when they agreed on it before,
    or when the kernel does not read what it finds. *)
Lemma rel_on_time_proj d h stream_no (f : list complex -> nat -> complex) :
  d = Some (Z.to_nat stream_no) \/ (forall l l' k, f l k = f l' k) ->
  rel (related d h)
      (on_time_proj stream_no (in_place n0 f))
      (related (Some (Z.to_nat stream_no)) h).
Proof.
  intros Hf s1 s2 a s1' (F1 & F2 & Hd & Hh) H.
  unfold on_time_proj in H.
  apply bind_Ok in H as (proj & u & Hg & H). injection Hg as <- <-.
  apply bind_Ok in H as (b1 & u & Hg & H). apply deref_Ok in Hg as [Hb1 ->].
  apply bind_Ok in H as (d1 & u & Hg & H). apply deref_Ok in Hg as [Hd1 ->].
  injection H as <- <-.
  destruct (framed_proj_lookup_r _ _ _ F1 Hb1) as (b0 & E0 & S1).
  destruct (framed_proj_lookup _ _ _ F2 E0) as (b2 & Hb2 & S2).
  pose proof (in_place_Some _ _ _ _ Hd1) as (Hn & -> & Hl1 & Hdr1).
  set (d2 := map (f (take n0 (data b2))) (seq 0 n0) ++ drop n0 (data b2)).
  assert (Hd2 : in_place n0 f (data b2) = Some d2).
  { unfold in_place. destruct S1 as (_ & L1 & _), S2 as (_ & L2 & _).
    rewrite decide_True by lia. reflexivity. }
  pose proof (in_place_Some _ _ _ _ Hd2) as (_ & _ & Hl2 & Hdr2).
  assert (Heq : with_data b1 (map (f (take n0 (data b1))) (seq 0 n0) ++ drop n0 (data b1))
                = with_data b2 d2).
  { destruct Hf as [-> | Hf].
    - specialize (Hd _ eq_refl). rewrite Hb1, Hb2 in Hd. injection Hd as ->.
      reflexivity.
    - destruct S1 as (B1 & _ & D1), S2 as (B2 & _ & D2).
      unfold with_data, d2. f_equal; [congruence |]. f_equal; [| congruence].
      apply map_ext. intros k. apply Hf. }
  eexists. split.
  - unfold on_time_proj, bind, gets. rewrite Hb2. cbn. rewrite Hd2. cbn. reflexivity.
  - split; [apply framed_set_proj; auto |].
    split; [apply framed_set_proj; auto |]. cbn. split.
    + intros i [= <-]. rewrite Heq.
      rewrite !list_lookup_insert_eq; auto; eapply lookup_lt_Some; eauto.
    + exact Hh.
Qed.


(** The copy of a finished line to its host buffer: afterwards the two
    runs agree on that host line as well. *)
Lemma rel_copy_line_to_host h beam_no stream_no num_bytes_iq :
  Z.to_nat (num_bytes_iq / sizeof_complex) = n0 ->
  Z.to_nat beam_no = h ->
  rel (related (Some (Z.to_nat stream_no)) h)
      (copy_line_to_host beam_no stream_no num_bytes_iq)
      (related (Some (Z.to_nat stream_no)) (S h)).
Proof.
  intros Hcount Hbeam s1 s2 a s1' (F1 & F2 & Hd & Hh) H.
  unfold copy_line_to_host in H.
  apply bind_Ok in H as (hosts & u & Hg & H). injection Hg as <- <-.
  apply bind_Ok in H as (host1 & u & Hg & H). apply deref_Ok in Hg as [Hh1 ->].
  apply bind_Ok in H as (proj & u & Hg & H). injection Hg as <- <-.
  apply bind_Ok in H as (rf & u & Hg & H). apply deref_Ok in Hg as [Hrf ->].
  apply bind_Ok in H as ([] & u & Hg & H). injection Hg as <-.
  apply bind_Ok in H as (copied & u & Hg & H). apply deref_Ok in Hg as [Hc ->].
  injection H as <- <-. rewrite Hcount in Hc.
  apply memcpy_Some in Hc as (L1 & L2 & ->).
  destruct (framed_host_lookup_r _ _ _ F1 Hh1) as (b0 & E0 & S1).
  destruct (framed_host_lookup _ _ _ F2 E0) as (host2 & Hh2 & S2).
  assert (Hrf2 : m_device_time_proj (line_buffers s2) !! Z.to_nat stream_no = Some rf)
    by (rewrite <- (Hd _ eq_refl); exact Hrf).
  assert (Heq : with_data host1 (take n0 (data rf) ++ drop n0 (data host1))
                = with_data host2 (take n0 (data rf) ++ drop n0 (data host2))).
  { destruct S1 as (B1 & _ & D1), S2 as (B2 & _ & D2).
    unfold with_data. f_equal; congruence. }
  assert (Hlen : forall host : BufferRAII complex,
             (n0 <= length (data host))%nat ->
             length (take n0 (data rf) ++ drop n0 (data host)) = length (data host)).
  { intros host Hl. rewrite length_app, length_take, length_drop. lia. }
  assert (Hdrop : forall host : BufferRAII complex,
             drop n0 (take n0 (data rf) ++ drop n0 (data host)) = drop n0 (data host)).
  { intros host. rewrite drop_app_length'; [reflexivity |].
    rewrite length_take. lia. }
  assert (L3 : (n0 <= length (data host2))%nat)
    by (destruct S1 as (_ & A1 & _), S2 as (_ & A2 & _); lia).
  eexists. split.
  - unfold copy_line_to_host, bind, gets, api, modify. rewrite Hh2. cbn.
    rewrite Hrf2. cbn. rewrite Hcount. unfold memcpy.
    rewrite decide_True by auto. cbn. reflexivity.
  - split; [apply (framed_set_host (upd_cuda_trace _ s1)); auto |].
    split; [apply (framed_set_host (upd_cuda_trace _ s2)); auto |].
    cbn. split; [exact Hd |].
    intros j Hj. rewrite Heq.
    destruct (decide (j = Z.to_nat beam_no)) as [-> | Hne].
    + rewrite !list_lookup_insert_eq; auto; eapply lookup_lt_Some; eauto.
    + rewrite !list_lookup_insert_ne by auto. apply Hh. lia.
Qed.

(** A member the pipeline does not assign has the value it has in [s0]. *)
Lemma related_setting {V} d h (f : GpuAlgorithm -> V) :
  (forall s, same_settings s0 s -> f s = f s0) ->
  forall s1 s2, related d h s1 s2 -> f s1 = f s0 /\ f s2 = f s0.
Proof. intros Hf s1 s2 ((S1 & _) & (S2 & _) & _). auto. Qed.

Ltac setting :=
  apply related_setting;
  let s := fresh "s" in
  intros s (? & ? & ? & ? & ? & ? & ? & ? & ? & ? & ? & ?);
  unfold num_rf_samples_of; cbn; congruence.

Ltac rel_step :=
  lazymatch goal with
  | |- rel _ (bind (gets ?f) _) _ =>
      apply (rel_gets_bind _ _ f (f s0)); [setting | cbn beta]
  | |- rel _ (bind (deref _) _) _ =>
      apply rel_deref_bind; intros ? ?
  | |- rel _ (bind (api _) _) _ =>
      eapply rel_bind; [apply rel_api | intros _]
  | |- rel _ (bind (time_proj_ptr _) _) _ =>
      eapply rel_bind; [apply rel_time_proj_ptr | intros _]
  | |- rel _ (bind (bind _ _) _) _ => apply rel_bind_assoc
  | |- rel _ (bind (ret _) _) _ => apply rel_ret_bind
  | |- rel _ (bind (throw _) _) _ => apply rel_throw_bind
  | |- rel _ (bind undefined _) _ => apply rel_undefined_bind
  | |- rel _ (bind (if ?b then _ else _) _) _ => destruct b
  | |- rel _ (bind (match ?x with _ => _ end) _) _ => destruct x
  | |- rel _ (bind (when _ (debug_timer _)) _) _ =>
      eapply rel_bind; [apply rel_when, rel_debug_timer | intros _]
  | |- rel _ (bind (when _ (debug_push _ _)) _) _ =>
      eapply rel_bind; [apply rel_when, rel_debug_push | intros _]
  | |- rel _ (when _ (debug_timer _)) _ => apply rel_when, rel_debug_timer
  | |- rel _ (if ?b then _ else _) _ => destruct b
  | |- rel _ (let '(_, _) := ?x in _) _ => destruct x
  | |- rel _ (match ?x with _ => _ end) _ => destruct x
  | |- rel _ (throw _) _ => apply rel_throw
  | |- rel _ undefined _ => apply rel_undefined
  | |- rel _ (ret _) _ => apply rel_ret; auto
  end.

Hypothesis plan_size :
  forall nx, m_fft_plan (excitation s0) = Some nx -> nx = num_time_samples0.
Hypothesis line_bytes : 0 <= sizeof_complex * num_time_samples0 < 2 ^ 64.

Lemma rel_launch d h stream_no k grid block (f : list complex -> nat -> complex) :
  d = Some (Z.to_nat stream_no) \/ (forall l l' k, f l k = f l' k) ->
  rel (related d h)
      (api (call_launch k grid block) ;;; on_time_proj stream_no (in_place n0 f))
      (related (Some (Z.to_nat stream_no)) h).
Proof.
  intros Hf. eapply rel_bind; [apply rel_api | intros _].
  now apply rel_on_time_proj.
Qed.

Lemma rel_fixed_projection_kernel h stream_no scanline num_blocks :
  rel (related (Some (Z.to_nat stream_no)) h)
      (fixed_projection_kernel stream_no scanline num_blocks)
      (related (Some (Z.to_nat stream_no)) h).
Proof.
  unfold fixed_projection_kernel, use_lut_flag, dispatch.
  repeat rel_step; apply rel_on_time_proj; auto.
Qed.

Lemma rel_spline_projection_kernel h stream_no scanline num_blocks :
  rel (related (Some (Z.to_nat stream_no)) h)
      (spline_projection_kernel stream_no scanline num_blocks)
      (related (Some (Z.to_nat stream_no)) h).
Proof.
  unfold spline_projection_kernel, use_lut_flag, dispatch.
  repeat rel_step; apply rel_on_time_proj; auto.
Qed.

Lemma rel_post_weaken {A} R (m : St A) d h :
  rel R m (related d h) -> rel R m (related None h).
Proof.
  intros H s1 s2 a s1' HR E. destruct (H _ _ _ _ HR E) as (s2' & E2 & HQ).
  exists s2'. split; [exact E2 | eapply related_weaken; eauto].
Qed.

Lemma line_count : Z.to_nat (to_size_t (sizeof_complex * num_time_samples0) / sizeof_complex) = n0.
Proof.
  rewrite to_size_t_id by exact line_bytes.
  unfold sizeof_complex in *. rewrite Z.mul_comm, Z.div_mul by lia. reflexivity.
Qed.

Ltac beam_step :=
  lazymatch goal with
  | |- rel _ (bind (on_time_proj _ _) _) _ =>
      eapply rel_bind;
      [ apply rel_on_time_proj;
        first [left; reflexivity | right; intros; reflexivity]
      | intros _ ]
  | |- rel _ (bind (when _ (bind (fixed_projection_kernel _ _ _) _)) _) _ =>
      eapply rel_bind;
      [ apply rel_when; eapply rel_bind;
        [apply rel_fixed_projection_kernel | intros _; apply rel_when, rel_debug_timer]
      | intros _ ]
  | |- rel _ (bind (when _ (bind (spline_projection_kernel _ _ _) _)) _) _ =>
      eapply rel_bind;
      [ apply rel_when; eapply rel_bind;
        [apply rel_spline_projection_kernel | intros _; apply rel_when, rel_debug_timer]
      | intros _ ]
  | |- rel _ (bind (copy_line_to_host _ _ _) _) _ =>
      eapply rel_bind;
      [ apply rel_copy_line_to_host; [apply line_count | reflexivity] | intros _ ]
  | H : m_fft_plan (excitation s0) = Some ?nx |- _ =>
      pose proof (plan_size _ H) as ->; clear H
  | _ => rel_step
  end.

(** One beam: whatever the two runs found in the projection buffer of the
    beam's stream and in the host buffer of its line, they leave the same
    there. *)
Lemma rel_simulate_beam d seq nbf nbs beam_no :
  rel (related d (Z.to_nat beam_no))
      (simulate_beam seq nbf nbs beam_no)
      (related None (S (Z.to_nat beam_no))).
Proof.
  eapply rel_post_weaken. unfold simulate_beam. repeat beam_step.
Qed.

Lemma rel_beams seq nbf nbs k : forall d b0,
  rel (related d b0)
      (for_each (seqZ (Z.of_nat b0) (Z.of_nat k)) (simulate_beam seq nbf nbs))
      (related None (b0 + k)).
Proof.
  induction k as [|k IH]; intros d b0.
  - cbn. apply rel_ret. intros s1 s2 H. rewrite Nat.add_0_r.
    eapply related_weaken; eauto.
  - rewrite seqZ_cons by lia. cbn [for_each].
    eapply rel_bind.
    + pose proof (rel_simulate_beam d seq nbf nbs (Z.of_nat b0)) as H.
      rewrite Nat2Z.id in H. exact H.
    + intros _.
      replace (Z.succ (Z.of_nat b0)) with (Z.of_nat (S b0)) by lia.
      replace (Z.pred (Z.of_nat (S k))) with (Z.of_nat k) by lia.
      replace (b0 + S k)%nat with (S b0 + k)%nat by lia.
      apply IH.
Qed.

(** The assembly returns the same lines in both runs when they agree on
    the host buffers it reads. *)
Lemma rel_assemble_lines d h fuel nrs dc rd l :
  Forall (fun j => (Z.to_nat j < h)%nat) l ->
  rel (related d h) (assemble_lines fuel nrs dc rd l) (related d h).
Proof.
  intros Hl s1 s2 out s1' HR H.
  apply assemble_lines_Ok in H as [-> F].
  exists s2. split; [| exact HR].
  destruct HR as (_ & _ & _ & Hh).
  revert out F. induction Hl as [|j l Hj Hl IH]; intros out F.
  - apply Forall2_nil_inv_l in F as ->. reflexivity.
  - apply Forall2_cons_inv_l in F as (x & out' & (host & Hhost & Hx) & F & ->).
    cbn [assemble_lines]. unfold bind at 1, gets at 1.
    rewrite <- (Hh _ Hj), Hhost. cbn [deref]. unfold bind at 1, ret at 1.
    unfold bind at 1. rewrite (collect_samples_any_state _ _ _ _ _ _ _ s2 _ Hx).
    unfold bind at 1. rewrite (IH _ F). reflexivity.
Qed.

(** From the validation on, the second run passes the checks the first
    run passed, and returns the same lines. *)
Lemma rel_simulate_lines_run fuel :
  rel (related None 0) (simulate_lines_run fuel) (fun s1 s2 => framed s1 /\ framed s2).
Proof.
  unfold simulate_lines_run. repeat rel_step.
  eapply rel_bind.
  { pose proof (rel_beams a
                  (round_up_div (m_num_fixed_scatterers (fixed s0))
                                (m_param_threads_per_block (params s0)))
                  (round_up_div (m_num_spline_scatterers (spline s0))
                                (m_param_threads_per_block (params s0)))
                  (length (scanlines a)) None 0%nat) as Hb.
    exact Hb. }
  intros _. repeat rel_step. cbn [Nat.add].
  assert (Hl : Forall (fun j => (Z.to_nat j < length (scanlines a))%nat)
                      (seqZ 0 (get_num_lines a))).
  { apply Forall_forall. intros j Hj. apply elem_of_seqZ in Hj.
    unfold get_num_lines in Hj. lia. }
  intros s1 s2 out s1' HR E.
  destruct (rel_assemble_lines None _ fuel _ _ _ _ Hl s1 s2 out s1' HR E)
    as (s2' & E2 & F1 & F2 & _).
  exists s2'. auto.
Qed.
End Related.

(** The first beam of a run that returned found its stream. *)
Lemma simulate_beam_Ok_stream seq nbf nbs beam_no s s' :
  simulate_beam seq nbf nbs beam_no s = Ok tt s' -> m_stream_wrappers s <> [].
Proof.
  unfold simulate_beam. intros H.
  apply bind_Ok in H as (num_streams & u & Hg & H). injection Hg as <- <-.
  apply bind_Ok in H as ([] & u & Hg & H).
  destruct (_ =? 0); [discriminate |]. injection Hg as <-.
  apply bind_Ok in H as (wrappers & u & Hg & H). injection Hg as <- <-.
  apply bind_Ok in H as (cur_stream & u & Hg & H). apply deref_Ok in Hg as [Hw ->].
  intros E. rewrite E in Hw. discriminate.
Qed.

(** C8. When a call of [simulate_lines] has returned, on an engine whose FFT
    plan has the size of the line buffers, a second call right after it
    returns as well, with exactly the same lines: what the first call left
    behind in the streams, the latch, the diagnostic log, the trace and the
    line buffers has no effect on the samples of the second. *)
Theorem simulate_lines_twice
    (fuel : nat) (s s1 : GpuAlgorithm) (out : list (list complex)) :
  simulate_lines fuel s = Ok out s1 ->
  (forall nx, m_fft_plan (excitation s) = Some nx ->
              nx = m_num_time_samples (line_buffers s)) ->
  0 <= sizeof_complex * m_num_time_samples (line_buffers s) < 2 ^ 64 ->
  exists s2, simulate_lines fuel s1 = Ok out s2.
Proof.
  intros H Hplan Hbytes. rewrite simulate_lines_eq in H.
  destruct (after_prepare_settings s) as (Eb & Ep & Es & Ee & Ebp & Ef & Esp & Edp & El & Elatch).
  set (sa := after_prepare s) in *.
  assert (Hplan' : forall nx, m_fft_plan (excitation sa) = Some nx ->
                              nx = m_num_time_samples (line_buffers sa))
    by (rewrite Ee, El; exact Hplan).
  assert (Hbytes' : 0 <= sizeof_complex * m_num_time_samples (line_buffers sa) < 2 ^ 64)
    by (rewrite El; exact Hbytes).
  assert (Hrefl : related sa None 0 sa sa).
  { split; [apply framed_refl |]. split; [apply framed_refl |].
    split; [intros i Hi; discriminate | intros j Hj; lia]. }
  (* the first run, against itself: it is framed *)
  destruct (rel_simulate_lines_run sa Hplan' Hbytes' fuel sa sa out s1 Hrefl H)
    as (s1' & E1 & F1 & _).
  (* the streams exist after the first run *)
  assert (Hw : m_stream_wrappers s1 <> []).
  { pose proof H as H'.
    apply simulate_lines_run_Ok in H' as (seq & t1 & Hseq & HL & _ & Hloop & _).
    destruct F1 as ((_ & _ & _ & _ & W & _) & _). rewrite W.
    rewrite seqZ_cons in Hloop by lia. cbn [for_each] in Hloop.
    apply bind_Ok in Hloop as ([] & u & Hbeam & _).
    eapply simulate_beam_Ok_stream; eauto. }
  (* the second run starts framed *)
  assert (Fb : framed sa (after_prepare s1)).
  { destruct F1 as (S & Fp & Fh).
    destruct (after_prepare_settings s1) as (Eb1 & Ep1 & Es1 & Ee1 & Ebp1 & Ef1 & Esp1 & Edp1 & El1 & Elatch1).
    split; [| rewrite El1; auto].
    destruct S as (S1 & S2 & S3 & S4 & S5 & S6 & S7 & S8 & S9 & S10 & S11 & S12).
    assert (W : m_stream_wrappers (after_prepare s1) = m_stream_wrappers sa).
    { rewrite <- S5. unfold after_prepare.
      rewrite bool_decide_eq_false_2.
      - destruct (m_store_kernel_details (params s1)); reflexivity.
      - intros E. apply Hw. now apply length_zero_iff_nil. }
    unfold same_settings.
    rewrite Eb1, Ep1, Es1, Ee1, Ebp1, Ef1, Esp1, Edp1, El1, Elatch1, W.
    repeat split; congruence. }
  assert (Hrel : related sa None 0 sa (after_prepare s1)).
  { split; [apply framed_refl |]. split; [exact Fb |].
    split; [intros i Hi; discriminate | intros j Hj; lia]. }
  destruct (rel_simulate_lines_run sa Hplan' Hbytes' fuel sa _ out s1 Hrel H)
    as (s2 & E2 & _).
  exists s2. now rewrite simulate_lines_eq.
Qed.


(** ** A run that has to return

    [runs P m Q]: from every state in [P], [m] returns, with a value and in
    a state in [Q]. *)

Definition runs {A} (P : GpuAlgorithm -> Prop) (m : St A)
    (Q : A -> GpuAlgorithm -> Prop) : Prop :=
  forall s, P s -> exists a s', m s = Ok a s' /\ Q a s'.

Section Runs.
Context {A B : Type}.

Lemma runs_bind P P' Q (m : St A) (k : A -> St B) :
  runs P m (fun _ => P') -> (forall a, runs P' (k a) Q) -> runs P (bind m k) Q.
Proof.
  intros Hm Hk s Hs. destruct (Hm s Hs) as (a & s1 & E1 & H1).
  destruct (Hk a s1 H1) as (b & s2 & E2 & H2).
  exists b, s2. split; [| exact H2]. unfold bind. now rewrite E1.
Qed.

Lemma runs_gets_bind P Q (f : GpuAlgorithm -> A) (v : A) (k : A -> St B) :
  (forall s, P s -> f s = v) -> runs P (k v) Q -> runs P (bind (gets f) k) Q.
Proof.
  intros Hf Hk s Hs. unfold bind, gets. rewrite (Hf s Hs). now apply Hk.
Qed.

Lemma runs_deref_bind P Q (p : option A) (a : A) (k : A -> St B) :
  p = Some a -> runs P (k a) Q -> runs P (bind (deref p) k) Q.
Proof. intros -> Hk s Hs. unfold bind, deref, ret. now apply Hk. Qed.

Lemma runs_ret_bind P Q (a : A) (k : A -> St B) :
  runs P (k a) Q -> runs P (bind (ret a) k) Q.
Proof. intros H. exact H. Qed.

Lemma runs_ret (P : GpuAlgorithm -> Prop) (Q : A -> GpuAlgorithm -> Prop) (a : A) :
  (forall s, P s -> Q a s) -> runs P (ret a) Q.
Proof. intros H s Hs. exists a, s. split; [reflexivity | auto]. Qed.
End Runs.

Lemma runs_modify (P P' : GpuAlgorithm -> Prop) (f : GpuAlgorithm -> GpuAlgorithm) :
  (forall s, P s -> P' (f s)) -> runs P (modify f) (fun _ => P').
Proof. intros H s Hs. exists tt, (f s). split; [reflexivity | auto]. Qed.

Lemma runs_when (P : GpuAlgorithm -> Prop) b (m : St unit) :
  runs P m (fun _ => P) -> runs P (when b m) (fun _ => P).
Proof. intros H. destruct b; [exact H | apply runs_ret; auto]. Qed.


(** *** One line, no scatterers *)

Section NoScatterers.
(** What the transforms and the two elementwise kernels do to a buffer of
    zeros, at the indices of the buffer. *)
Hypothesis fft_of_zeros : forall direction n k, (k < n)%nat ->
  run_cufftExecC2C direction (replicate n complex_zero) k = complex_zero.
Hypothesis multiply_of_zeros : forall h n k, (k < n)%nat -> (k < length h)%nat ->
  run_MultiplyFftKernel h (replicate n complex_zero) k = complex_zero.
Hypothesis demodulate_of_zeros : forall w n k, (k < n)%nat ->
  run_DemodulateKernel w (replicate n complex_zero) k = complex_zero.

(** The object when the pipeline is entered. *)
Variable s0 : GpuAlgorithm.
Variable scan_seq : ScanSequence.
Variable scanline : Scanline.

Let num_time_samples0 := m_num_time_samples (line_buffers s0).
Let n0 := Z.to_nat num_time_samples0.

Hypothesis Hlines : scanlines scan_seq = [scanline].
Hypothesis Hfixed : m_num_fixed_scatterers (fixed s0) = 0.
Hypothesis Hspline : m_num_spline_scatterers (spline s0) = 0.
Hypothesis Hstreams : 1 <= m_param_num_cuda_streams (params s0).
Hypothesis Hwrappers : m_stream_wrappers s0 !! 0%nat = Some tt.
Hypothesis Hplan : m_fft_plan (excitation s0) = Some num_time_samples0.
Hypothesis Hbytes : 0 <= sizeof_complex * num_time_samples0 < 2 ^ 64.
Variable rf0 : BufferRAII complex.
Hypothesis Hproj : m_device_time_proj (line_buffers s0) !! 0%nat = Some rf0.
Hypothesis Hproj_len : (n0 <= length (data rf0))%nat.
Variable excitation_fft0 : BufferRAII complex.
Hypothesis Hfft : m_device_excitation_fft (excitation s0) = Some excitation_fft0.
Hypothesis Hfft_len : (n0 <= length (data excitation_fft0))%nat.
Variable host0 : BufferRAII complex.
Hypothesis Hhost : m_host_rf_lines (line_buffers s0) !! 0%nat = Some host0.
Hypothesis Hhost_len : (n0 <= length (data host0))%nat.















(** What the validation and the assembly of the output need. *)
Hypothesis Hseq : m_scan_seq s0 = Some scan_seq.
Hypothesis Hprofile :
  is_NOT_CONFIGURED (m_cur_beam_profile_type (beam_profile s0)) = false.
Hypothesis Hthreads : 1 <= m_param_threads_per_block (params s0).
Hypothesis Hgrid : 0 <= maxGridSize0 (m_cur_device_prop s0).
Hypothesis Hdec : 1 <= m_radial_decimation (base s0) <= INT_MAX.
Hypothesis Hcenter : 0 <= center_index (m_excitation (excitation s0)).
Hypothesis Hcap :
  center_index (m_excitation (excitation s0)) + num_rf_samples_of s0 scan_seq
  <= num_time_samples0.




End NoScatterers.



(** * Further properties of the engine *)

(** ** Parameters *)



(** X2. The number of streams is accepted exactly when it is at least one and
    at most [MAX_NUM_CUDA_STREAMS].  An accepted number is only recorded: the
    stream pool, the line buffers and the latch are not touched, and no call
    into the CUDA runtime is made.  A rejected number changes nothing. *)
Theorem cuda_streams_parameter (value : string) (n : Z) (s : GpuAlgorithm) :
  stoi value = Some n ->
  (0 < n <= MAX_NUM_CUDA_STREAMS ->
   exists s',
     set_parameter "cuda_streams" value s = Ok tt s' /\
     m_param_num_cuda_streams (params s') = n /\
     m_stream_wrappers s' = m_stream_wrappers s /\
     line_buffers s' = line_buffers s /\
     m_can_change_cuda_device s' = m_can_change_cuda_device s /\
     cuda_trace s' = cuda_trace s) /\
  (MAX_NUM_CUDA_STREAMS < n ->
   set_parameter "cuda_streams" value s
   = Throw (runtime_error "number of CUDA streams exceeds MAX_NUM_CUDA_STREAMS") s) /\
  (n <= 0 -> n <= MAX_NUM_CUDA_STREAMS ->
   set_parameter "cuda_streams" value s
   = Throw (runtime_error "number of CUDA streams must be more than zero") s).
Proof.
  intros Hv. unfold set_parameter.
  rewrite decide_False by discriminate. rewrite decide_True by reflexivity.
  unfold bind, std_stoi. rewrite Hv. cbn.
  split; [| split].
  - intros Hn. replace (n >? MAX_NUM_CUDA_STREAMS) with false by lia.
    replace (n <=? 0) with false by lia. cbn.
    eexists. split; [reflexivity |]. cbn. auto.
  - intros Hn. replace (n >? MAX_NUM_CUDA_STREAMS) with true by lia. reflexivity.
  - intros Hn Hm. replace (n >? MAX_NUM_CUDA_STREAMS) with false by lia.
    replace (n <=? 0) with true by lia. reflexivity.
Qed.

(** ** Construction *)

(** X3. The constructor succeeds exactly on a machine with at least one CUDA
    device; without one it throws "illegal CUDA device number".  The engine
    it builds has device 0 selected and its properties cached, the device
    selection unlocked, no streams, no scan sequence, no line buffers, no
    scatterers, no beam profile configured, and as its only device resource
    a lookup table of [16 x 16 x 16] zeros. *)
Theorem constructor_outcome :
  (1 <= cudaGetDeviceCount ->
   exists s0,
     GpuAlgorithm_new = Ok tt s0 /\
     m_can_change_cuda_device s0 = true /\
     m_param_cuda_device_no (params s0) = 0 /\
     m_cur_device_prop s0 = cudaGetDeviceProperties 0 /\
     m_stream_wrappers s0 = [] /\
     m_scan_seq s0 = None /\
     m_num_beams_allocated (line_buffers s0) = -1 /\
     m_device_time_proj (line_buffers s0) = [] /\
     m_host_rf_lines (line_buffers s0) = [] /\
     m_num_fixed_scatterers (fixed s0) = 0 /\
     m_num_spline_scatterers (spline s0) = 0 /\
     m_cur_beam_profile_type (beam_profile s0) = NOT_CONFIGURED /\
     m_device_beam_profile (beam_profile s0)
     = Some {| table_extent := (16, 16, 16);
               table_samples := replicate 4096 (float_lit 0) |} /\
     cuda_trace s0 = [call_cudaMalloc3DArray 16 16 16]) /\
  (cudaGetDeviceCount <= 0 ->
   exists s,
     GpuAlgorithm_new = Throw (runtime_error "illegal CUDA device number") s /\
     cuda_trace s = []).
Proof.
  unfold GpuAlgorithm_new, save_cuda_device_properties, get_num_cuda_devices,
    create_dummy_lut_profile, new_DeviceBeamProfileRAII, api, bind, gets, modify, ret.
  cbn [initial_members params m_param_cuda_device_no].
  split; intros H.
  - replace ((0 <? 0) || (0 >=? cudaGetDeviceCount)) with false by lia.
    eexists. split; [reflexivity |]. cbn. repeat split; reflexivity.
  - replace ((0 <? 0) || (0 >=? cudaGetDeviceCount)) with true by lia.
    eexists. split; reflexivity.
Qed.

(** ** Outcomes of a member function

    [hoare P m Q E]: started in a state in [P], the function [m] returns
    only with a value and a state in [Q], and throws only an exception and in
    a state in [E]. *)

Definition hoare {A} (P : GpuAlgorithm -> Prop) (m : St A)
    (Q : A -> GpuAlgorithm -> Prop) (E : exception -> GpuAlgorithm -> Prop) : Prop :=
  forall s, P s ->
    match m s with
    | Ok a s' => Q a s'
    | Throw e s' => E e s'
    | Undefined | Diverge => True
    end.

Section Hoare.
Context {A B : Type}.
Implicit Types (P : GpuAlgorithm -> Prop) (E : exception -> GpuAlgorithm -> Prop).

Lemma hoare_bind P (R : A -> GpuAlgorithm -> Prop) (Q : B -> GpuAlgorithm -> Prop) E
    (m : St A) (k : A -> St B) :
  hoare P m R E -> (forall a, hoare (R a) (k a) Q E) -> hoare P (bind m k) Q E.
Proof.
  intros Hm Hk s Hs. unfold bind. specialize (Hm s Hs).
  destruct (m s) as [a s1|e s1| |]; try exact Hm; try exact I.
  exact (Hk a s1 Hm).
Qed.

Lemma hoare_gets_bind P (Q : B -> GpuAlgorithm -> Prop) E
    (f : GpuAlgorithm -> A) (v : A) (k : A -> St B) :
  (forall s, P s -> f s = v) -> hoare P (k v) Q E -> hoare P (bind (gets f) k) Q E.
Proof. intros Hf Hk s Hs. unfold bind, gets. rewrite (Hf s Hs). now apply Hk. Qed.

Lemma hoare_gets_any_bind P (Q : B -> GpuAlgorithm -> Prop) E
    (f : GpuAlgorithm -> A) (k : A -> St B) :
  (forall v, hoare P (k v) Q E) -> hoare P (bind (gets f) k) Q E.
Proof. intros Hk s Hs. unfold bind, gets. now apply Hk. Qed.

Lemma hoare_deref_bind P (Q : B -> GpuAlgorithm -> Prop) E
    (p : option A) (k : A -> St B) :
  (forall a, p = Some a -> hoare P (k a) Q E) -> hoare P (bind (deref p) k) Q E.
Proof.
  intros Hk s Hs. unfold bind, deref. destruct p as [a|]; [| exact I].
  now apply (Hk a).
Qed.

Lemma hoare_ret_bind P (Q : B -> GpuAlgorithm -> Prop) E (a : A) (k : A -> St B) :
  hoare P (k a) Q E -> hoare P (bind (ret a) k) Q E.
Proof. intros H. exact H. Qed.

Lemma hoare_undefined_bind P (Q : B -> GpuAlgorithm -> Prop) E (k : A -> St B) :
  hoare P (bind undefined k) Q E.
Proof. intros s _. exact I. Qed.

Lemma hoare_throw_bind P (Q : B -> GpuAlgorithm -> Prop) E e (k : A -> St B) :
  (forall s, P s -> E e s) -> hoare P (bind (throw e) k) Q E.
Proof. intros H s Hs. cbn. now apply H. Qed.

Lemma hoare_ret P (Q : A -> GpuAlgorithm -> Prop) E (a : A) :
  (forall s, P s -> Q a s) -> hoare P (ret a) Q E.
Proof. intros H s Hs. now apply H. Qed.

Lemma hoare_throw P (Q : A -> GpuAlgorithm -> Prop) E e :
  (forall s, P s -> E e s) -> hoare P (throw e) Q E.
Proof. intros H s Hs. now apply H. Qed.

Lemma hoare_undefined P (Q : A -> GpuAlgorithm -> Prop) E : hoare P undefined Q E.
Proof. intros s _. exact I. Qed.

Lemma hoare_weaken P P' (Q Q' : A -> GpuAlgorithm -> Prop) E E' (m : St A) :
  hoare P' m Q' E' ->
  (forall s, P s -> P' s) ->
  (forall a s, Q' a s -> Q a s) ->
  (forall e s, E' e s -> E e s) ->
  hoare P m Q E.
Proof.
  intros H HP HQ HE s Hs. specialize (H s (HP s Hs)).
  destruct (m s); auto.
Qed.
End Hoare.

Lemma hoare_bind_assoc {A B C} P (Q : C -> GpuAlgorithm -> Prop) E
    (m : St A) (f : A -> St B) (k : B -> St C) :
  hoare P (bind m (fun a => bind (f a) k)) Q E -> hoare P (bind (bind m f) k) Q E.
Proof.
  intros H s Hs. specialize (H s Hs). unfold bind in *.
  destruct (m s) as [a s1|e s1| |]; exact H.
Qed.

Lemma hoare_gets_with {A B} P (R : A -> Prop) (Q : B -> GpuAlgorithm -> Prop) E
    (f : GpuAlgorithm -> A) (k : A -> St B) :
  (forall s, P s -> R (f s)) ->
  (forall v, R v -> hoare P (k v) Q E) ->
  hoare P (bind (gets f) k) Q E.
Proof. intros Hf Hk s Hs. unfold bind, gets. apply Hk; auto. Qed.

(** A fact that does not depend on the state can be carried along. *)
Lemma hoare_frame {A} P (Q : A -> GpuAlgorithm -> Prop) E (fact : Prop) (m : St A) :
  hoare P m Q E ->
  hoare (fun s => P s /\ fact) m (fun a s => Q a s /\ fact) E.
Proof.
  intros H s [Hs Hf]. specialize (H s Hs). destruct (m s); auto.
Qed.

Lemma hoare_fact {A} P (Q : A -> GpuAlgorithm -> Prop) E (fact : Prop) (m : St A) :
  (fact -> hoare P m Q E) -> hoare (fun s => P s /\ fact) m Q E.
Proof. intros H s [Hs Hf]. now apply H. Qed.

Lemma hoare_modify P (Q : unit -> GpuAlgorithm -> Prop) E (f : GpuAlgorithm -> GpuAlgorithm) :
  (forall s, P s -> Q tt (f s)) -> hoare P (modify f) Q E.
Proof. intros H s Hs. now apply H. Qed.

Lemma hoare_when P E b (m : St unit) :
  hoare P m (fun _ => P) E -> hoare P (when b m) (fun _ => P) E.
Proof. intros H. destruct b; [exact H | apply hoare_ret; auto]. Qed.

Lemma hoare_for_each {T} P E (l : list T) (body : T -> St unit) :
  (forall a, a ∈ l -> hoare P (body a) (fun _ => P) E) ->
  hoare P (for_each l body) (fun _ => P) E.
Proof.
  induction l as [|a l IH]; intros H; cbn.
  - apply hoare_ret. auto.
  - apply (hoare_bind P (fun _ => P)); [apply H; apply elem_of_cons; now left | intros _].
    apply IH. intros b Hb. apply H. apply elem_of_cons. now right.
Qed.

(** A function that leaves the state alone when it returns or throws. *)
Lemma hoare_pure {T} P E (m : St T) :
  leaves (fun s s' => s' = s) m ->
  (forall e s, P s -> E e s) ->
  hoare P m (fun _ => P) E.
Proof.
  intros L HE s Hs. specialize (L s).
  destruct (m s) as [a s1|e s1| |]; try exact I; rewrite L; auto.
Qed.

Lemma hoare_final {T} P (Q : GpuAlgorithm -> Prop) (m : St T) s s' :
  hoare P m (fun _ => Q) (fun _ => Q) -> P s -> final_state (m s) = Some s' -> Q s'.
Proof.
  intros H Hs. specialize (H s Hs).
  destruct (m s) as [a s1|e s1| |]; cbn; intros [= <-]; exact H.
Qed.

(** ** What the pipeline does to the engine

    The states of a run of the pipeline that was entered in [s0]: the
    settings are those of [s0]; the calls made since are all [good]; and the
    diagnostic log is the one of [s0] when [keep_log] says so. *)

(** The calls every beam makes, whatever the scatterers. *)
Definition pipeline_stage (c : api_call) : bool :=
  match c with
  | call_launch MemsetKernel _ _ | call_launch MultiplyFftKernel _ _
  | call_launch DemodulateKernel _ _ | call_cufftExecC2C _
  | call_cudaMemcpyDeviceToHost _ => true
  | _ => false
  end.

(** The assembly of the output has no [throw]. *)
Lemma collect_samples_never_throws fuel line nrs dc rd : forall i (s : GpuAlgorithm) e s',
  collect_samples fuel line nrs dc rd i s <> Throw e s'.
Proof.
  induction fuel as [|fuel IH]; intros i s e s'; cbn.
  - destruct (i <? nrs); discriminate.
  - destruct (i <? nrs); [| discriminate].
    unfold bind, deref. destruct (line !! _); [| discriminate]. cbn.
    specialize (IH (to_size_t (i + to_size_t rd)) s).
    destruct (collect_samples fuel line nrs dc rd _ s); try discriminate.
    intros H. eapply IH. reflexivity.
Qed.

Lemma assemble_lines_never_throws fuel nrs dc rd l : forall (s : GpuAlgorithm) e s',
  assemble_lines fuel nrs dc rd l s <> Throw e s'.
Proof.
  induction l as [|j l IH]; intros s e s'; cbn [assemble_lines]; [discriminate |].
  unfold bind, gets, deref. destruct (_ !! _); [| discriminate]. cbn.
  pose proof (collect_samples_never_throws fuel (data b) nrs dc rd 0 s) as C.
  destruct (collect_samples fuel (data b) nrs dc rd 0 s) as [xs s1|e1 s1| |];
    try discriminate; [| now destruct (C e1 s1)].
  specialize (IH s1). destruct (assemble_lines fuel nrs dc rd l s1); try discriminate.
  intros H. eapply IH. reflexivity.
Qed.

Lemma dispatch_launch (arc phase use_lut : bool)
    (launch : bool -> bool -> bool -> St unit) :
  dispatch arc phase use_lut launch = launch arc phase use_lut.
Proof. destruct arc, phase, use_lut; reflexivity. Qed.

Section Within.
Variable s0 : GpuAlgorithm.
Variable good : api_call -> bool.
Variable keep_log : bool.

Hypothesis good_stage : forall c, pipeline_stage c = true -> good c = true.
Hypothesis good_fixed :
  0 < m_num_fixed_scatterers (fixed s0) ->
  forall arc phase lut grid block,
    good (call_launch (FixedAlgKernel arc phase lut) grid block) = true.
Hypothesis good_spline :
  0 < m_num_spline_scatterers (spline s0) ->
  (forall arc phase lut grid block,
     good (call_launch (SplineAlgKernel arc phase lut) grid block) = true) /\
  (forall bytes offset, good (call_cudaMemcpyToSymbol bytes offset) = true).
Hypothesis log_off : keep_log = true -> m_store_kernel_details (params s0) = false.

(** The line buffers are as many as in [s0]. *)
Definition as_many_buffers (s : GpuAlgorithm) : Prop :=
  length (m_device_time_proj (line_buffers s))
  = length (m_device_time_proj (line_buffers s0)) /\
  length (m_host_rf_lines (line_buffers s))
  = length (m_host_rf_lines (line_buffers s0)).

Definition within (s : GpuAlgorithm) : Prop :=
  same_settings s0 s /\
  (exists calls, cuda_trace s = cuda_trace s0 ++ calls /\
                 Forall (fun c => good c = true) calls) /\
  (keep_log = true -> m_debug_data s = m_debug_data s0) /\
  as_many_buffers s.

Lemma within_start : within s0.
Proof.
  split; [reflexivity |]. split; [| split; [auto | split; reflexivity]].
  exists []. rewrite app_nil_r. split; [reflexivity | constructor].
Qed.

Lemma within_api c (E : exception -> GpuAlgorithm -> Prop) :
  good c = true -> hoare within (api c) (fun _ => within) E.
Proof.
  intros Hc. apply hoare_modify. intros s (S & (calls & T & G) & L).
  split; [exact S |]. split; [| exact L].
  exists (calls ++ [c]). cbn. rewrite T, <- app_assoc. split; [reflexivity |].
  apply Forall_app. split; [exact G | now constructor].
Qed.

Lemma within_debug_push key v (E : exception -> GpuAlgorithm -> Prop) :
  hoare within (when (m_store_kernel_details (params s0)) (debug_push key v))
        (fun _ => within) E.
Proof.
  destruct (m_store_kernel_details (params s0)) eqn:D; cbn [when].
  - apply hoare_modify. intros s (S & T & L & Z). split; [exact S |]. split; [exact T |].
    split; [| exact Z]. intros K. specialize (log_off K). congruence.
  - apply hoare_ret. auto.
Qed.

Lemma within_debug_timer key (E : exception -> GpuAlgorithm -> Prop) :
  hoare within (when (m_store_kernel_details (params s0)) (debug_timer key))
        (fun _ => within) E.
Proof.
  unfold debug_timer.
  destruct (m_store_kernel_details (params s0)) eqn:D; cbn [when].
  - apply hoare_gets_any_bind. intros now.
    apply hoare_modify. intros s (S & T & L & Z). split; [exact S |]. split; [exact T |].
    split; [| exact Z]. intros K. specialize (log_off K). congruence.
  - apply hoare_ret. auto.
Qed.

Lemma within_time_proj_ptr stream_no (E : exception -> GpuAlgorithm -> Prop) :
  hoare within (time_proj_ptr stream_no) (fun _ => within) E.
Proof.
  unfold time_proj_ptr. apply hoare_gets_any_bind. intros [].
  - apply hoare_ret. auto.
  - apply hoare_undefined.
Qed.

Lemma within_on_time_proj stream_no f (E : exception -> GpuAlgorithm -> Prop) :
  hoare within (on_time_proj stream_no f) (fun _ => within) E.
Proof.
  unfold on_time_proj. apply hoare_gets_any_bind. intros proj.
  apply hoare_deref_bind. intros b _. apply hoare_deref_bind. intros d _.
  apply hoare_modify. intros s ((?&?&?&?&?&?&?&?&?&?&?&?) & T & L & Z1 & Z2).
  split; [| split; [exact T | split; [exact L |]]].
  - repeat split; cbn; assumption.
  - split; cbn; rewrite ?length_insert; assumption.
Qed.

Lemma within_copy_line_to_host beam_no stream_no bytes (E : exception -> GpuAlgorithm -> Prop) :
  hoare within (copy_line_to_host beam_no stream_no bytes) (fun _ => within) E.
Proof.
  unfold copy_line_to_host. apply hoare_gets_any_bind. intros hosts.
  apply hoare_deref_bind. intros host _. apply hoare_gets_any_bind. intros proj.
  apply hoare_deref_bind. intros rf _.
  apply (hoare_bind within (fun _ => within)); [apply within_api, good_stage; reflexivity |].
  intros _. apply hoare_deref_bind. intros copied _.
  apply hoare_modify. intros s ((?&?&?&?&?&?&?&?&?&?&?&?) & T & L & Z1 & Z2).
  split; [| split; [exact T | split; [exact L |]]].
  - repeat split; cbn; assumption.
  - split; cbn; rewrite ?length_insert; assumption.
Qed.

Ltac within_setting_tac :=
  let s := fresh "s" in
  intros s ((? & ? & ? & ? & ? & ? & ? & ? & ? & ? & ? & ?) & _);
  unfold num_rf_samples_of; cbn; congruence.

(** One step through a member function whose state stays [within]. *)
Ltac within_step :=
  lazymatch goal with
  | |- hoare _ (bind (bind _ _) _) _ _ => apply hoare_bind_assoc
  | |- hoare _ (bind (gets ?f) _) _ _ =>
      first [ apply (hoare_gets_bind _ _ _ f (f s0)); [within_setting_tac | cbn beta]
            | apply hoare_gets_any_bind; intros ? ]
  | |- hoare _ (bind (deref _) _) _ _ => apply hoare_deref_bind; intros ? ?
  | |- hoare _ (bind (ret _) _) _ _ => apply hoare_ret_bind
  | |- hoare _ (bind undefined _) _ _ => apply hoare_undefined_bind
  | |- hoare _ (bind (throw _) _) _ _ => apply hoare_throw_bind; auto
  | |- hoare _ (bind (api _) _) _ _ =>
      apply (hoare_bind within (fun _ => within));
      [apply within_api; first [apply good_stage; reflexivity | auto] | intros _]
  | |- hoare _ (bind (time_proj_ptr _) _) _ _ =>
      apply (hoare_bind within (fun _ => within)); [apply within_time_proj_ptr | intros _]
  | |- hoare _ (bind (when _ (debug_timer _)) _) _ _ =>
      apply (hoare_bind within (fun _ => within)); [apply within_debug_timer | intros _]
  | |- hoare _ (bind (when _ (debug_push _ _)) _) _ _ =>
      apply (hoare_bind within (fun _ => within)); [apply within_debug_push | intros _]
  | |- hoare _ (bind (on_time_proj _ _) _) _ _ =>
      apply (hoare_bind within (fun _ => within)); [apply within_on_time_proj | intros _]
  | |- hoare _ (bind (if ?b then _ else _) _) _ _ => destruct b eqn:?
  | |- hoare _ (bind (match ?x with _ => _ end) _) _ _ => destruct x eqn:?
  | |- hoare _ (if ?b then _ else _) _ _ => destruct b eqn:?
  | |- hoare _ (match ?x with _ => _ end) _ _ => destruct x eqn:?
  | |- hoare _ (throw _) _ _ => apply hoare_throw; auto
  | |- hoare _ (ret _) _ _ => apply hoare_ret; auto
  | |- hoare _ undefined _ _ => apply hoare_undefined
  end.

(** The device arrays the projection kernels are given. *)
Definition fixed_arrays : Prop :=
  is_Some (m_device_point_xs (fixed s0)) /\
  is_Some (m_device_point_ys (fixed s0)) /\
  is_Some (m_device_point_zs (fixed s0)) /\
  is_Some (m_device_point_as (fixed s0)) /\
  is_Some (m_device_beam_profile (beam_profile s0)).

Definition spline_arrays : Prop :=
  is_Some (m_device_control_xs (spline s0)) /\
  is_Some (m_device_control_ys (spline s0)) /\
  is_Some (m_device_control_zs (spline s0)) /\
  is_Some (m_device_control_as (spline s0)) /\
  is_Some (m_device_beam_profile (beam_profile s0)).

Lemma arrays_fixed_projection_kernel stream_no scanline num_blocks :
  0 < m_num_fixed_scatterers (fixed s0) ->
  hoare within (fixed_projection_kernel stream_no scanline num_blocks)
        (fun _ s => within s /\ fixed_arrays) (fun _ => within).
Proof.
  intros Hn. specialize (good_fixed Hn).
  unfold fixed_projection_kernel, use_lut_flag.
  repeat within_step; rewrite dispatch_launch; repeat within_step;
    (eapply hoare_weaken;
       [apply (within_on_time_proj _ _ (fun _ => within)) | auto | | auto]);
    intros [] s W; (split; [exact W |]); repeat split; eexists; eassumption.
Qed.

Lemma arrays_spline_projection_kernel stream_no scanline num_blocks :
  0 < m_num_spline_scatterers (spline s0) ->
  hoare within (spline_projection_kernel stream_no scanline num_blocks)
        (fun _ s => within s /\ spline_arrays) (fun _ => within).
Proof.
  intros Hn. destruct (good_spline Hn) as [Hl Hc].
  unfold spline_projection_kernel, use_lut_flag.
  repeat within_step; rewrite dispatch_launch; repeat within_step;
    (eapply hoare_weaken;
       [apply (within_on_time_proj _ _ (fun _ => within)) | auto | | auto]);
    intros [] s W; (split; [exact W |]); repeat split; eexists; eassumption.
Qed.

(** The buffers a copy to the host needs. *)
Lemma copy_line_to_host_buffers beam_no stream_no bytes :
  hoare within (copy_line_to_host beam_no stream_no bytes)
        (fun _ s =>
           within s /\
           ((Z.to_nat beam_no < length (m_host_rf_lines (line_buffers s0)))%nat /\
            (Z.to_nat stream_no < length (m_device_time_proj (line_buffers s0)))%nat))
        (fun _ => within).
Proof.
  unfold copy_line_to_host.
  apply (hoare_gets_with within
           (fun hosts => length hosts = length (m_host_rf_lines (line_buffers s0)))).
  { intros s (_ & _ & _ & _ & Z). exact Z. }
  intros hosts Hh. apply hoare_deref_bind. intros host Eh.
  apply (hoare_gets_with within
           (fun proj => length proj = length (m_device_time_proj (line_buffers s0)))).
  { intros s (_ & _ & _ & Z & _). exact Z. }
  intros proj Hp. apply hoare_deref_bind. intros rf Er.
  apply (hoare_bind within (fun _ => within)); [apply within_api, good_stage; reflexivity |].
  intros _. apply hoare_deref_bind. intros copied _.
  apply hoare_modify. intros s ((?&?&?&?&?&?&?&?&?&?&?&?) & T & L & Z1 & Z2).
  apply lookup_lt_Some in Eh, Er. rewrite Hh in Eh. rewrite Hp in Er.
  split; [| split; assumption].
  split; [| split; [exact T | split; [exact L |]]].
  - repeat split; cbn; assumption.
  - split; cbn; rewrite ?length_insert; assumption.
Qed.

(** The stream a beam runs on, and what a beam needs to find: its stream,
    the projection buffer of the stream, and the host buffer of its line. *)
Definition stream_of (beam_no : Z) : nat :=
  Z.to_nat (to_size_t (beam_no `rem` m_param_num_cuda_streams (params s0))).

Definition served (beam_no : Z) : Prop :=
  (stream_of beam_no < length (m_stream_wrappers s0))%nat /\
  (stream_of beam_no < length (m_device_time_proj (line_buffers s0)))%nat /\
  (Z.to_nat beam_no < length (m_host_rf_lines (line_buffers s0)))%nat /\
  is_Some (m_fft_plan (excitation s0)) /\
  is_Some (m_device_excitation_fft (excitation s0)) /\
  (0 < m_num_fixed_scatterers (fixed s0) -> fixed_arrays) /\
  (0 < m_num_spline_scatterers (spline s0) -> spline_arrays).

Lemma served_simulate_beam seq nbf nbs beam_no :
  hoare within (simulate_beam seq nbf nbs beam_no)
        (fun _ s => within s /\ served beam_no) (fun _ => within).
Proof.
  unfold simulate_beam.
  repeat within_step.
  apply (hoare_bind within
           (fun _ s => within s /\ (0 < m_num_fixed_scatterers (fixed s0) -> fixed_arrays)));
    [| intros _; apply hoare_fact; intros Hfixed].
  { destruct (Z.gtb_spec (m_num_fixed_scatterers (fixed s0)) 0); cbn [when];
      [| apply hoare_ret; intros s W; split; [exact W | lia]].
    apply (hoare_bind within (fun _ s => within s /\ fixed_arrays));
      [apply arrays_fixed_projection_kernel; lia | intros _].
    eapply hoare_weaken;
      [apply (hoare_frame within (fun _ => within) (fun _ => within) fixed_arrays),
         within_debug_timer | auto | | auto].
    cbn. intros [] s [W F]. auto. }
  within_step.
  apply (hoare_bind within
           (fun _ s => within s /\ (0 < m_num_spline_scatterers (spline s0) -> spline_arrays)));
    [| intros _; apply hoare_fact; intros Hspline].
  { destruct (Z.gtb_spec (m_num_spline_scatterers (spline s0)) 0); cbn [when];
      [| apply hoare_ret; intros s W; split; [exact W | lia]].
    apply (hoare_bind within (fun _ s => within s /\ spline_arrays));
      [apply arrays_spline_projection_kernel; lia | intros _].
    eapply hoare_weaken;
      [apply (hoare_frame within (fun _ => within) (fun _ => within) spline_arrays),
         within_debug_timer | auto | | auto].
    cbn. intros [] s [W F]. auto. }
  repeat within_step.
  apply (hoare_bind within (fun _ s => within s /\ served beam_no)).
  - eapply hoare_weaken; [apply copy_line_to_host_buffers | auto | | auto].
    intros _ s (W & Hh & Hp). split; [exact W |].
    split; [eapply lookup_lt_Some; eassumption |].
    split; [assumption |]. split; [assumption |].
    split; [eexists; eassumption |]. split; [eexists; eassumption |].
    split; assumption.
  - intros _. apply hoare_frame, within_debug_timer.
Qed.

Lemma within_simulate_beam seq nbf nbs beam_no :
  hoare within (simulate_beam seq nbf nbs beam_no) (fun _ => within) (fun _ => within).
Proof.
  eapply hoare_weaken; [apply served_simulate_beam | auto | | auto].
  now intros _ s [W _].
Qed.

(** A loop over the beams that returns has served every one of them. *)
Lemma served_beams seq nbf nbs l :
  hoare within (for_each l (simulate_beam seq nbf nbs))
        (fun _ s => within s /\ Forall served l) (fun _ => within).
Proof.
  induction l as [|b l IH]; cbn [for_each].
  - apply hoare_ret. intros s W. split; [exact W | constructor].
  - intros s W. unfold bind.
    pose proof (served_simulate_beam seq nbf nbs b s W) as Hb.
    destruct (simulate_beam seq nbf nbs b s) as [[] s1|e s1| |]; try exact Hb; try exact I.
    destruct Hb as [W1 S]. specialize (IH s1 W1).
    destruct (for_each l (simulate_beam seq nbf nbs) s1) as [[] s2|e s2| |];
      try exact IH; try exact I.
    destruct IH as [W2 F]. split; [exact W2 | now constructor].
Qed.

Lemma within_beams seq nbf nbs l :
  hoare within (for_each l (simulate_beam seq nbf nbs)) (fun _ => within) (fun _ => within).
Proof. apply hoare_for_each. intros beam_no _. apply within_simulate_beam. Qed.

(** The state when the pipeline has returned: as [within], with the barrier
    as the last call. *)
Definition finished (s : GpuAlgorithm) : Prop :=
  same_settings s0 s /\
  (exists calls, cuda_trace s = cuda_trace s0 ++ calls ++ [call_cudaDeviceSynchronize] /\
                 Forall (fun c => good c = true) calls) /\
  (keep_log = true -> m_debug_data s = m_debug_data s0) /\
  as_many_buffers s.

(** What the validation has established when the loop over the beams is
    reached, and what the loop has found when it is left. *)
Definition passed : Prop :=
  exists seq,
    m_scan_seq s0 = Some seq /\
    1 <= get_num_lines seq /\
    is_NOT_CONFIGURED (m_cur_beam_profile_type (beam_profile s0)) = false /\
    m_param_threads_per_block (params s0) <> 0 /\
    round_up_div (m_num_fixed_scatterers (fixed s0)) (m_param_threads_per_block (params s0))
    <= maxGridSize0 (m_cur_device_prop s0) /\
    round_up_div (m_num_spline_scatterers (spline s0)) (m_param_threads_per_block (params s0))
    <= maxGridSize0 (m_cur_device_prop s0) /\
    Forall served (seqZ 0 (get_num_lines seq)).

Lemma served_simulate_lines_run fuel :
  hoare within (simulate_lines_run fuel)
        (fun _ s => finished s /\ passed) (fun _ => within).
Proof.
  unfold simulate_lines_run.
  repeat within_step.
  apply (hoare_bind within
           (fun _ s => within s /\ Forall served (seqZ 0 (get_num_lines a))));
    [apply served_beams | intros _].
  assert (Hp : Forall served (seqZ 0 (get_num_lines a)) -> passed).
  { intros F. exists a. repeat split; try assumption; lia. }
  apply (hoare_bind _ (fun _ s => finished s /\ passed)).
  { apply hoare_modify. intros s ((S & (calls & T & G) & L) & F).
    split; [| now apply Hp].
    split; [exact S |]. split; [| exact L].
    exists calls. cbn. rewrite T, <- app_assoc. auto. }
  intros _.
  apply hoare_gets_any_bind. intros dec.
  intros s Hs.
  pose proof (leaves_assemble_lines (fun s s' => s' = s) fuel
                (num_rf_samples_of s0 a)
                (to_size_t (center_index (m_excitation (excitation s0)))) dec
                (seqZ 0 (get_num_lines a)) s) as L.
  pose proof (assemble_lines_never_throws fuel
                (num_rf_samples_of s0 a)
                (to_size_t (center_index (m_excitation (excitation s0)))) dec
                (seqZ 0 (get_num_lines a)) s) as N.
  destruct (assemble_lines _ _ _ _ _ s) as [out s1|e s1| |]; try exact I;
    [rewrite L; exact Hs | now destruct (N e s1)].
Qed.

Lemma within_simulate_lines_run fuel :
  hoare within (simulate_lines_run fuel) (fun _ => finished) (fun _ => within).
Proof.
  eapply hoare_weaken; [apply served_simulate_lines_run | auto | | auto].
  now intros _ s [F _].
Qed.
End Within.


(** The calls [simulate_lines] makes before its validation. *)
Lemma after_prepare_trace s :
  exists pre,
    cuda_trace (after_prepare s) = cuda_trace s ++ pre /\
    Forall (fun c => c = call_cudaStreamCreate) pre.
Proof.
  unfold after_prepare.
  destruct (bool_decide _), (m_store_kernel_details (params s)); cbn;
    try (exists []; rewrite app_nil_r; split; [reflexivity | constructor]);
    eexists; (split; [reflexivity |]); apply Forall_replicate; reflexivity.
Qed.

Lemma after_prepare_log s :
  m_store_kernel_details (params s) = false ->
  m_debug_data (after_prepare s) = m_debug_data s.
Proof.
  intros H. unfold after_prepare. rewrite H. destruct (bool_decide _); reflexivity.
Qed.

(** What is known of the state [simulate_lines] returns or throws in, for a
    property [good] of the calls of the pipeline. *)
Lemma simulate_lines_calls (good : api_call -> bool) (keep_log : bool) fuel s :
  (forall c, pipeline_stage c = true -> good c = true) ->
  (0 < m_num_fixed_scatterers (fixed s) ->
   forall arc phase lut grid block,
     good (call_launch (FixedAlgKernel arc phase lut) grid block) = true) ->
  (0 < m_num_spline_scatterers (spline s) ->
   (forall arc phase lut grid block,
      good (call_launch (SplineAlgKernel arc phase lut) grid block) = true) /\
   (forall bytes offset, good (call_cudaMemcpyToSymbol bytes offset) = true)) ->
  good call_cudaStreamCreate = true ->
  (keep_log = true -> m_store_kernel_details (params s) = false) ->
  match simulate_lines fuel s with
  | Ok _ s' =>
      same_settings (after_prepare s) s' /\
      (exists calls, new_calls s s' = calls ++ [call_cudaDeviceSynchronize] /\
                     Forall (fun c => good c = true) calls) /\
      (keep_log = true -> m_debug_data s' = m_debug_data s)
  | Throw _ s' =>
      same_settings (after_prepare s) s' /\
      Forall (fun c => good c = true) (new_calls s s') /\
      (keep_log = true -> m_debug_data s' = m_debug_data s)
  | Undefined | Diverge => True
  end.
Proof.
  intros G1 G2 G3 G4 GL.
  destruct (after_prepare_settings s)
    as (Eb & Ep & Es & Ee & Ebp & Ef & Esp & Edp & Elb & _).
  destruct (after_prepare_trace s) as (pre & Tp & Hpre).
  assert (Gpre : Forall (fun c => good c = true) pre).
  { eapply Forall_impl; [exact Hpre |]. intros c ->. exact G4. }
  rewrite simulate_lines_eq.
  pose proof (within_simulate_lines_run (after_prepare s) good keep_log G1) as H.
  rewrite Ef, Esp, Ep in H. specialize (H G2 G3 GL fuel (after_prepare s)).
  specialize (H (within_start _ _ _)).
  destruct (simulate_lines_run fuel (after_prepare s)) as [out s'|e s'| |];
    try exact I.
  - destruct H as (S & (calls & T & G) & L & _). split; [exact S |]. split.
    + exists (pre ++ calls). unfold new_calls. rewrite T, Tp.
      rewrite <- !app_assoc, drop_app_length. split; [reflexivity |].
      apply Forall_app. auto.
    + intros K. rewrite (L K). apply after_prepare_log. auto.
  - destruct H as (S & (calls & T & G) & L & _). split; [exact S |]. split.
    + unfold new_calls. rewrite T, Tp. rewrite <- !app_assoc, drop_app_length.
      apply Forall_app. auto.
    + intros K. rewrite (L K). apply after_prepare_log. auto.
Qed.

(** X4. With no fixed and no spline scatterers on the device (after the
    constructor, or after both have been cleared), [simulate_lines] launches
    no projection kernel and copies nothing to constant memory, on any number
    of scan lines and whether it returns or throws. *)
Theorem no_projection_without_scatterers fuel (s s' : GpuAlgorithm) :
  m_num_fixed_scatterers (fixed s) <= 0 ->
  m_num_spline_scatterers (spline s) <= 0 ->
  final_state (simulate_lines fuel s) = Some s' ->
  Forall (fun c => is_projection c = false /\ is_upload c = false) (new_calls s s').
Proof.
  intros Hf Hs H.
  pose proof (simulate_lines_calls
                (fun c => negb (is_projection c) && negb (is_upload c)) false fuel s) as L.
  cbn beta in L.
  assert (P : forall calls,
             Forall (fun c => negb (is_projection c) && negb (is_upload c) = true) calls ->
             Forall (fun c => is_projection c = false /\ is_upload c = false) calls).
  { intros calls Hcalls. eapply Forall_impl; [exact Hcalls |]. intros c Hc.
    apply andb_prop in Hc as [H1 H2]. split; now apply negb_true_iff. }
  assert (L' := L ltac:(intros c Hc; destruct c as [| | | | | | | | | |k ? ?|];
                          try destruct k; try discriminate; reflexivity)
                  ltac:(intros Hc; exfalso; lia) ltac:(intros Hc; exfalso; lia)
                  eq_refl ltac:(discriminate)).
  clear L.
  destruct (simulate_lines fuel s) as [out t|e t| |]; cbn in H; try discriminate;
    injection H as ->.
  - destruct L' as (_ & (calls & T & G) & _).
    rewrite T. apply Forall_app. split; [now apply P | now repeat constructor].
  - destruct L' as (_ & G & _). now apply P.
Qed.


(** X6. With the kernel details switched off, [simulate_lines] does not
    touch the diagnostic log, whether it returns or throws. *)
Theorem details_off_keeps_log fuel (s s' : GpuAlgorithm) :
  m_store_kernel_details (params s) = false ->
  final_state (simulate_lines fuel s) = Some s' ->
  m_debug_data s' = m_debug_data s.
Proof.
  intros Hd H.
  pose proof (simulate_lines_calls (fun _ => true) true fuel s) as L. cbn beta in L.
  assert (L' := L ltac:(reflexivity) ltac:(reflexivity)
                  ltac:(split; reflexivity) eq_refl ltac:(auto)).
  destruct (simulate_lines fuel s) as [out t|e t| |]; cbn in H; try discriminate;
    injection H as ->; destruct L' as (_ & _ & K); now apply K.
Qed.

(** X7. [simulate_lines] changes nothing of the configuration, whether it
    returns or throws: parameters, device properties, scan sequence,
    excitation (with its spectrum and plan), beam profile, scatterers on the
    device, the sample capacity and the allocated line count are as before;
    the device selection is locked. *)
Theorem simulate_lines_keeps_configuration fuel (s s' : GpuAlgorithm) :
  final_state (simulate_lines fuel s) = Some s' ->
  base s' = base s /\
  params s' = params s /\
  m_cur_device_prop s' = m_cur_device_prop s /\
  m_scan_seq s' = m_scan_seq s /\
  excitation s' = excitation s /\
  beam_profile s' = beam_profile s /\
  fixed s' = fixed s /\
  spline s' = spline s /\
  m_num_time_samples (line_buffers s') = m_num_time_samples (line_buffers s) /\
  m_num_beams_allocated (line_buffers s') = m_num_beams_allocated (line_buffers s) /\
  m_can_change_cuda_device s' = false.
Proof.
  intros H.
  pose proof (simulate_lines_calls (fun _ => true) false fuel s) as L. cbn beta in L.
  assert (L' := L ltac:(reflexivity) ltac:(reflexivity)
                  ltac:(split; reflexivity) eq_refl ltac:(discriminate)).
  destruct (after_prepare_settings s)
    as (Eb & Ep & Es & Ee & Ebp & Ef & Esp & Edp & Elb & El).
  assert (S : same_settings (after_prepare s) s').
  { destruct (simulate_lines fuel s) as [out t|e t| |]; cbn in H; try discriminate;
      injection H as ->; tauto. }
  destruct S as (? & ? & ? & ? & ? & ? & ? & ? & ? & ? & ? & ?).
  rewrite <- Elb at 1 2. repeat split; congruence.
Qed.

(** ** Using the engine before it is configured *)

Lemma run_all_leaves (P : GpuAlgorithm -> GpuAlgorithm -> Prop) `{!PreOrder P} ops :
  forall s s',
  Forall (fun o => leaves P (run o)) ops ->
  run_all ops s = Some s' -> P s s'.
Proof.
  induction ops as [|o ops IH]; cbn; intros s s' Hops Hrun.
  - injection Hrun as <-. reflexivity.
  - apply Forall_cons in Hops as [Ho Hops].
    destruct (final_state (run o s)) as [s1|] eqn:E; [| discriminate].
    etrans; [apply (leaves_final P (run o) s s1 Ho E) | now apply IH].
Qed.

Definition is_set_scan_sequence (o : operation) : bool :=
  match o with call_set_scan_sequence _ => true | _ => false end.

Definition is_set_profile (o : operation) : bool :=
  match o with
  | call_set_analytical_profile _ | call_set_lookup_profile _ => true
  | _ => false
  end.

Definition still_no_sequence (s s' : GpuAlgorithm) : Prop :=
  m_scan_seq s = None -> m_scan_seq s' = None.

#[local] Instance still_no_sequence_preorder : PreOrder still_no_sequence.
Proof. split; [intros s; red; auto | intros s1 s2 s3 H1 H2; red; auto]. Qed.

Definition still_no_profile (s s' : GpuAlgorithm) : Prop :=
  m_cur_beam_profile_type (beam_profile s) = NOT_CONFIGURED ->
  m_cur_beam_profile_type (beam_profile s') = NOT_CONFIGURED.

#[local] Instance still_no_profile_preorder : PreOrder still_no_profile.
Proof. split; [intros s; red; auto | intros s1 s2 s3 H1 H2; red; auto]. Qed.

Lemma run_still_no_sequence o :
  is_set_scan_sequence o = false -> leaves still_no_sequence (run o).
Proof. destruct o; try discriminate; intros _; leaves_tac; red; cbn; auto. Qed.

Lemma run_still_no_profile o :
  is_set_profile o = false -> leaves still_no_profile (run o).
Proof. destruct o; try discriminate; intros _; leaves_tac; red; cbn; auto. Qed.

Lemma GpuAlgorithm_new_unset s0 :
  GpuAlgorithm_new = Ok tt s0 ->
  m_scan_seq s0 = None /\
  m_cur_beam_profile_type (beam_profile s0) = NOT_CONFIGURED.
Proof.
  unfold GpuAlgorithm_new, save_cuda_device_properties, get_num_cuda_devices,
    create_dummy_lut_profile, new_DeviceBeamProfileRAII, api, bind, gets, modify, ret.
  cbn [initial_members params m_param_cuda_device_no].
  destruct ((0 <? 0) || (0 >=? cudaGetDeviceCount)); [discriminate |].
  intros [= <-]. split; reflexivity.
Qed.

(** X8. Until a scan sequence has been set, [simulate_lines] has no defined
    result: on an engine that has been constructed and then used in any way
    that does not include [set_scan_sequence], the call dereferences the null
    scan sequence. *)
Theorem simulate_lines_before_scan_sequence fuel (s0 s : GpuAlgorithm) ops :
  GpuAlgorithm_new = Ok tt s0 ->
  forallb (fun o => negb (is_set_scan_sequence o)) ops = true ->
  run_all ops s0 = Some s ->
  simulate_lines fuel s = Undefined.
Proof.
  intros Hn Hops Hrun.
  assert (Hs : m_scan_seq s = None).
  { apply (run_all_leaves still_no_sequence ops s0 s); [| exact Hrun |].
    - apply Forall_forall. intros o Ho. apply run_still_no_sequence.
      rewrite forallb_forall in Hops. apply negb_true_iff, Hops.
      now apply list_elem_of_In.
    - now apply GpuAlgorithm_new_unset. }
  rewrite simulate_lines_eq. unfold simulate_lines_run, bind, gets.
  destruct (after_prepare_settings s) as (_ & _ & Es & _). now rewrite Es, Hs.
Qed.

(** X9. Until a beam profile has been set, [simulate_lines] refuses to run:
    on an engine that has been constructed and then used in any way that
    does not include [set_analytical_profile] or [set_lookup_profile], a call
    on a scan sequence of at least one line throws "No beam profile is
    configured", and it does so before any kernel is launched. *)
Theorem simulate_lines_before_profile fuel (s0 s : GpuAlgorithm) ops seq :
  GpuAlgorithm_new = Ok tt s0 ->
  forallb (fun o => negb (is_set_profile o)) ops = true ->
  run_all ops s0 = Some s ->
  m_scan_seq s = Some seq ->
  (1 <= length (scanlines seq))%nat ->
  exists s',
    simulate_lines fuel s = Throw (runtime_error "No beam profile is configured") s' /\
    Forall (fun c => c = call_cudaStreamCreate) (new_calls s s') /\
    line_buffers s' = line_buffers s.
Proof.
  intros Hn Hops Hrun Hseq Hl.
  assert (Hp : m_cur_beam_profile_type (beam_profile s) = NOT_CONFIGURED).
  { apply (run_all_leaves still_no_profile ops s0 s); [| exact Hrun |].
    - apply Forall_forall. intros o Ho. apply run_still_no_profile.
      rewrite forallb_forall in Hops. apply negb_true_iff, Hops.
      now apply list_elem_of_In.
    - now apply GpuAlgorithm_new_unset. }
  destruct (after_prepare_settings s) as (_ & _ & Es & _ & Ebp & _ & _ & _ & Elb & _).
  destruct (after_prepare_trace s) as (pre & Tp & Hpre).
  exists (after_prepare s). split; [| split; [| exact Elb]].
  - rewrite simulate_lines_eq. unfold simulate_lines_run, bind, gets.
    rewrite Es, Hseq. cbn [deref ret]. unfold get_num_lines.
    replace (Z.of_nat (length (scanlines seq)) <? 1) with false by lia.
    now rewrite Ebp, Hp.
  - unfold new_calls. now rewrite Tp, drop_app_length.
Qed.

(** ** What a call that returns has found *)

(** [simulate_lines] only returns when the validation passed and every beam
    found its stream, the projection buffer of its stream and the host
    buffer of its line. *)
Lemma simulate_lines_returned fuel s out s' :
  simulate_lines fuel s = Ok out s' -> passed (after_prepare s).
Proof.
  intros H. rewrite simulate_lines_eq in H.
  pose proof (served_simulate_lines_run (after_prepare s) (fun _ => true) false
                ltac:(reflexivity) ltac:(reflexivity) ltac:(split; reflexivity)
                ltac:(discriminate) fuel (after_prepare s)
                (within_start _ _ _)) as L.
  rewrite H in L. tauto.
Qed.

Lemma after_prepare_streams s :
  m_stream_wrappers s <> [] -> m_stream_wrappers (after_prepare s) = m_stream_wrappers s.
Proof.
  intros H. unfold after_prepare.
  rewrite bool_decide_eq_false_2 by (destruct (m_stream_wrappers s); [tauto | discriminate]).
  destruct (m_store_kernel_details (params s)); reflexivity.
Qed.

(** X10. A call of [simulate_lines] that returns had what it needs: a
    configured beam profile, block counts within the limit of the device, an
    FFT plan and an excitation spectrum (so [set_excitation] had been
    called), the device arrays of the scatterers it projects, a pinned host
    buffer for every scan line, and, for every beam [i], a projection buffer
    at index [i mod num_streams] and, when the stream pool existed already, a
    stream at that index.  (The call creates the pool only when it is empty,
    and never resizes the buffers.) *)
Theorem returning_call_was_served fuel (s s' : GpuAlgorithm) out seq :
  simulate_lines fuel s = Ok out s' ->
  m_scan_seq s = Some seq ->
  is_NOT_CONFIGURED (m_cur_beam_profile_type (beam_profile s)) = false /\
  round_up_div (m_num_fixed_scatterers (fixed s)) (m_param_threads_per_block (params s))
  <= maxGridSize0 (m_cur_device_prop s) /\
  round_up_div (m_num_spline_scatterers (spline s)) (m_param_threads_per_block (params s))
  <= maxGridSize0 (m_cur_device_prop s) /\
  is_Some (m_fft_plan (excitation s)) /\
  is_Some (m_device_excitation_fft (excitation s)) /\
  (0 < m_num_fixed_scatterers (fixed s) ->
   is_Some (m_device_point_xs (fixed s)) /\ is_Some (m_device_point_ys (fixed s)) /\
   is_Some (m_device_point_zs (fixed s)) /\ is_Some (m_device_point_as (fixed s))) /\
  (0 < m_num_spline_scatterers (spline s) ->
   is_Some (m_device_control_xs (spline s)) /\ is_Some (m_device_control_ys (spline s)) /\
   is_Some (m_device_control_zs (spline s)) /\ is_Some (m_device_control_as (spline s))) /\
  (length (scanlines seq) <= length (m_host_rf_lines (line_buffers s)))%nat /\
  forall i, 0 <= i < get_num_lines seq ->
    let stream_no := Z.to_nat (to_size_t (i `rem` m_param_num_cuda_streams (params s))) in
    (stream_no < length (m_device_time_proj (line_buffers s)))%nat /\
    (m_stream_wrappers s <> [] -> (stream_no < length (m_stream_wrappers s))%nat).
Proof.
  intros H Hseq.
  destruct (simulate_lines_returned _ _ _ _ H)
    as (seq' & Es & Hl & Hp & Ht & Hf & Hs & F).
  destruct (after_prepare_settings s)
    as (Eb & Ep & Esq & Ee & Ebp & Ef & Esp & Edp & Elb & _).
  rewrite Esq, Hseq in Es. injection Es as <-.
  rewrite Ebp in Hp. rewrite Ef, Ep, Edp in Hf. rewrite Esp, Ep, Edp in Hs.
  split; [exact Hp |]. split; [exact Hf |]. split; [exact Hs |].
  rewrite Forall_forall in F.
  assert (Fi : forall i, 0 <= i < get_num_lines seq -> served (after_prepare s) i).
  { intros i Hi. apply F. apply elem_of_seqZ. lia. }
  destruct (Fi 0) as (_ & _ & _ & Hplan & Hfft & Hfa & Hsa); [lia |].
  unfold fixed_arrays in Hfa. unfold spline_arrays in Hsa.
  rewrite Ee in Hplan, Hfft. rewrite Ef in Hfa. rewrite Esp in Hsa.
  split; [exact Hplan |]. split; [exact Hfft |].
  split; [intros Hc; specialize (Hfa Hc); tauto |].
  split; [intros Hc; specialize (Hsa Hc); tauto |].
  split.
  - destruct (Fi (get_num_lines seq - 1)) as (_ & _ & Hh & _); [lia |].
    rewrite Elb in Hh. unfold get_num_lines in *. lia.
  - intros i Hi. destruct (Fi i Hi) as (Hw & Hd & _).
    unfold stream_of in *. rewrite Ep in *. rewrite Elb in Hd.
    split; [exact Hd |]. intros Hne. now rewrite (after_prepare_streams s Hne) in Hw.
Qed.

(** X11. Raising the number of streams on an engine whose stream pool
    exists breaks the pipeline: the parameter is accepted, the pool keeps
    its [k] streams, and a following [simulate_lines] on more than [k] scan
    lines reaches for stream [k] and cannot return. *)
Theorem raised_stream_count_breaks_pipeline (value : string) (n : Z)
    (s : GpuAlgorithm) seq :
  stoi value = Some n ->
  m_stream_wrappers s <> [] ->
  Z.of_nat (length (m_stream_wrappers s)) < n <= MAX_NUM_CUDA_STREAMS ->
  n <= INT_MAX ->
  m_scan_seq s = Some seq ->
  (length (m_stream_wrappers s) < length (scanlines seq))%nat ->
  exists t,
    set_parameter "cuda_streams" value s = Ok tt t /\
    m_stream_wrappers t = m_stream_wrappers s /\
    forall fuel out u, simulate_lines fuel t <> Ok out u.
Proof.
  intros Hv Hne Hn Hi Hseq Hl.
  set (t := upd_params (upd_m_param_num_cuda_streams n (params s)) s).
  exists t. split; [| split; [reflexivity |]].
  - unfold set_parameter.
    rewrite decide_False by discriminate. rewrite decide_True by reflexivity.
    unfold bind, std_stoi. rewrite Hv. cbn.
    replace (n >? MAX_NUM_CUDA_STREAMS) with false by lia.
    replace (n <=? 0) with false by lia. reflexivity.
  - intros fuel out u H.
    destruct (simulate_lines_returned _ _ _ _ H)
      as (seq' & Es & _ & _ & _ & _ & _ & F).
    destruct (after_prepare_settings t) as (_ & Ep & Esq & _).
    rewrite Esq in Es. cbn in Es. rewrite Hseq in Es. injection Es as <-.
    rewrite Forall_forall in F.
    destruct (F (Z.of_nat (length (m_stream_wrappers s)))) as (Hw & _).
    { apply elem_of_seqZ. unfold get_num_lines. lia. }
    unfold stream_of in Hw. rewrite Ep in Hw. cbn in Hw.
    rewrite (after_prepare_streams t Hne) in Hw. cbn in Hw.
    rewrite Z.rem_small in Hw by lia.
    assert (HI : INT_MAX < 2 ^ 64) by reflexivity.
    rewrite to_size_t_id in Hw by lia. lia.
Qed.


Definition still_no_plan (s s' : GpuAlgorithm) : Prop :=
  m_fft_plan (excitation s) = None -> m_fft_plan (excitation s') = None.

#[local] Instance still_no_plan_preorder : PreOrder still_no_plan.
Proof. split; [intros s; red; auto | intros s1 s2 s3 H1 H2; red; auto]. Qed.



(** *** Rejected input that is kept *)

(** X13. [set_scan_sequence] stores the sequence before it checks it.  A
    sequence that is rejected for its sample count has replaced the previous
    one, while the line buffers are still those of the previous one; when it
    has more lines than there are host buffers, a following [simulate_lines]
    cannot return. *)
Theorem rejected_scan_sequence_is_kept (seq : ScanSequence) (s : GpuAlgorithm) :
  m_num_time_samples (line_buffers s) < num_rf_samples_of s seq ->
  exists t,
    set_scan_sequence seq s
    = Throw (runtime_error "Too many RF samples required. TODO: remove limitation") t /\
    m_scan_seq t = Some seq /\
    line_buffers t = line_buffers s /\
    ((length (m_host_rf_lines (line_buffers s)) < length (scanlines seq))%nat ->
     forall fuel out u, simulate_lines fuel t <> Ok out u).
Proof.
  intros Hn.
  destruct (set_scan_sequence_too_many seq s Hn) as (t & E & _ & Hs & Hb & _).
  exists t. split; [exact E |]. split; [exact Hs |]. split; [exact Hb |].
  intros Hl fuel out u H.
  destruct (simulate_lines_returned _ _ _ _ H) as (seq' & Es & _ & _ & _ & _ & _ & F).
  destruct (after_prepare_settings t) as (_ & _ & Esq & _ & _ & _ & _ & _ & Elb & _).
  rewrite Esq, Hs in Es. injection Es as <-.
  rewrite Forall_forall in F.
  destruct (F (Z.of_nat (length (m_host_rf_lines (line_buffers s))))) as (_ & _ & Hh & _).
  { apply elem_of_seqZ. unfold get_num_lines. lia. }
  rewrite Elb, Hb in Hh. lia.
Qed.

(** X14. A spline upload that is rejected for its degree has already
    recorded the number of scatterers, the degree and the number of control
    points of the rejected set, while the device arrays and the knot vector
    are those from before; on an engine without spline arrays a following
    [simulate_lines] cannot return. *)
Theorem rejected_spline_upload_is_recorded (sc : SplineScatterers) (s : GpuAlgorithm) :
  num_scatterers sc <> 0 ->
  MAX_SPLINE_DEGREE < spline_degree sc ->
  exists t,
    add_spline_scatterers sc s = Throw (runtime_error spline_degree_message) t /\
    m_num_spline_scatterers (spline t) = num_scatterers sc /\
    m_spline_degree (spline t) = spline_degree sc /\
    m_num_cs (spline t) = get_num_control_points sc /\
    m_device_control_xs (spline t) = m_device_control_xs (spline s) /\
    m_device_control_ys (spline t) = m_device_control_ys (spline s) /\
    m_device_control_zs (spline t) = m_device_control_zs (spline s) /\
    m_device_control_as (spline t) = m_device_control_as (spline s) /\
    m_common_knots (spline t) = m_common_knots (spline s) /\
    (m_device_control_xs (spline s) = None ->
     forall fuel out u, simulate_lines fuel t <> Ok out u).
Proof.
  intros Hn Hd.
  unfold add_spline_scatterers, copy_spline_scatterers_to_device, spline_degree_message.
  unfold bind, modify, gets. cbn.
  destruct (Z.eqb_spec (num_scatterers sc) 0) as [E | _]; [contradiction |]. cbn.
  replace (spline_degree sc >? MAX_SPLINE_DEGREE) with true by lia.
  eexists. split; [reflexivity |]. cbn. repeat (split; [reflexivity |]).
  intros Hx fuel out u H.
  destruct (simulate_lines_returned _ _ _ _ H) as (seq & _ & Hl & _ & _ & _ & _ & F).
  rewrite Forall_forall in F.
  destruct (F 0) as (_ & _ & _ & _ & _ & _ & Hs).
  { apply elem_of_seqZ. lia. }
  match type of H with simulate_lines _ ?t = _ =>
    destruct (after_prepare_settings t) as (_ & _ & _ & _ & _ & _ & Esp & _)
  end.
  unfold spline_arrays in Hs. rewrite Esp in Hs. cbn in Hs.
  destruct Hs as ([x Hx'] & _).
  { pose proof (Nat2Z.is_nonneg (length (control_points sc))).
    unfold num_scatterers in *. lia. }
  congruence.
Qed.

(** ** Uploading fixed scatterers *)

(** A device buffer holds as many elements as its byte count says. *)
Definition well_sized (p : option (BufferRAII float)) : Prop :=
  forall b, p = Some b -> Z.of_nat (length (data b)) * sizeof_float = get_num_bytes b.

Lemma upload_component_exact {T} bytes (values : list T) dst (u : GpuAlgorithm) :
  length (data dst) = length values ->
  upload_component bytes values dst u
  = Ok {| get_num_bytes := get_num_bytes dst; data := values |}
       (upd_cuda_trace (cuda_trace u ++ [call_cudaMemcpyHostToDevice bytes]) u).
Proof.
  intros Hl. unfold upload_component, memcpy, bind, api, modify.
  rewrite decide_True by lia. cbn.
  rewrite take_ge by lia. rewrite drop_ge by lia. now rewrite app_nil_r.
Qed.

Lemma has_num_bytes_Some {T} bytes (p : option (BufferRAII T)) :
  has_num_bytes bytes p = true -> exists b, p = Some b /\ get_num_bytes b = bytes.
Proof.
  destruct p as [b|]; cbn; [| discriminate].
  intros H. exists b. split; [reflexivity | lia].
Qed.

(** The four arrays of the right size that an upload can use again. *)
Definition reusable (bytes : Z) (f : FixedState) : bool :=
  has_num_bytes bytes (m_device_point_xs f)
  && has_num_bytes bytes (m_device_point_ys f)
  && has_num_bytes bytes (m_device_point_zs f)
  && has_num_bytes bytes (m_device_point_as f).

(** The object after [add_fixed_scatterers] has returned. *)
Definition with_fixed (sc : FixedScatterers) (s : GpuAlgorithm) : GpuAlgorithm :=
  let N := Z.of_nat (length (scatterers sc)) in
  let bytes := N * sizeof_float in
  upd_fixed
    {| m_num_fixed_scatterers := N;
       m_device_point_xs :=
         Some {| get_num_bytes := bytes;
                 data := map (fun p => x3 (pos p)) (scatterers sc) |};
       m_device_point_ys :=
         Some {| get_num_bytes := bytes;
                 data := map (fun p => y3 (pos p)) (scatterers sc) |};
       m_device_point_zs :=
         Some {| get_num_bytes := bytes;
                 data := map (fun p => z3 (pos p)) (scatterers sc) |};
       m_device_point_as :=
         Some {| get_num_bytes := bytes; data := map amplitude (scatterers sc) |} |}
    (upd_cuda_trace
       (cuda_trace s
        ++ call_cudaMallocHost bytes
           :: (if reusable bytes (fixed s) then [] else replicate 4 (call_cudaMalloc bytes))
           ++ replicate 4 (call_cudaMemcpyHostToDevice bytes))
       (upd_m_can_change_cuda_device false s)).

Lemma add_fixed_scatterers_eq (sc : FixedScatterers) (s : GpuAlgorithm) :
  Z.of_nat (length (scatterers sc)) * sizeof_float < 2 ^ 64 ->
  well_sized (m_device_point_xs (fixed s)) ->
  well_sized (m_device_point_ys (fixed s)) ->
  well_sized (m_device_point_zs (fixed s)) ->
  well_sized (m_device_point_as (fixed s)) ->
  add_fixed_scatterers sc s = Ok tt (with_fixed sc s).
Proof.
  set (N := Z.of_nat (length (scatterers sc))). set (bytes := N * sizeof_float).
  intros Hb Wx Wy Wz Wa.
  assert (HN : 0 <= N) by (unfold N; lia).
  assert (Hs : to_size_t bytes = bytes).
  { apply to_size_t_id. unfold bytes, sizeof_float in *. lia. }
  assert (Hlen : Z.to_nat (bytes / sizeof_float) = length (scatterers sc)).
  { unfold bytes, sizeof_float. rewrite Z.div_mul by lia. unfold N. lia. }
  unfold add_fixed_scatterers, copy_fixed_scatterers_to_device, with_fixed.
  fold N. fold bytes. rewrite Hs.
  unfold bind at 1. unfold modify at 1.
  unfold bind at 1. rewrite new_HostPinnedBufferRAII_eq.
  rewrite decide_True
    by (unfold new_buffer; cbn [data]; rewrite length_replicate; lia).
  unfold bind at 1. unfold ret at 1.
  unfold bind at 1. unfold gets at 1.
  cbn [fixed upd_cuda_trace upd_m_can_change_cuda_device].
  change (has_num_bytes bytes (m_device_point_xs (fixed s))
          && has_num_bytes bytes (m_device_point_ys (fixed s))
          && has_num_bytes bytes (m_device_point_zs (fixed s))
          && has_num_bytes bytes (m_device_point_as (fixed s)))
    with (reusable bytes (fixed s)).
  destruct (reusable bytes (fixed s)) eqn:R; cbn [negb].
  - unfold reusable in R.
    apply andb_prop in R as [R Ra]. apply andb_prop in R as [R Rz].
    apply andb_prop in R as [Rx Ry].
    apply has_num_bytes_Some in Rx as (bx & Ex & Bx).
    apply has_num_bytes_Some in Ry as (by_ & Ey & By).
    apply has_num_bytes_Some in Rz as (bz & Ez & Bz).
    apply has_num_bytes_Some in Ra as (ba & Ea & Ba).
    specialize (Wx bx Ex). specialize (Wy by_ Ey).
    specialize (Wz bz Ez). specialize (Wa ba Ea).
    rewrite Ex, Ey, Ez, Ea.
    assert (Lx : length (data bx) = length (scatterers sc))
      by (unfold bytes, N, sizeof_float in *; lia).
    assert (Ly : length (data by_) = length (scatterers sc))
      by (unfold bytes, N, sizeof_float in *; lia).
    assert (Lz : length (data bz) = length (scatterers sc))
      by (unfold bytes, N, sizeof_float in *; lia).
    assert (La : length (data ba) = length (scatterers sc))
      by (unfold bytes, N, sizeof_float in *; lia).
    unfold bind, deref, ret.
    rewrite !upload_component_exact by (rewrite length_map; assumption).
    unfold modify. f_equal.
    cbn. rewrite Bx, By, Bz, Ba.
    rewrite <- !app_assoc. reflexivity.
  - unfold bind. rewrite !new_DeviceBufferRAII_eq.
    rewrite !upload_component_exact
      by (unfold new_buffer; cbn; rewrite length_replicate, length_map; lia).
    unfold modify. f_equal.
    cbn. rewrite <- !app_assoc. reflexivity.
Qed.


(** ** Setting the excitation *)

Lemma in_place_exact {T} n (f : list T -> nat -> T) buf :
  length buf = n -> in_place n f buf = Some (map (f buf) (seq 0 n)).
Proof.
  intros H. unfold in_place. rewrite decide_True by lia.
  rewrite take_ge, drop_ge by lia. now rewrite app_nil_r.
Qed.

Lemma memcpy_exact {T} (dst src : list T) n :
  length dst = n -> length src = n -> memcpy dst src n = Some src.
Proof.
  intros Hd Hs. unfold memcpy. rewrite decide_True by lia.
  rewrite take_ge, drop_ge by lia. now rewrite app_nil_r.
Qed.

(** The excitation, as complex samples, padded with zeros to [n] samples. *)
Definition padded_excitation (e : ExcitationSignal) (n : nat) : list complex :=
  map (fun v => make_complex v (float_lit 0)) (samples e)
  ++ replicate (n - length (samples e)) complex_zero.

(** The spectrum the pipeline multiplies every line with: the transform of
    the padded excitation, scaled by [1/n], times the Hilbert mask. *)
Definition excitation_spectrum (e : ExcitationSignal) (num_time_samples : Z)
  : list complex :=
  let n := Z.to_nat num_time_samples in
  let transformed :=
    map (run_cufftExecC2C CUFFT_FORWARD (padded_excitation e n)) (seq 0 n) in
  let scaled :=
    map (run_ScaleSignalKernel
           (fdiv (float_lit 1) (float_of_int num_time_samples)) transformed)
        (seq 0 n) in
  map (run_MultiplyFftKernel (discrete_hilbert_mask num_time_samples) scaled) (seq 0 n).

(** The object after [set_excitation] has returned. *)
Definition with_excitation (e : ExcitationSignal) (s : GpuAlgorithm) : GpuAlgorithm :=
  let num_time_samples := m_num_time_samples (line_buffers s) in
  let bytes := sizeof_complex * num_time_samples in
  upd_excitation
    {| m_excitation := e;
       m_device_excitation_fft :=
         Some {| get_num_bytes := bytes;
                 data := excitation_spectrum e num_time_samples |};
       m_fft_plan := Some num_time_samples |}
    (upd_cuda_trace
       (cuda_trace s
        ++ [call_cudaMalloc bytes; call_cudaMemcpyHostToDevice bytes;
            call_cufftPlan1d num_time_samples; call_cufftExecC2C CUFFT_FORWARD;
            call_cudaMalloc bytes; call_cudaMemcpyHostToDevice bytes;
            call_launch ScaleSignalKernel (num_time_samples `quot` 128) 128;
            call_launch MultiplyFftKernel (num_time_samples `quot` 128) 128])
       (upd_m_can_change_cuda_device false s)).

Lemma set_excitation_eq (e : ExcitationSignal) (s : GpuAlgorithm) :
  let num_time_samples := m_num_time_samples (line_buffers s) in
  0 <= sizeof_complex * num_time_samples < 2 ^ 64 ->
  length (discrete_hilbert_mask num_time_samples) = Z.to_nat num_time_samples ->
  (length (samples e) <= Z.to_nat num_time_samples)%nat ->
  set_excitation e s = Ok tt (with_excitation e s).
Proof.
  intros n Hb Hm Hl. set (bytes := sizeof_complex * n) in *.
  assert (Hn : 0 <= n) by (unfold bytes, sizeof_complex in Hb; lia).
  assert (Hs : to_size_t bytes = bytes) by (apply to_size_t_id; lia).
  assert (Hd : Z.to_nat (bytes / sizeof_complex) = Z.to_nat n).
  { unfold bytes, sizeof_complex. rewrite Z.mul_comm, Z.div_mul by lia. reflexivity. }
  unfold set_excitation. cbv zeta.
  unfold bind at 1. unfold modify at 1.
  unfold bind at 1. unfold gets at 1.
  cbn [line_buffers upd_m_can_change_cuda_device]. fold n. fold bytes. rewrite Hs.
  unfold bind at 1. rewrite new_DeviceBufferRAII_eq.
  destruct (decide _) as [_ | C]; [| rewrite length_map in C; lia].
  unfold bind at 1. unfold ret at 1.
  unfold bind at 1. unfold api at 1. unfold modify at 1.
  rewrite length_map. fold (padded_excitation e (Z.to_nat n)).
  assert (Lp : length (padded_excitation e (Z.to_nat n)) = Z.to_nat n).
  { unfold padded_excitation. rewrite length_app, length_map, length_replicate. lia. }
  unfold new_buffer at 1. cbn [data]. rewrite Hd.
  rewrite memcpy_exact by (rewrite ?length_replicate; auto).
  unfold bind at 1. unfold deref at 1. unfold ret at 1.
  unfold bind at 1. unfold api at 1. unfold modify at 1.
  unfold bind at 1. unfold api at 1. unfold modify at 1.
  rewrite in_place_exact by exact Lp.
  unfold bind at 1. unfold deref at 1. unfold ret at 1.
  unfold bind at 1. rewrite new_DeviceBufferRAII_eq.
  unfold bind at 1. unfold api at 1. unfold modify at 1.
  unfold new_buffer at 1. cbn [data]. rewrite Hd.
  rewrite memcpy_exact by (rewrite ?length_replicate; auto).
  unfold bind at 1. unfold deref at 1. unfold ret at 1.
  unfold bind at 1. unfold api at 1. unfold modify at 1.
  rewrite in_place_exact by (now rewrite length_map, length_seq).
  unfold bind at 1. unfold deref at 1. unfold ret at 1.
  unfold bind at 1. unfold api at 1. unfold modify at 1.
  rewrite take_ge by lia.
  rewrite in_place_exact by (now rewrite length_map, length_seq).
  unfold deref, ret, bind, modify. f_equal.
  unfold with_excitation. fold n. fold bytes. cbn.
  rewrite <- !app_assoc. reflexivity.
Qed.


(** ** The size of the output *)

Lemma collect_samples_length line nrs dc dec fuel : forall i (s s' : GpuAlgorithm) xs,
  collect_samples fuel line nrs dc dec i s = Ok xs s' ->
  1 <= dec -> nrs + dec <= 2 ^ 64 -> 0 <= i ->
  Z.of_nat (length xs) = Z.max 0 ((nrs - i + dec - 1) / dec).
Proof.
  induction fuel as [|fuel IH]; intros i s s' xs H Hd Hb Hi; cbn in H.
  - destruct (Z.ltb_spec i nrs); [discriminate |]. injection H as <- <-. cbn.
    assert ((nrs - i + dec - 1) / dec <= 0); [| lia].
    apply Z.lt_succ_r, Z.div_lt_upper_bound; lia.
  - destruct (Z.ltb_spec i nrs).
    + apply bind_Ok in H as (x0 & s1 & Hx & H).
      apply bind_Ok in H as (rest & s2 & Hr & H). injection H as <- <-.
      rewrite (to_size_t_id dec) in Hr by lia.
      rewrite (to_size_t_id (i + dec)) in Hr by lia.
      apply IH in Hr; [| lia | lia | lia].
      cbn [length]. rewrite Nat2Z.inj_succ, Hr.
      replace (nrs - i + dec - 1) with (nrs - (i + dec) + dec - 1 + 1 * dec) by lia.
      rewrite Z.div_add by lia.
      assert (0 <= (nrs - (i + dec) + dec - 1) / dec); [| lia].
      apply Z.div_pos; lia.
    + injection H as <- <-. cbn.
      assert ((nrs - i + dec - 1) / dec <= 0); [| lia].
      apply Z.lt_succ_r, Z.div_lt_upper_bound; lia.
Qed.

(** X17. Every line [simulate_lines] returns has
    [ceil(num_rf_samples / decimation)] samples, for a decimation factor of
    at least one. *)
Theorem output_line_length fuel (s s' : GpuAlgorithm) seq out :
  m_scan_seq s = Some seq ->
  simulate_lines fuel s = Ok out s' ->
  1 <= m_radial_decimation (base s) ->
  num_rf_samples_of s seq + m_radial_decimation (base s) <= 2 ^ 64 ->
  Forall (fun line =>
            Z.of_nat (length line)
            = (num_rf_samples_of s seq + m_radial_decimation (base s) - 1)
              / m_radial_decimation (base s))
         out.
Proof.
  intros Hseq H Hd Hb. rewrite simulate_lines_eq in H.
  destruct (after_prepare_settings s)
    as (Eb & Ep & Es & Ee & Ebp & Ef & Esp & Edp & Elb & _).
  apply simulate_lines_run_Ok in H as (seq' & t1 & Hs' & _ & _ & _ & Ha).
  rewrite Es, Hseq in Hs'. injection Hs' as <-.
  rewrite (num_rf_samples_of_settings s (after_prepare s) seq Eb Ee) in Ha.
  rewrite Eb in Ha.
  apply assemble_lines_Ok in Ha as [_ F].
  assert (Hn : 0 <= num_rf_samples_of s seq).
  { unfold num_rf_samples_of, to_size_t. apply Z.mod_pos_bound. reflexivity. }
  induction F as [|j line js out (host & _ & Hc) _ IH]; constructor; [| exact IH].
  apply collect_samples_length in Hc; [| lia | lia | lia].
  rewrite Hc, Z.sub_0_r. apply Z.max_r.
  apply Z.div_pos; lia.
Qed.

(** ** A run that returns *)

(** Buffer [k] of [l] exists and holds [n] samples. *)
Definition holds_line (n : nat) (l : list (BufferRAII complex)) (k : nat) : Prop :=
  exists b, l !! k = Some b /\ (n <= length (data b))%nat.

(** The tests [spline_projection_kernel] makes on the basis functions of a
    scan line before it launches: the sanity check, the number of non-zero
    basis functions, the range of the slice it copies, and the copy to
    constant memory. *)
Definition basis_evaluates (s : GpuAlgorithm) (scanline : Scanline) (stream_no : Z) : bool :=
  let sp := spline s in
  let degree := m_spline_degree sp in
  let knots := m_common_knots sp in
  let num_nonzero := degree + 1 in
  let host_basis_functions :=
    map (fun i => bsplineBasis i degree (get_timestamp scanline) knots)
        (seqZ 0 (m_num_cs sp)) in
  let '(cs_idx_start, cs_idx_end) :=
    get_lower_upper_inds knots (get_timestamp scanline) degree in
  sanity_check_spline_lower_upper_bound host_basis_functions cs_idx_start cs_idx_end
  && (cs_idx_end - cs_idx_start + 1 =? num_nonzero)
  && bool_decide (0 <= cs_idx_start /\ 0 <= num_nonzero /\
                  cs_idx_start + num_nonzero <= Z.of_nat (length host_basis_functions))
  && splineAlg2_updateConstantMemory
       (take (Z.to_nat num_nonzero) (drop (Z.to_nat cs_idx_start) host_basis_functions))
       (to_size_t (num_nonzero * sizeof_float))
       (to_size_t (to_size_t (num_nonzero * stream_no) * sizeof_float)).

(** What the projection of the fixed scatterers needs when there are any. *)
Definition fixed_ready (s : GpuAlgorithm) : Prop :=
  0 < m_num_fixed_scatterers (fixed s) ->
  is_Some (m_device_point_xs (fixed s)) /\ is_Some (m_device_point_ys (fixed s)) /\
  is_Some (m_device_point_zs (fixed s)) /\ is_Some (m_device_point_as (fixed s)) /\
  is_Some (m_device_beam_profile (beam_profile s)).

(** What the projection of the spline scatterers needs when there are any. *)
Definition spline_ready (s : GpuAlgorithm) (seq : ScanSequence) : Prop :=
  0 < m_num_spline_scatterers (spline s) ->
  is_Some (m_device_control_xs (spline s)) /\ is_Some (m_device_control_ys (spline s)) /\
  is_Some (m_device_control_zs (spline s)) /\ is_Some (m_device_control_as (spline s)) /\
  is_Some (m_device_beam_profile (beam_profile s)) /\
  forall i scanline,
    get_scanline seq i = Some scanline -> 0 <= i ->
    basis_evaluates s scanline
      (to_size_t (i `rem` m_param_num_cuda_streams (params s))) = true.

Section Returns.
(** The object when the pipeline is entered, and its scan sequence. *)
Variable s0 : GpuAlgorithm.
Variable scan_seq : ScanSequence.

Let num_time_samples0 := m_num_time_samples (line_buffers s0).
Let n0 := Z.to_nat num_time_samples0.

Hypothesis Hbytes : 0 <= sizeof_complex * num_time_samples0 < 2 ^ 64.
Hypothesis Hprofile :
  is_NOT_CONFIGURED (m_cur_beam_profile_type (beam_profile s0)) = false.

Lemma framed_setting {V} (f : GpuAlgorithm -> V) :
  (forall s, same_settings s0 s -> f s = f s0) ->
  forall s, framed s0 s -> f s = f s0.
Proof. intros Hf s (S & _). auto. Qed.

Lemma runs_framed_api c : runs (framed s0) (api c) (fun _ => framed s0).
Proof. apply runs_modify. intros s H. exact H. Qed.

Lemma runs_framed_debug_push key v :
  runs (framed s0) (debug_push key v) (fun _ => framed s0).
Proof. apply runs_modify. intros s H. exact H. Qed.

Lemma runs_framed_debug_timer key :
  runs (framed s0) (debug_timer key) (fun _ => framed s0).
Proof.
  intros s H. unfold debug_timer, debug_push, bind, gets, modify.
  do 2 eexists. split; [reflexivity | exact H].
Qed.

Lemma runs_framed_time_proj_ptr stream_no :
  holds_line n0 (m_device_time_proj (line_buffers s0)) (Z.to_nat stream_no) ->
  runs (framed s0) (time_proj_ptr stream_no) (fun _ => framed s0).
Proof.
  intros (b0 & E0 & _) s F.
  destruct (framed_proj_lookup s0 s _ _ F E0) as (b & E & _).
  unfold time_proj_ptr, bind, gets.
  rewrite bool_decide_eq_true_2 by (rewrite E; eauto).
  do 2 eexists. split; [reflexivity | exact F].
Qed.

Lemma runs_framed_on_time_proj stream_no (f : list complex -> nat -> complex) :
  holds_line n0 (m_device_time_proj (line_buffers s0)) (Z.to_nat stream_no) ->
  runs (framed s0) (on_time_proj stream_no (in_place n0 f)) (fun _ => framed s0).
Proof.
  intros (b0 & E0 & L0) s F.
  destruct (framed_proj_lookup s0 s _ _ F E0) as (b & E & B & L & D).
  unfold on_time_proj, bind, gets. rewrite E. cbn [deref ret].
  destruct (in_place n0 f (data b)) as [d|] eqn:Hd.
  - cbn [deref ret]. do 2 eexists. split; [reflexivity |].
    apply in_place_Some in Hd as (_ & _ & Hl & Hdr).
    apply framed_set_proj; auto.
  - unfold in_place in Hd. rewrite decide_True in Hd by lia. discriminate.
Qed.

Lemma runs_framed_copy_line_to_host beam_no stream_no :
  holds_line n0 (m_host_rf_lines (line_buffers s0)) (Z.to_nat beam_no) ->
  holds_line n0 (m_device_time_proj (line_buffers s0)) (Z.to_nat stream_no) ->
  runs (framed s0)
       (copy_line_to_host beam_no stream_no (to_size_t (sizeof_complex * num_time_samples0)))
       (fun _ => framed s0).
Proof.
  intros (h0 & Eh0 & Lh0) (r0 & Er0 & Lr0) s F.
  destruct (framed_host_lookup s0 s _ _ F Eh0) as (host & Eh & Bh & Lh & Dh).
  destruct (framed_proj_lookup s0 s _ _ F Er0) as (rf & Er & Br & Lr & Dr).
  unfold copy_line_to_host, bind, gets, api, modify.
  rewrite Eh. cbn [deref ret]. rewrite Er. cbn [deref ret].
  assert (Hc : Z.to_nat (to_size_t (sizeof_complex * num_time_samples0) / sizeof_complex) = n0)
    by apply (line_count s0 Hbytes).
  rewrite Hc.
  unfold memcpy. rewrite decide_True by (split; lia). cbn [deref ret].
  do 2 eexists. split; [reflexivity |].
  apply (framed_set_host s0 (upd_cuda_trace _ s)); auto.
  - rewrite length_app, length_take, length_drop. lia.
  - rewrite drop_app_length'; [reflexivity | rewrite length_take; lia].
Qed.

Ltac framed_setting_tac :=
  apply framed_setting;
  let s := fresh "s" in
  intros s (? & ? & ? & ? & ? & ? & ? & ? & ? & ? & ? & ?);
  unfold num_rf_samples_of; cbn; congruence.

Ltac returns_step :=
  lazymatch goal with
  | |- runs _ (bind (gets ?f) _) _ =>
      apply (runs_gets_bind _ _ f (f s0)); [framed_setting_tac | cbn beta]
  | |- runs _ (bind (deref _) _) _ =>
      eapply runs_deref_bind; [eassumption |]
  | |- runs _ (bind (ret _) _) _ => apply runs_ret_bind
  | |- runs _ (bind (api _) _) _ =>
      eapply runs_bind; [apply runs_framed_api | intros _]
  | |- runs _ (bind (time_proj_ptr _) _) _ =>
      eapply runs_bind; [apply runs_framed_time_proj_ptr; assumption | intros _]
  | |- runs _ (bind (when _ (debug_timer _)) _) _ =>
      eapply runs_bind; [apply runs_when, runs_framed_debug_timer | intros _]
  | |- runs _ (bind (when _ (debug_push _ _)) _) _ =>
      eapply runs_bind; [apply runs_when, runs_framed_debug_push | intros _]
  | |- runs _ (bind (on_time_proj _ _) _) _ =>
      eapply runs_bind; [apply runs_framed_on_time_proj; assumption | intros _]
  | |- runs _ (bind (copy_line_to_host _ _ _) _) _ =>
      eapply runs_bind; [apply runs_framed_copy_line_to_host; assumption | intros _]
  end.

Lemma runs_framed_use_lut_flag {B} what (k : bool -> St B) Q :
  (forall b, runs (framed s0) (k b) Q) ->
  runs (framed s0) (bind (use_lut_flag what) k) Q.
Proof.
  intros Hk. unfold use_lut_flag.
  intros s F. unfold bind at 1. unfold bind at 1, gets.
  rewrite (framed_setting (fun s => m_cur_beam_profile_type (beam_profile s))) by
    (auto; intros t (? & ? & ? & ? & ? & ? & ? & ? & ? & ? & ? & ?); cbn; congruence).
  destruct (m_cur_beam_profile_type (beam_profile s0)); try discriminate;
    cbn; now apply Hk.
Qed.

Lemma runs_framed_fixed_projection_kernel stream_no scanline num_blocks :
  is_Some (m_stream_wrappers s0 !! Z.to_nat stream_no) ->
  holds_line n0 (m_device_time_proj (line_buffers s0)) (Z.to_nat stream_no) ->
  is_Some (m_device_point_xs (fixed s0)) -> is_Some (m_device_point_ys (fixed s0)) ->
  is_Some (m_device_point_zs (fixed s0)) -> is_Some (m_device_point_as (fixed s0)) ->
  is_Some (m_device_beam_profile (beam_profile s0)) ->
  runs (framed s0) (fixed_projection_kernel stream_no scanline num_blocks)
       (fun _ => framed s0).
Proof.
  intros [w Hw] Hp [xs Hxs] [ys Hys] [zs Hzs] [az Has] [tex Htex].
  unfold fixed_projection_kernel.
  repeat returns_step.
  apply runs_framed_use_lut_flag. intros use_lut.
  returns_step. rewrite dispatch_launch.
  returns_step. now apply runs_framed_on_time_proj.
Qed.

Lemma runs_framed_spline_projection_kernel stream_no scanline num_blocks :
  is_Some (m_stream_wrappers s0 !! Z.to_nat stream_no) ->
  holds_line n0 (m_device_time_proj (line_buffers s0)) (Z.to_nat stream_no) ->
  is_Some (m_device_control_xs (spline s0)) -> is_Some (m_device_control_ys (spline s0)) ->
  is_Some (m_device_control_zs (spline s0)) -> is_Some (m_device_control_as (spline s0)) ->
  is_Some (m_device_beam_profile (beam_profile s0)) ->
  basis_evaluates s0 scanline stream_no = true ->
  runs (framed s0) (spline_projection_kernel stream_no scanline num_blocks)
       (fun _ => framed s0).
Proof.
  intros [w Hw] Hp [xs Hxs] [ys Hys] [zs Hzs] [az Has] [tex Htex] Hb.
  unfold spline_projection_kernel, basis_evaluates in *.
  repeat returns_step.
  destruct (get_lower_upper_inds _ _ _) as [cs_idx_start cs_idx_end].
  apply andb_prop in Hb as [Hb Hcopy]. apply andb_prop in Hb as [Hb Hrange].
  apply andb_prop in Hb as [Hsane Hcount].
  rewrite Hsane, Hcount. cbn [negb].
  apply bool_decide_eq_true in Hrange.
  rewrite decide_True by exact Hrange.
  repeat returns_step.
  rewrite Hcopy. cbn [negb].
  repeat returns_step.
  apply runs_framed_use_lut_flag. intros use_lut.
  returns_step. rewrite dispatch_launch.
  returns_step. now apply runs_framed_on_time_proj.
Qed.

Hypothesis Hstreams : 1 <= m_param_num_cuda_streams (params s0).
Hypothesis Hplan : m_fft_plan (excitation s0) = Some num_time_samples0.
Variable excitation_fft0 : BufferRAII complex.
Hypothesis Hfft : m_device_excitation_fft (excitation s0) = Some excitation_fft0.
Hypothesis Hfft_len : (n0 <= length (data excitation_fft0))%nat.
Hypothesis Hfixed : fixed_ready s0.
Hypothesis Hspline : spline_ready s0 scan_seq.

(** Beam [i] has its stream, its projection buffer and its host line. *)
Definition beam_served (i : Z) : Prop :=
  0 <= i < get_num_lines scan_seq /\
  is_Some (m_stream_wrappers s0
             !! Z.to_nat (to_size_t (i `rem` m_param_num_cuda_streams (params s0)))) /\
  holds_line n0 (m_device_time_proj (line_buffers s0))
    (Z.to_nat (to_size_t (i `rem` m_param_num_cuda_streams (params s0)))) /\
  holds_line n0 (m_host_rf_lines (line_buffers s0)) (Z.to_nat i).

Lemma runs_framed_simulate_beam nbf nbs i :
  beam_served i ->
  runs (framed s0) (simulate_beam scan_seq nbf nbs i) (fun _ => framed s0).
Proof.
  intros (Hi & [w Hw] & Hp & Hh).
  destruct (lookup_lt_is_Some_2 (scanlines scan_seq) (Z.to_nat i)) as [scanline Hl];
    [unfold get_num_lines in Hi; lia |].
  unfold simulate_beam.
  returns_step.
  replace (m_param_num_cuda_streams (params s0) =? 0) with false by lia.
  repeat returns_step.
  eapply runs_bind.
  { destruct (Z.gtb_spec (m_num_fixed_scatterers (fixed s0)) 0) as [Hf | Hf];
      [| apply runs_ret; intros ? H; exact H].
    destruct (Hfixed Hf) as (Hx & Hy & Hz & Ha & Ht).
    cbn [when]. eapply runs_bind;
      [now apply runs_framed_fixed_projection_kernel | intros _].
    apply runs_when, runs_framed_debug_timer. }
  intros _. returns_step.
  eapply runs_bind.
  { destruct (Z.gtb_spec (m_num_spline_scatterers (spline s0)) 0) as [Hf | Hf];
      [| apply runs_ret; intros ? H; exact H].
    destruct (Hspline Hf) as (Hx & Hy & Hz & Ha & Ht & Hb).
    cbn [when]. eapply runs_bind;
      [apply runs_framed_spline_projection_kernel; auto; apply Hb; [exact Hl | lia]
      | intros _].
    apply runs_when, runs_framed_debug_timer. }
  intros _. repeat returns_step.
  rewrite decide_True by exact Hfft_len.
  repeat returns_step.
  apply runs_when, runs_framed_debug_timer.
Qed.

Lemma runs_framed_beams nbf nbs l :
  Forall beam_served l ->
  runs (framed s0) (for_each l (simulate_beam scan_seq nbf nbs)) (fun _ => framed s0).
Proof.
  induction 1 as [|i l Hi _ IH]; cbn [for_each]; [apply runs_ret; auto |].
  eapply runs_bind; [now apply runs_framed_simulate_beam | intros _; exact IH].
Qed.

Hypothesis Hdec : 1 <= m_radial_decimation (base s0) <= INT_MAX.
Hypothesis Hcenter : 0 <= center_index (m_excitation (excitation s0)).
Hypothesis Hcap :
  center_index (m_excitation (excitation s0)) + num_rf_samples_of s0 scan_seq
  <= num_time_samples0.

Lemma runs_framed_assemble_lines fuel line_nos :
  (Z.to_nat (num_rf_samples_of s0 scan_seq) <= fuel)%nat ->
  Forall (fun j => holds_line n0 (m_host_rf_lines (line_buffers s0)) (Z.to_nat j))
         line_nos ->
  runs (framed s0)
       (assemble_lines fuel (num_rf_samples_of s0 scan_seq)
          (to_size_t (center_index (m_excitation (excitation s0))))
          (m_radial_decimation (base s0)) line_nos)
       (fun _ => framed s0).
Proof.
  intros Hfuel. induction 1 as [|j l (h0 & Eh0 & Lh0) _ IH]; cbn [assemble_lines].
  { apply runs_ret; auto. }
  intros s F. destruct (framed_host_lookup s0 s _ _ F Eh0) as (b & Eb & _ & Lb & _).
  assert (Hn : num_rf_samples_of s0 scan_seq < 2 ^ 64)
    by (unfold num_rf_samples_of; apply to_size_t_range).
  assert (HI : INT_MAX < 2 ^ 63) by reflexivity.
  destruct (collect_samples_terminates (data b) (num_rf_samples_of s0 scan_seq)
              (center_index (m_excitation (excitation s0)))
              (m_radial_decimation (base s0)) num_time_samples0 fuel 0 s)
    as [xs E]; try (unfold sizeof_complex, n0 in *; lia).
  destruct (IH s F) as (out & s' & Eo & F').
  unfold bind, gets. rewrite Eb. cbn [deref ret]. rewrite E. rewrite Eo.
  do 2 eexists. split; [reflexivity | exact F'].
Qed.

Hypothesis Hseq : m_scan_seq s0 = Some scan_seq.
Hypothesis Hlines : (1 <= length (scanlines scan_seq))%nat.
Hypothesis Hthreads : 1 <= m_param_threads_per_block (params s0).
Hypothesis Hgrid_fixed :
  round_up_div (m_num_fixed_scatterers (fixed s0)) (m_param_threads_per_block (params s0))
  <= maxGridSize0 (m_cur_device_prop s0).
Hypothesis Hgrid_spline :
  round_up_div (m_num_spline_scatterers (spline s0)) (m_param_threads_per_block (params s0))
  <= maxGridSize0 (m_cur_device_prop s0).
Hypothesis Hserved : forall i, 0 <= i < get_num_lines scan_seq -> beam_served i.

Lemma runs_framed_simulate_lines_run fuel :
  (Z.to_nat (num_rf_samples_of s0 scan_seq) <= fuel)%nat ->
  runs (framed s0) (simulate_lines_run fuel) (fun _ => framed s0).
Proof.
  intros Hfuel. unfold simulate_lines_run.
  repeat returns_step.
  replace (get_num_lines scan_seq <? 1) with false by (unfold get_num_lines; lia).
  repeat returns_step. rewrite Hprofile.
  repeat returns_step.
  replace (m_param_threads_per_block (params s0) =? 0) with false by lia.
  repeat returns_step.
  replace (_ >? maxGridSize0 (m_cur_device_prop s0)) with false by lia.
  repeat returns_step.
  replace (_ >? maxGridSize0 (m_cur_device_prop s0)) with false by lia.
  repeat returns_step.
  eapply runs_bind.
  { apply runs_framed_beams. apply Forall_forall. intros i Hi.
    apply elem_of_seqZ in Hi. apply Hserved. lia. }
  intros _. repeat returns_step.
  apply runs_framed_assemble_lines; [exact Hfuel |].
  apply Forall_forall. intros i Hi. apply elem_of_seqZ in Hi.
  destruct (Hserved i) as (_ & _ & _ & H); [lia | exact H].
Qed.
End Returns.

(** X18. [simulate_lines] returns, with one line for every scan line, on an
    engine that has a scan sequence of at least one line, a configured beam
    profile, block counts within the limit of the device, an FFT plan of
    [num_time_samples] points and an excitation spectrum of that many
    samples, for every beam a stream (or no stream pool yet), a projection
    buffer and a host line of [num_time_samples] samples, the device arrays
    of the scatterers it projects, and a capacity that covers the samples it
    returns. *)
Theorem simulate_lines_returns fuel (s : GpuAlgorithm) seq excitation_fft :
  let n := m_num_time_samples (line_buffers s) in
  let streams := m_param_num_cuda_streams (params s) in
  let threads := m_param_threads_per_block (params s) in
  m_scan_seq s = Some seq ->
  (1 <= length (scanlines seq))%nat ->
  is_NOT_CONFIGURED (m_cur_beam_profile_type (beam_profile s)) = false ->
  1 <= threads ->
  round_up_div (m_num_fixed_scatterers (fixed s)) threads
  <= maxGridSize0 (m_cur_device_prop s) ->
  round_up_div (m_num_spline_scatterers (spline s)) threads
  <= maxGridSize0 (m_cur_device_prop s) ->
  1 <= streams ->
  (forall i, 0 <= i < get_num_lines seq ->
     let stream_no := Z.to_nat (to_size_t (i `rem` streams)) in
     (m_stream_wrappers s <> [] -> (stream_no < length (m_stream_wrappers s))%nat) /\
     holds_line (Z.to_nat n) (m_device_time_proj (line_buffers s)) stream_no /\
     holds_line (Z.to_nat n) (m_host_rf_lines (line_buffers s)) (Z.to_nat i)) ->
  m_fft_plan (excitation s) = Some n ->
  0 <= sizeof_complex * n < 2 ^ 64 ->
  m_device_excitation_fft (excitation s) = Some excitation_fft ->
  (Z.to_nat n <= length (data excitation_fft))%nat ->
  fixed_ready s ->
  spline_ready s seq ->
  1 <= m_radial_decimation (base s) <= INT_MAX ->
  0 <= center_index (m_excitation (excitation s)) ->
  center_index (m_excitation (excitation s)) + num_rf_samples_of s seq <= n ->
  (Z.to_nat (num_rf_samples_of s seq) <= fuel)%nat ->
  exists out s',
    simulate_lines fuel s = Ok out s' /\
    length out = length (scanlines seq).
Proof.
  intros n streams threads Hseq Hlines Hprofile Hthreads Hgf Hgs Hstreams Hserved
    Hplan Hbytes Hfft Hfft_len Hfixed Hspline Hdec Hcenter Hcap Hfuel.
  destruct (after_prepare_settings s)
    as (Eb & Ep & Es & Ee & Ebp & Ef & Esp & Edp & Elb & _).
  assert (Hnr : num_rf_samples_of (after_prepare s) seq = num_rf_samples_of s seq)
    by now apply num_rf_samples_of_settings.
  assert (Hw : forall i, 0 <= i < get_num_lines seq ->
            is_Some (m_stream_wrappers (after_prepare s)
                       !! Z.to_nat (to_size_t (i `rem` streams)))).
  { intros i Hi. apply lookup_lt_is_Some_2.
    destruct (Hserved i Hi) as (Hs & _).
    destruct (m_stream_wrappers s) as [|w l] eqn:El.
    - assert (Hr : 0 <= i `rem` streams < streams).
      { apply Z.rem_bound_pos; lia. }
      assert (Ht : to_size_t (i `rem` streams) <= i `rem` streams).
      { unfold to_size_t. apply Z.mod_le; lia. }
      pose proof (to_size_t_range (i `rem` streams)) as Hb.
      unfold after_prepare. rewrite El. cbn [length bool_decide].
      rewrite bool_decide_eq_true_2 by reflexivity.
      destruct (m_store_kernel_details (params s)); cbn;
        rewrite length_replicate; fold streams; lia.
    - rewrite after_prepare_streams by (rewrite El; discriminate).
      rewrite El. apply Hs. discriminate. }
  destruct (runs_framed_simulate_lines_run (after_prepare s) seq) with
    (excitation_fft0 := excitation_fft) (fuel := fuel) (s := after_prepare s)
    as (out & s' & E & _);
    rewrite ?Eb, ?Ep, ?Es, ?Ee, ?Ebp, ?Ef, ?Esp, ?Edp, ?Elb, ?Hnr; auto.
  { unfold fixed_ready. rewrite Ef, Ebp. exact Hfixed. }
  { unfold spline_ready, basis_evaluates. rewrite Esp, Ebp, Ep. exact Hspline. }
  { intros i Hi. destruct (Hserved i Hi) as (_ & Hp & Hh).
    split; [exact Hi |]. rewrite Ep, Elb. fold streams. split; [auto |].
    split; [exact Hp | exact Hh]. }
  { apply framed_refl. }
  rewrite <- simulate_lines_eq in E.
  exists out, s'. split; [exact E |].
  rewrite simulate_lines_eq in E.
  apply simulate_lines_run_Ok in E as (seq' & t1 & Hs' & _ & _ & _ & Ha).
  rewrite Es, Hseq in Hs'. injection Hs' as <-.
  apply assemble_lines_Ok in Ha as [_ F].
  apply Forall2_length in F. rewrite <- F.
  unfold get_num_lines. rewrite length_seqZ. lia.
Qed.

(** ** From the constructor to the first lines *)

(** The members the constructor leaves. *)
Lemma GpuAlgorithm_new_members s0 :
  GpuAlgorithm_new = Ok tt s0 ->
  base s0 = BaseAlgorithm_new /\
  params s0 = params initial_members /\
  m_cur_device_prop s0 = cudaGetDeviceProperties 0 /\
  m_stream_wrappers s0 = [] /\
  line_buffers s0 = line_buffers initial_members /\
  fixed s0 = fixed initial_members /\
  spline s0 = spline initial_members /\
  is_Some (m_device_beam_profile (beam_profile s0)).
Proof.
  unfold GpuAlgorithm_new, save_cuda_device_properties, get_num_cuda_devices,
    create_dummy_lut_profile, new_DeviceBeamProfileRAII, api, bind, gets, modify, ret.
  cbn [initial_members params m_param_cuda_device_no].
  destruct ((0 <? 0) || (0 >=? cudaGetDeviceCount)); [discriminate |].
  intros [= <-]. repeat split; try reflexivity. eexists. reflexivity.
Qed.

Ltac members :=
  cbn [base params m_can_change_cuda_device m_cur_device_prop m_stream_wrappers
       m_debug_data m_scan_seq line_buffers excitation beam_profile fixed spline
       cuda_trace upd_base upd_params upd_m_can_change_cuda_device
       upd_m_stream_wrappers upd_m_debug_data upd_m_scan_seq upd_line_buffers
       upd_excitation upd_beam_profile upd_fixed upd_cuda_trace
       m_num_time_samples m_num_beams_allocated m_device_time_proj m_host_rf_lines
       m_excitation m_device_excitation_fft m_fft_plan
       m_cur_beam_profile_type m_device_beam_profile
       m_num_fixed_scatterers m_device_point_xs m_device_point_ys m_device_point_zs
       m_device_point_as m_param_num_cuda_streams m_param_threads_per_block
       initial_members].

(** X19. On a machine with a CUDA device, an engine that is constructed and
    given an excitation of at most 8192 samples, a scan sequence of at least
    one line whose samples fit the line buffers after the centre of the
    excitation, a Gaussian beam profile and a set of fixed scatterers whose
    block count the device supports, in this order, produces one line for
    every scan line: none of the calls throws or fails. *)
Theorem configured_engine_returns (e : ExcitationSignal) (seq : ScanSequence)
    (sigma_lat sigma_ele : float) (sc : FixedScatterers) (fuel : nat)
    (s0 : GpuAlgorithm) :
  let num_rf_samples :=
    to_size_t (compute_num_rf_samples (m_param_sound_speed BaseAlgorithm_new)
                 (line_length seq) (sampling_frequency e)) in
  GpuAlgorithm_new = Ok tt s0 ->
  (length (samples e) <= Z.to_nat 8192)%nat ->
  length (discrete_hilbert_mask 8192) = Z.to_nat 8192 ->
  0 <= center_index e ->
  center_index e + num_rf_samples <= 8192 ->
  (1 <= length (scanlines seq))%nat ->
  get_num_lines seq <= INT_MAX ->
  Z.of_nat (length (scatterers sc)) * sizeof_float < 2 ^ 64 ->
  round_up_div (Z.of_nat (length (scatterers sc))) 128
  <= maxGridSize0 (cudaGetDeviceProperties 0) ->
  1 <= m_radial_decimation BaseAlgorithm_new <= INT_MAX ->
  (Z.to_nat num_rf_samples <= fuel)%nat ->
  exists out s',
    (set_excitation e ;;;
     set_scan_sequence seq ;;;
     set_analytical_profile (GaussianBeamProfile sigma_lat sigma_ele) ;;;
     add_fixed_scatterers sc ;;;
     simulate_lines fuel) s0 = Ok out s' /\
    length out = length (scanlines seq).
Proof.
  intros nrs Hnew Hlen Hmask Hc Hcap Hlines Hint Hbytes Hgrid Hdec Hfuel.
  destruct (GpuAlgorithm_new_members s0 Hnew) as (Eb & Ep & Ed & Ew & El & Ef & Es & Ht).
  set (s1 := with_excitation e s0).
  assert (E1 : set_excitation e s0 = Ok tt s1).
  { apply set_excitation_eq; rewrite El; members.
    - unfold sizeof_complex. lia.
    - exact Hmask.
    - exact Hlen. }
  assert (N1 : num_rf_samples_of s1 seq = nrs).
  { unfold num_rf_samples_of, s1, with_excitation. members. now rewrite Eb. }
  assert (T1 : m_num_time_samples (line_buffers s1) = 8192).
  { unfold s1, with_excitation. members. now rewrite El. }
  set (s2 := reallocated seq s1).
  assert (E2 : set_scan_sequence seq s1 = Ok tt s2).
  { rewrite set_scan_sequence_eq; [| exact Hint | rewrite N1, T1; lia].
    replace (m_num_beams_allocated (line_buffers s1) <? get_num_lines seq) with true;
      [reflexivity |].
    unfold s1, with_excitation. members. rewrite El. members.
    unfold get_num_lines. lia. }
  set (s3 := upd_beam_profile
               {| m_cur_beam_profile_type := ANALYTICAL;
                  m_analytical_sigma_lat := sigma_lat;
                  m_analytical_sigma_ele := sigma_ele;
                  m_device_beam_profile := m_device_beam_profile (beam_profile s2);
                  m_lut := m_lut (beam_profile s2) |} s2).
  assert (E3 : set_analytical_profile (GaussianBeamProfile sigma_lat sigma_ele) s2
               = Ok tt s3) by reflexivity.
  set (s4 := with_fixed sc s3).
  assert (F3 : fixed s3 = fixed initial_members).
  { unfold s3, s2, reallocated, s1, with_excitation. members. exact Ef. }
  assert (E4 : add_fixed_scatterers sc s3 = Ok tt s4).
  { apply add_fixed_scatterers_eq; [exact Hbytes | ..];
      rewrite F3; intros b H; discriminate. }
  assert (L4 : line_buffers s4 = line_buffers s2) by reflexivity.
  assert (P4 : params s4 = params initial_members).
  { unfold s4, with_fixed, s3, s2, reallocated, s1, with_excitation. members. exact Ep. }
  assert (T4 : m_num_time_samples (line_buffers s4) = 8192).
  { rewrite L4. unfold s2, reallocated. members. exact T1. }
  assert (X4 : excitation s4 = excitation s1) by reflexivity.
  assert (B4 : base s4 = BaseAlgorithm_new).
  { unfold s4, with_fixed, s3, s2, reallocated, s1, with_excitation. members. exact Eb. }
  assert (N4 : num_rf_samples_of s4 seq = nrs).
  { rewrite <- N1. apply num_rf_samples_of_settings; [| exact X4].
    rewrite B4. unfold s1, with_excitation. members. now rewrite Eb. }
  assert (Hline : length (data (fresh_iq_line s1)) = Z.to_nat 8192).
  { unfold fresh_iq_line, iq_line_bytes, new_buffer. cbn [data].
    rewrite length_replicate, T1. reflexivity. }
  destruct (simulate_lines_returns fuel s4 seq
              {| get_num_bytes := sizeof_complex * 8192;
                 data := excitation_spectrum e 8192 |})
    as (out & s5 & E5 & Hout).
  - reflexivity.
  - exact Hlines.
  - reflexivity.
  - rewrite P4. members. lia.
  - rewrite P4. unfold s4, with_fixed. members.
    unfold s3, s2, reallocated, s1, with_excitation. members. rewrite Ed. exact Hgrid.
  - rewrite P4.
    unfold s4, with_fixed, s3, s2, reallocated, s1, with_excitation. members.
    rewrite Es, Ed. cbn [spline m_num_spline_scatterers initial_members].
    assert (0 <= round_up_div (Z.of_nat (length (scatterers sc))) 128).
    { unfold round_up_div. apply Z.quot_pos; lia. }
    change (round_up_div 0 128) with 0. lia.
  - rewrite P4. members. lia.
  - intros i Hi. rewrite P4, T4. members.
    assert (Hr : 0 <= i `rem` 2 < 2) by (apply Z.rem_bound_pos; lia).
    rewrite (to_size_t_id (i `rem` 2)) by lia.
    split; [| split].
    + intros C. exfalso. apply C.
      unfold s4, with_fixed, s3, s2, reallocated, s1, with_excitation. members. exact Ew.
    + exists (fresh_iq_line s1). split; [| rewrite Hline; reflexivity].
      rewrite L4. unfold s2, reallocated. members.
      apply lookup_replicate_2.
      replace (m_param_num_cuda_streams (params s1)) with 2; [change (to_size_t 2) with 2; lia |].
      unfold s1, with_excitation. members. now rewrite Ep.
    + exists (fresh_iq_line s1). split; [| rewrite Hline; reflexivity].
      rewrite L4. unfold s2, reallocated. members.
      apply lookup_replicate_2. lia.
  - rewrite T4. unfold s4, with_fixed, s3, s2, reallocated, s1, with_excitation.
    members. now rewrite El.
  - rewrite T4. unfold sizeof_complex. lia.
  - unfold s4, with_fixed, s3, s2, reallocated, s1, with_excitation. members.
    now rewrite El.
  - rewrite T4. cbn [data]. unfold excitation_spectrum.
    now rewrite length_map, length_seq.
  - intros _. unfold s4, with_fixed. members.
    repeat split; try (eexists; reflexivity).
    unfold s3, s2, reallocated, s1, with_excitation. members. exact Ht.
  - intros C. exfalso. revert C.
    unfold s4, with_fixed, s3, s2, reallocated, s1, with_excitation. members.
    rewrite Es. cbn [spline m_num_spline_scatterers initial_members]. lia.
  - rewrite B4. exact Hdec.
  - rewrite X4. exact Hc.
  - rewrite X4, N4, T4. exact Hcap.
  - rewrite N4. exact Hfuel.
  - exists out, s5. split; [| exact Hout].
    unfold bind. rewrite E1, E2, E3, E4. exact E5.
Qed.

(** ** The calls of the pipeline, in order *)







Definition anything : exception -> GpuAlgorithm -> Prop := fun _ _ => True.

Section Traced.
(** The object when the pipeline is entered. *)
Variable s0 : GpuAlgorithm.



















End Traced.


(** ** The parameters of an engine in use *)

(** The selected device exists and its properties are the cached ones; the
    numbers of threads and of streams are positive. *)
Definition valid_parameters (s : GpuAlgorithm) : Prop :=
  0 <= m_param_cuda_device_no (params s) < cudaGetDeviceCount /\
  m_cur_device_prop s = cudaGetDeviceProperties (m_param_cuda_device_no (params s)) /\
  1 <= m_param_threads_per_block (params s) /\
  1 <= m_param_num_cuda_streams (params s).

Definition keeps_valid (s s' : GpuAlgorithm) : Prop :=
  valid_parameters s -> valid_parameters s'.

#[local] Instance keeps_valid_preorder : PreOrder keeps_valid.
Proof. split; [intros s; red; auto | intros s1 s2 s3 H1 H2; red; auto]. Qed.

Definition same_parameters (s s' : GpuAlgorithm) : Prop :=
  params s' = params s /\ m_cur_device_prop s' = m_cur_device_prop s.

#[local] Instance same_parameters_preorder : PreOrder same_parameters.
Proof.
  split; [intros s; split; reflexivity |].
  intros s1 s2 s3 [P1 D1] [P2 D2]. split; congruence.
Qed.







(** ** Uploading again *)

(** X22. [clear_fixed_scatterers] sets the count to zero and keeps the four
    device arrays, and an upload after it allocates device memory only when
    the new set has another size than the arrays: after an upload of [N1]
    scatterers and a clear, an upload of [N2] scatterers allocates the pinned
    staging buffer, four new device arrays unless [N1 = N2], and makes four
    copies. *)
Theorem fixed_upload_after_clear (sc1 sc2 : FixedScatterers) (s : GpuAlgorithm) :
  let N1 := Z.of_nat (length (scatterers sc1)) in
  let N2 := Z.of_nat (length (scatterers sc2)) in
  N1 * sizeof_float < 2 ^ 64 ->
  N2 * sizeof_float < 2 ^ 64 ->
  well_sized (m_device_point_xs (fixed s)) ->
  well_sized (m_device_point_ys (fixed s)) ->
  well_sized (m_device_point_zs (fixed s)) ->
  well_sized (m_device_point_as (fixed s)) ->
  exists s1 s2 s3,
    add_fixed_scatterers sc1 s = Ok tt s1 /\
    clear_fixed_scatterers s1 = Ok tt s2 /\
    add_fixed_scatterers sc2 s2 = Ok tt s3 /\
    m_num_fixed_scatterers (fixed s2) = 0 /\
    m_device_point_xs (fixed s2) = m_device_point_xs (fixed s1) /\
    m_device_point_ys (fixed s2) = m_device_point_ys (fixed s1) /\
    m_device_point_zs (fixed s2) = m_device_point_zs (fixed s1) /\
    m_device_point_as (fixed s2) = m_device_point_as (fixed s1) /\
    new_calls s1 s2 = [] /\
    m_num_fixed_scatterers (fixed s3) = N2 /\
    new_calls s2 s3
    = call_cudaMallocHost (N2 * sizeof_float)
      :: (if N1 =? N2 then [] else replicate 4 (call_cudaMalloc (N2 * sizeof_float)))
      ++ replicate 4 (call_cudaMemcpyHostToDevice (N2 * sizeof_float)).
Proof.
  intros N1 N2 H1 H2 Wx Wy Wz Wa.
  set (s1 := with_fixed sc1 s).
  set (s2 := upd_fixed (upd_m_num_fixed_scatterers 0 (fixed s1)) s1).
  exists s1, s2, (with_fixed sc2 s2).
  split; [now apply add_fixed_scatterers_eq |].
  split; [reflexivity |].
  split.
  { apply add_fixed_scatterers_eq; [exact H2 | ..];
      intros b [= <-]; cbn [data get_num_bytes]; now rewrite length_map. }
  do 5 (split; [reflexivity |]).
  split; [unfold new_calls; apply drop_all |].
  split; [reflexivity |].
  unfold with_fixed at 1, new_calls. cbn [cuda_trace upd_fixed upd_cuda_trace].
  rewrite drop_app_length. fold N2. f_equal. f_equal.
  unfold reusable, s2, s1, with_fixed, has_num_bytes. cbn. fold N1.
  unfold sizeof_float. destruct (Z.eqb_spec N1 N2) as [-> | Hne].
  - now rewrite Z.eqb_refl.
  - replace (N1 * 4 =? N2 * 4) with false by lia. reflexivity.
Qed.

(** ** The kernel details *)

(** The entries of the diagnostic log under [key]. *)
Definition log_of (key : string) (s : GpuAlgorithm) : list double :=
  default [] (m_debug_data s !! key).

(** The keys a beam writes to, in order. *)
Definition beam_keys (s : GpuAlgorithm) : list string :=
  ["stream_numbers"; "kernel_memset_ms"]
  ++ (if m_num_fixed_scatterers (fixed s) >? 0 then ["fixed_projection_kernel_ms"] else [])
  ++ (if m_num_spline_scatterers (spline s) >? 0 then ["spline_projection_kernel_ms"] else [])
  ++ ["kernel_forward_fft_ms"; "kernel_multiply_fft_ms"; "kernel_inverse_fft_ms";
      "kernel_demodulate_ms"; "kernel_memcpy_ms"].

(** How often [key] occurs in [keys]. *)
Definition pushed (key : string) (keys : list string) : nat :=
  length (filter (fun k => k = key) keys).

(** A step that changes neither the settings nor the log. *)
Definition same_log (s s' : GpuAlgorithm) : Prop :=
  same_settings s s' /\ m_debug_data s' = m_debug_data s.

#[local] Instance same_log_preorder : PreOrder same_log.
Proof.
  split.
  - intros s. split; reflexivity.
  - intros s1 s2 s3 [S1 T1] [S2 T2]. split; [etrans; eauto | congruence].
Qed.

Section Logged.
(** The object when the pipeline is entered. *)
Variable s0 : GpuAlgorithm.

(** The settings of [s0]; one entry in the log for every key of [keys]; and
    [streams] as the entries under "stream_numbers". *)
Definition logged (keys : list string) (streams : list double) (s : GpuAlgorithm) : Prop :=
  same_settings s0 s /\
  (forall key, length (log_of key s) = pushed key keys) /\
  log_of "stream_numbers" s = streams.

Lemma pushed_snoc key keys k :
  pushed key (keys ++ [k]) = (pushed key keys + (if decide (k = key) then 1 else 0))%nat.
Proof.
  unfold pushed. rewrite filter_app, length_app. f_equal.
  rewrite filter_cons, filter_nil. now destruct (decide (k = key)).
Qed.

Lemma logged_push keys streams key v :
  hoare (logged keys streams) (debug_push key v)
        (fun _ => logged (keys ++ [key])
                    (if decide (key = "stream_numbers") then streams ++ [v] else streams))
        anything.
Proof.
  apply hoare_modify. intros s (S & C & L). split; [exact S |]. split.
  - intros k. rewrite pushed_snoc, <- C. unfold log_of. cbn.
    destruct (decide (key = k)) as [-> | Hne].
    + rewrite lookup_insert_eq. cbn. rewrite length_app. reflexivity.
    + rewrite lookup_insert_ne by exact Hne. lia.
  - unfold log_of in *. cbn.
    destruct (decide (key = "stream_numbers")) as [-> | Hne].
    + rewrite lookup_insert_eq. cbn. now rewrite L.
    + rewrite lookup_insert_ne by exact Hne. exact L.
Qed.

Lemma logged_timer keys streams key :
  key <> "stream_numbers" ->
  hoare (logged keys streams) (debug_timer key)
        (fun _ => logged (keys ++ [key]) streams) anything.
Proof.
  intros Hne. unfold debug_timer. apply hoare_gets_any_bind. intros now.
  pose proof (logged_push keys streams key (timer_stop now)) as H.
  now rewrite decide_False in H by exact Hne.
Qed.

Lemma logged_same_log {A} keys streams (m : St A) :
  leaves same_log m -> hoare (logged keys streams) m (fun _ => logged keys streams) anything.
Proof.
  intros L s (S & C & N). specialize (L s).
  destruct (m s) as [a s1|e s1| |]; try exact I.
  destruct L as [S1 T1]. unfold logged, log_of in *. rewrite T1.
  split; [etrans; eauto | auto].
Qed.

Ltac same_log_tac := leaves_tac; (split; [repeat split | reflexivity]).

Lemma same_log_api c : leaves same_log (api c).
Proof. same_log_tac. Qed.

Lemma same_log_time_proj_ptr stream_no : leaves same_log (time_proj_ptr stream_no).
Proof. same_log_tac. Qed.

Lemma same_log_on_time_proj stream_no f : leaves same_log (on_time_proj stream_no f).
Proof. same_log_tac. Qed.

Lemma same_log_copy_line_to_host beam_no stream_no bytes :
  leaves same_log (copy_line_to_host beam_no stream_no bytes).
Proof. same_log_tac. Qed.

Lemma same_log_fixed_projection_kernel stream_no scanline num_blocks :
  leaves same_log (fixed_projection_kernel stream_no scanline num_blocks).
Proof. same_log_tac. Qed.

Lemma same_log_spline_projection_kernel stream_no scanline num_blocks :
  leaves same_log (spline_projection_kernel stream_no scanline num_blocks).
Proof. same_log_tac. Qed.

Hypothesis details_on : m_store_kernel_details (params s0) = true.

Ltac logged_setting_tac :=
  let s := fresh "s" in
  intros s ((? & ? & ? & ? & ? & ? & ? & ? & ? & ? & ? & ?) & _);
  unfold num_rf_samples_of; cbn; congruence.

Ltac logged_step :=
  lazymatch goal with
  | |- hoare _ (bind (gets ?f) _) _ _ =>
      apply (hoare_gets_bind _ _ _ f (f s0)); [logged_setting_tac | cbn beta]
  | |- hoare _ (bind (deref _) _) _ _ => apply hoare_deref_bind; intros ? ?
  | |- hoare _ (bind (ret _) _) _ _ => apply hoare_ret_bind
  | |- hoare _ (bind undefined _) _ _ => apply hoare_undefined_bind
  | |- hoare _ (bind (api _) _) _ _ =>
      eapply hoare_bind; [apply logged_same_log, same_log_api | intros []; cbn beta]
  | |- hoare _ (bind (time_proj_ptr _) _) _ _ =>
      eapply hoare_bind;
      [apply logged_same_log, same_log_time_proj_ptr | intros []; cbn beta]
  | |- hoare _ (bind (when true (debug_timer _)) _) _ _ =>
      eapply hoare_bind; [apply logged_timer; discriminate | intros []; cbn beta]
  | |- hoare _ (bind (on_time_proj _ _) _) _ _ =>
      eapply hoare_bind;
      [apply logged_same_log, same_log_on_time_proj | intros []; cbn beta]
  | |- hoare _ (bind (copy_line_to_host _ _ _) _) _ _ =>
      eapply hoare_bind;
      [apply logged_same_log, same_log_copy_line_to_host | intros []; cbn beta]
  end.

Lemma logged_weaken {A} keys streams keys' streams' keys'' streams'' (m : St A) :
  hoare (logged keys streams) m (fun _ => logged keys' streams') anything ->
  keys' = keys'' -> streams' = streams'' ->
  hoare (logged keys streams) m (fun _ => logged keys'' streams'') anything.
Proof. intros H <- <-. exact H. Qed.

Lemma logged_fixed_part keys streams stream_no scanline num_blocks :
  hoare (logged keys streams)
        (when (m_num_fixed_scatterers (fixed s0) >? 0)
           (fixed_projection_kernel stream_no scanline num_blocks ;;;
            when true (debug_timer "fixed_projection_kernel_ms")))
        (fun _ =>
           logged (keys ++ (if m_num_fixed_scatterers (fixed s0) >? 0
                            then ["fixed_projection_kernel_ms"] else []))
                  streams)
        anything.
Proof.
  destruct (m_num_fixed_scatterers (fixed s0) >? 0); cbn [when].
  - eapply hoare_bind;
      [apply logged_same_log, same_log_fixed_projection_kernel | intros []; cbn beta].
    apply logged_timer. discriminate.
  - rewrite app_nil_r. apply hoare_ret. auto.
Qed.

Lemma logged_spline_part keys streams stream_no scanline num_blocks :
  hoare (logged keys streams)
        (when (m_num_spline_scatterers (spline s0) >? 0)
           (spline_projection_kernel stream_no scanline num_blocks ;;;
            when true (debug_timer "spline_projection_kernel_ms")))
        (fun _ =>
           logged (keys ++ (if m_num_spline_scatterers (spline s0) >? 0
                            then ["spline_projection_kernel_ms"] else []))
                  streams)
        anything.
Proof.
  destruct (m_num_spline_scatterers (spline s0) >? 0); cbn [when].
  - eapply hoare_bind;
      [apply logged_same_log, same_log_spline_projection_kernel | intros []; cbn beta].
    apply logged_timer. discriminate.
  - rewrite app_nil_r. apply hoare_ret. auto.
Qed.

Lemma logged_simulate_beam keys streams seq nbf nbs beam_no :
  hoare (logged keys streams) (simulate_beam seq nbf nbs beam_no)
        (fun _ =>
           logged (keys ++ beam_keys s0)
                  (streams
                   ++ [double_of_size_t
                         (to_size_t (beam_no `rem` m_param_num_cuda_streams (params s0)))]))
        anything.
Proof.
  unfold simulate_beam.
  logged_step.
  destruct (_ =? 0); [apply hoare_undefined_bind |].
  repeat logged_step. rewrite details_on.
  eapply hoare_bind; [apply logged_push | intros []; cbn beta].
  rewrite decide_True by reflexivity.
  repeat logged_step.
  eapply hoare_bind; [apply logged_fixed_part | intros []; cbn beta].
  logged_step.
  eapply hoare_bind; [apply logged_spline_part | intros []; cbn beta].
  repeat logged_step.
  destruct (decide _); [| apply hoare_undefined_bind].
  repeat logged_step.
  eapply logged_weaken; [apply logged_timer; discriminate | | reflexivity].
  unfold beam_keys. cbn. rewrite <- !app_assoc. reflexivity.
Qed.

Lemma logged_beams seq nbf nbs l : forall keys streams,
  hoare (logged keys streams) (for_each l (simulate_beam seq nbf nbs))
        (fun _ =>
           logged (keys ++ flat_map (fun _ => beam_keys s0) l)
                  (streams
                   ++ map (fun i => double_of_size_t
                                      (to_size_t (i `rem` m_param_num_cuda_streams (params s0))))
                          l))
        anything.
Proof.
  induction l as [|i l IH]; intros keys streams; cbn [for_each flat_map map].
  - rewrite !app_nil_r. apply hoare_ret. auto.
  - eapply hoare_bind; [apply logged_simulate_beam | intros []; cbn beta].
    eapply logged_weaken; [apply IH | |]; now rewrite <- app_assoc.
Qed.

Lemma logged_simulate_lines_run fuel seq :
  m_scan_seq s0 = Some seq ->
  hoare (logged [] []) (simulate_lines_run fuel)
        (fun _ =>
           logged (flat_map (fun _ => beam_keys s0) (seqZ 0 (get_num_lines seq)))
                  (map (fun i => double_of_size_t
                                   (to_size_t (i `rem` m_param_num_cuda_streams (params s0))))
                       (seqZ 0 (get_num_lines seq))))
        anything.
Proof.
  intros Hseq. unfold simulate_lines_run.
  logged_step. rewrite Hseq. apply hoare_ret_bind.
  destruct (_ <? 1); [apply hoare_throw; intros; exact I |].
  logged_step.
  destruct (is_NOT_CONFIGURED _); [apply hoare_throw; intros; exact I |].
  logged_step.
  destruct (_ =? 0); [apply hoare_undefined_bind |].
  repeat logged_step.
  destruct (_ >? _); [apply hoare_throw; intros; exact I |].
  logged_step.
  destruct (_ >? _); [apply hoare_throw; intros; exact I |].
  repeat logged_step.
  eapply hoare_bind; [apply (logged_beams _ _ _ _ [] []) | intros []; cbn beta].
  repeat logged_step.
  apply (logged_same_log ([] ++ _) ([] ++ _)), leaves_assemble_lines.
  apply same_log_preorder.
Qed.
End Logged.

Lemma pushed_flat_map {T} key keys (l : list T) :
  pushed key (flat_map (fun _ => keys) l) = (length l * pushed key keys)%nat.
Proof.
  unfold pushed. induction l as [|a l IH]; [reflexivity |].
  cbn [flat_map length]. rewrite filter_app, length_app, IH. lia.
Qed.

Lemma pushed_absent key keys : key ∉ keys -> pushed key keys = 0%nat.
Proof.
  unfold pushed. induction keys as [|k keys IH]; intros H; [reflexivity |].
  apply not_elem_of_cons in H as [Hne Hn].
  rewrite filter_cons, decide_False by congruence. now apply IH.
Qed.

Lemma pushed_once key keys : NoDup keys -> key ∈ keys -> pushed key keys = 1%nat.
Proof.
  unfold pushed. induction 1 as [|k keys Hk _ IH]; intros H; [now apply elem_of_nil in H |].
  rewrite filter_cons. apply elem_of_cons in H as [-> | H].
  - rewrite decide_True by reflexivity. cbn [length]. f_equal.
    now apply pushed_absent.
  - rewrite decide_False by (intros ->; contradiction). now apply IH.
Qed.

Lemma beam_keys_NoDup s : NoDup (beam_keys s).
Proof.
  unfold beam_keys.
  destruct (_ >? 0), (_ >? 0); cbn [app];
    repeat (apply NoDup_cons_2;
            [intros H;
             repeat (apply elem_of_cons in H as [H | H]; [discriminate |]);
             now apply elem_of_nil in H |]);
    apply NoDup_nil_2.
Qed.

(** X23. With the kernel details switched on, a [simulate_lines] that
    returns on [L] scan lines leaves a log that holds, under
    "stream_numbers", the stream of every beam in order ([i mod num_streams]
    for beam [i]); [L] timings under each of the stages every beam runs,
    and under the projection of the fixed and of the spline scatterers when
    there are any; and nothing under any other key: what earlier calls had
    logged is gone. *)
Theorem kernel_details_log fuel (s s' : GpuAlgorithm) seq out :
  m_store_kernel_details (params s) = true ->
  m_scan_seq s = Some seq ->
  simulate_lines fuel s = Ok out s' ->
  log_of "stream_numbers" s'
  = map (fun i => double_of_size_t (to_size_t (i `rem` m_param_num_cuda_streams (params s))))
        (seqZ 0 (get_num_lines seq)) /\
  Forall (fun key => length (log_of key s') = length (scanlines seq)) (beam_keys s) /\
  forall key, key ∉ beam_keys s -> log_of key s' = [].
Proof.
  intros Hd Hseq H. rewrite simulate_lines_eq in H.
  destruct (after_prepare_settings s)
    as (Eb & Ep & Es & Ee & Ebp & Ef & Esp & Edp & Elb & _).
  pose proof (logged_simulate_lines_run (after_prepare s)) as T.
  rewrite Ep, Es in T. specialize (T Hd fuel seq Hseq (after_prepare s)).
  rewrite H in T. destruct T as (_ & C & N).
  { split; [reflexivity |].
    assert (E : m_debug_data (after_prepare s) = ∅).
    { unfold after_prepare. rewrite Hd. reflexivity. }
    unfold log_of. rewrite E. split; [intros key |]; now rewrite lookup_empty. }
  assert (K : beam_keys (after_prepare s) = beam_keys s).
  { unfold beam_keys. now rewrite Ef, Esp. }
  rewrite K in C.
  assert (L : length (seqZ 0 (get_num_lines seq)) = length (scanlines seq)).
  { rewrite length_seqZ. unfold get_num_lines. lia. }
  split; [exact N |]. split.
  - apply Forall_forall. intros key Hk.
    rewrite C, pushed_flat_map, L, pushed_once; [lia | apply beam_keys_NoDup | exact Hk].
  - intros key Hk. apply length_zero_iff_nil.
    rewrite C, pushed_flat_map, pushed_absent by exact Hk. lia.
Qed.

End Engine.

(** * The kernels of the pipeline, from the specification

    The transforms and the elementwise kernels are not among the sources.
    They are given here as the specification words them, over the complex
    arithmetic of the device, and the scenario of an empty scatterer set is
    settled against them. *)

Section Pipeline.
Context {float complex double : Type}.
Context {FA : @FloatArith float complex double}
        {PF : @Platform float complex double}
        {CO : @Collaborators float complex}.

(** Complex addition and multiplication, the factor of input [j] in output
    [k] of a transform of [n] points, and the carrier of the demodulation at
    sample [k]. *)
Variables cadd cmul : complex -> complex -> complex.
Variable twiddle : fft_direction -> nat -> nat -> nat -> complex.
Variable carrier : float -> nat -> complex.

(** The kernels the scenario does not reach. *)
Variable project_fixed :
  bool -> bool -> bool -> Z -> Z -> @FixedAlgKernelParams float ->
  list complex -> nat -> complex.
Variable project_spline :
  bool -> bool -> bool -> Z -> Z -> @SplineAlgKernelParams float ->
  list complex -> nat -> complex.
Variable scale_signal : float -> list complex -> nat -> complex.

(** Zero is zero: on finite values, [0 + 0 = 0] and [0 * x = 0]. *)
Hypothesis cadd_zero : cadd complex_zero complex_zero = complex_zero.
Hypothesis cmul_zero : forall x, cmul complex_zero x = complex_zero.

(** Modelled from the spec: [cufftExecC2C] belongs to cuFFT, which is not
    among the sources; "forward FFT in place", "inverse FFT in place": output
    [k] is the sum, over the inputs, of input [j] times its factor. *)
Definition cufftExecC2C (direction : fft_direction) (buf : list complex)
    (k : nat) : complex :=
  foldr cadd complex_zero
        (imap (fun j x => cmul x (twiddle direction (length buf) j k)) buf).

(** Modelled from the spec: [launch_MultiplyFftKernel] of
    cuda_kernels_c_interface.h is not among the sources; "multiply
    elementwise by the precomputed excitation spectrum". *)
Definition launch_MultiplyFftKernel (spectrum buf : list complex) (k : nat)
  : complex :=
  match buf !! k, spectrum !! k with
  | Some x, Some h => cmul x h
  | _, _ => fresh_complex
  end.

(** Modelled from the spec: [launch_DemodulateKernel] of
    cuda_kernels_c_interface.h is not among the sources; "demodulate to
    baseband ... (elementwise multiply by a complex exponential at the
    normalized angular frequency)". *)
Definition launch_DemodulateKernel (w : float) (buf : list complex) (k : nat)
  : complex :=
  match buf !! k with
  | Some x => cmul x (carrier w k)
  | None => fresh_complex
  end.

Definition pipeline_kernels : @CudaKernels float complex :=
  {| run_FixedAlgKernel := project_fixed;
     run_SplineAlgKernel := project_spline;
     run_cufftExecC2C := cufftExecC2C;
     run_MultiplyFftKernel := launch_MultiplyFftKernel;
     run_DemodulateKernel := launch_DemodulateKernel;
     run_ScaleSignalKernel := scale_signal |}.

#[local] Existing Instance pipeline_kernels.






End Pipeline.

(** * A small machine

    Integer samples, Gaussian integers for the complex samples, one device
    and transforms of four points: a machine on which the engine can be run
    by evaluation. *)

Module Desk.

Definition float : Type := Z.
Definition complex : Type := Z * Z.
Definition double : Type := Z.

#[local] Instance float_arith : @FloatArith float complex double :=
  {| float_lit := fun v => v;
     float_of_int := fun v => v;
     float_PI := 3;
     fadd := Z.add;
     fsub := Z.sub;
     fmul := Z.mul;
     fdiv := Z.quot;
     make_complex := fun re im => (re, im);
     double_of_size_t := fun v => v |}.

(** An unsigned decimal number. *)
Fixpoint parse_digits (value : string) (acc : Z) : option Z :=
  match value with
  | EmptyString => Some acc
  | String c rest =>
      let d := Z.of_nat (Ascii.nat_of_ascii c) - 48 in
      if (0 <=? d) && (d <=? 9) then parse_digits rest (10 * acc + d) else None
  end.

#[local] Instance platform : @Platform float complex double :=
  {| cudaGetDeviceCount := 1;
     cudaGetDeviceProperties := fun _ => {| maxGridSize0 := 65535 |};
     stoi := fun value =>
       match value with
       | EmptyString => None
       | _ => parse_digits value 0
       end;
     timer_stop := fun k => Z.of_nat k;
     fresh_float := 7;
     fresh_complex := (7, 7) |}.

#[local] Instance collaborators : @Collaborators float complex :=
  {| compute_num_rf_samples := fun sound_speed line_length fs =>
       (2 * line_length * fs) `quot` sound_speed;
     MAX_NUM_CUDA_STREAMS := 2;
     MAX_SPLINE_DEGREE := 4;
     BaseAlgorithm_new :=
       {| m_param_verbose := false;
          m_param_sound_speed := 1540;
          m_radial_decimation := 1;
          m_param_use_arc_projection := true;
          m_enable_phase_delay := false |};
     BaseAlgorithm_set_parameter := fun key value =>
       throw (runtime_error "illegal parameter name");
     ExcitationSignal_new :=
       {| samples := []; sampling_frequency := 0; demod_freq := 0;
          center_index := 0 |};
     LutExtent_new :=
       {| r_min := 0; r_max := 0; l_min := 0; l_max := 0; e_min := 0; e_max := 0 |};
     sigma_new := 0;
     discrete_hilbert_mask := fun n => replicate (Z.to_nat n) (1, 0);
     bsplineBasis := fun j p x knots => 0;
     get_lower_upper_inds := fun knots t degree => (0, degree);
     sanity_check_spline_lower_upper_bound := fun basis lower upper => true;
     splineAlg2_updateConstantMemory := fun basis bytes offset => true |}.

Definition cadd (a b : complex) : complex := (a.1 + b.1, a.2 + b.2).
Definition cmul (a b : complex) : complex :=
  (a.1 * b.1 - a.2 * b.2, a.1 * b.2 + a.2 * b.1).

(** The powers of [i]. *)
Definition i_pow (k : Z) : complex :=
  match k `mod` 4 with
  | 0 => (1, 0)
  | 1 => (0, 1)
  | 2 => (-1, 0)
  | _ => (0, -1)
  end.

(** The factors of a transform of four points. *)
Definition twiddle (direction : fft_direction) (n j k : nat) : complex :=
  match direction with
  | CUFFT_FORWARD => i_pow (- Z.of_nat (j * k))
  | CUFFT_INVERSE => i_pow (Z.of_nat (j * k))
  end.

Definition carrier (w : float) (k : nat) : complex := i_pow (- w * Z.of_nat k).

(** A projection that adds the sum of the amplitudes to every sample. *)
Definition project_fixed (arc phase lut : bool) (grid block : Z)
    (p : @FixedAlgKernelParams float) (buf : list complex) (k : nat) : complex :=
  cadd (default (0, 0) (buf !! k)) (foldr Z.add 0 (fp_point_as p), 0).

Definition project_spline (arc phase lut : bool) (grid block : Z)
    (p : @SplineAlgKernelParams float) (buf : list complex) (k : nat) : complex :=
  cadd (default (0, 0) (buf !! k)) (foldr Z.add 0 (sp_control_as p), 0).

Definition scale_signal (factor : float) (buf : list complex) (k : nat) : complex :=
  cmul (default (0, 0) (buf !! k)) (factor, 0).

#[local] Instance kernels : @CudaKernels float complex :=
  pipeline_kernels cadd cmul twiddle carrier project_fixed project_spline scale_signal.



(** ** Objects *)

Definition axis (x y z : Z) : @vector3 float := {| x3 := x; y3 := y; z3 := z |}.

Definition scanline0 : @Scanline float :=
  {| get_origin := axis 0 0 0;
     get_direction := axis 0 0 1;
     get_lateral_dir := axis 1 0 0;
     get_elevational_dir := axis 0 1 0;
     get_timestamp := 0 |}.

Definition no_lines : @ScanSequence float := {| line_length := 1; scanlines := [] |}.
Definition one_line : @ScanSequence float :=
  {| line_length := 1; scanlines := [scanline0] |}.
Definition two_lines : @ScanSequence float :=
  {| line_length := 1; scanlines := [scanline0; scanline0] |}.

Definition iq_buffer (l : list complex) : BufferRAII complex :=
  {| get_num_bytes := sizeof_complex * Z.of_nat (length l); data := l |}.

Definition float_buffer (l : list float) : BufferRAII float :=
  {| get_num_bytes := sizeof_float * Z.of_nat (length l); data := l |}.

(** An engine with line buffers of four samples, one stream, one scan line,
    an excitation of three samples per line with its centre at index one, an
    analytical profile and [amplitudes] as the fixed scatterers on the
    device. *)
Definition engine (amplitudes : list float) : @GpuAlgorithm float complex double :=
  {| base :=
       {| m_param_verbose := false;
          m_param_sound_speed := 2;
          m_radial_decimation := 2;
          m_param_use_arc_projection := true;
          m_enable_phase_delay := false |};
     params :=
       {| m_param_cuda_device_no := 0;
          m_param_num_cuda_streams := 1;
          m_param_threads_per_block := 128;
          m_store_kernel_details := true |};
     m_can_change_cuda_device := false;
     m_cur_device_prop := {| maxGridSize0 := 65535 |};
     m_stream_wrappers := [];
     m_debug_data := ∅;
     m_scan_seq := Some one_line;
     line_buffers :=
       {| m_num_time_samples := 4;
          m_num_beams_allocated := 1;
          m_device_time_proj := [iq_buffer (replicate 4 (7, 7))];
          m_host_rf_lines := [iq_buffer (replicate 4 (7, 7))] |};
     excitation :=
       {| m_excitation :=
            {| samples := [1; 2]; sampling_frequency := 3; demod_freq := 1;
               center_index := 1 |};
          m_device_excitation_fft := Some (iq_buffer [(3, 0); (1, -2); (-1, 0); (1, 2)]);
          m_fft_plan := Some 4 |};
     beam_profile :=
       {| m_cur_beam_profile_type := ANALYTICAL;
          m_analytical_sigma_lat := 1;
          m_analytical_sigma_ele := 1;
          m_device_beam_profile :=
            Some {| table_extent := (1, 1, 1); table_samples := [0] |};
          m_lut := LutExtent_new |};
     fixed :=
       {| m_num_fixed_scatterers := Z.of_nat (length amplitudes);
          m_device_point_xs := Some (float_buffer (replicate (length amplitudes) 0));
          m_device_point_ys := Some (float_buffer (replicate (length amplitudes) 0));
          m_device_point_zs := Some (float_buffer (replicate (length amplitudes) 1));
          m_device_point_as := Some (float_buffer amplitudes) |};
     spline :=
       {| m_num_spline_scatterers := 0;
          m_spline_degree := 0;
          m_num_cs := 0;
          m_device_control_xs := None;
          m_device_control_ys := None;
          m_device_control_zs := None;
          m_device_control_as := None;
          m_common_knots := [] |};
     cuda_trace := [] |}.

Definition one_scatterer := engine [5].
Definition no_scatterers := engine [].


(** The engine as its constructor leaves it. *)
Definition constructed : @GpuAlgorithm float complex double :=
  match GpuAlgorithm_new with Ok _ s => s | _ => initial_members end.

(** ... and after a scan sequence without lines has been set. *)
Definition without_lines : @GpuAlgorithm float complex double :=
  default constructed (run_all [call_set_scan_sequence no_lines] constructed).

Definition configuration : list (@operation float) :=
  [call_set_parameter "cuda_streams" "2";
   call_set_analytical_profile (GaussianBeamProfile 1 1);
   call_set_parameter "gpu_device" "0"].

Definition configured : @GpuAlgorithm float complex double :=
  default constructed (run_all configuration constructed).

(** A first run of the pipeline. *)
Definition first_out : list (list complex) :=
  match simulate_lines 4 one_scatterer with Ok out _ => out | _ => [] end.

Definition after_first_run : @GpuAlgorithm float complex double :=
  default one_scatterer (final_state (simulate_lines 4 one_scatterer)).

(** Two spline scatterers of three control points each. *)
Definition two_splines : @SplineScatterers float :=
  {| spline_degree := 1;
     knot_vector := [0; 0; 1; 2; 2];
     control_points :=
       [[axis 1 2 3; axis 4 5 6; axis 7 8 9];
        [axis 11 12 13; axis 14 15 16; axis 17 18 19]];
     amplitudes := [21; 22] |}.

Definition no_splines : @SplineScatterers float :=
  {| spline_degree := 1; knot_vector := []; control_points := []; amplitudes := [] |}.

Definition after_spline_upload : @GpuAlgorithm float complex double :=
  default no_scatterers (final_state (add_spline_scatterers two_splines no_scatterers)).



(** ** The statements on the machine *)

(** A run on one line with one scatterer: the output has the one line. *)
Lemma simulate_lines_output_witness :
  m_scan_seq one_scatterer = Some one_line /\
  simulate_lines 4 one_scatterer = Ok first_out after_first_run /\
  first_out = [[(60, 0); (60, 0)]] /\
  length first_out = length (scanlines one_line).
Proof.
  assert (H1 : 1 <= m_radial_decimation (base one_scatterer))
    by (vm_compute; discriminate).
  assert (H2 : 0 <= center_index (m_excitation (excitation one_scatterer)))
    by (vm_compute; discriminate).
  assert (H3 : center_index (m_excitation (excitation one_scatterer))
               + num_rf_samples_of one_scatterer one_line <= 2 ^ 64)
    by (vm_compute; discriminate).
  assert (E : simulate_lines 4 one_scatterer = Ok first_out after_first_run)
    by (vm_compute; reflexivity).
  split; [reflexivity |]. split; [exact E |]. split; [vm_compute; reflexivity |].
  exact (proj1 (proj2 (simulate_lines_output 4 one_scatterer after_first_run one_line
                         first_out eq_refl E H1 H2 H3))).
Defined.


(** The device can still be selected after the configuration calls. *)
Lemma device_selection_latch_witness :
  GpuAlgorithm_new = Ok tt constructed /\
  run_all configuration constructed = Some configured /\
  stoi "0" = Some 0 /\
  exists s',
    set_parameter "gpu_device" "0" configured = Ok tt s' /\
    m_param_cuda_device_no (params s') = 0.
Proof.
  assert (H0 : 0 <= 0 < cudaGetDeviceCount) by (vm_compute; split; [discriminate | reflexivity]).
  assert (Hn : GpuAlgorithm_new = Ok tt constructed) by (vm_compute; reflexivity).
  assert (Hr : run_all configuration constructed = Some configured)
    by (vm_compute; reflexivity).
  split; [exact Hn |]. split; [exact Hr |]. split; [reflexivity |].
  destruct (device_selection_latch constructed configured configuration "0" 0
              Hn eq_refl Hr eq_refl H0) as ((s' & E & Hd & _) & _).
  exists s'. split; [exact E | exact Hd].
Defined.

(** One line, then two: the second call allocates for two. *)
Lemma scan_sequence_reallocation_witness :
  num_rf_samples_of no_scatterers one_line <= m_num_time_samples (line_buffers no_scatterers) /\
  exists s1 s2,
    set_scan_sequence one_line no_scatterers = Ok tt s1 /\
    set_scan_sequence two_lines s1 = Ok tt s2 /\
    m_num_beams_allocated (line_buffers s1) = 1 /\
    m_num_beams_allocated (line_buffers s2) = 2.
Proof.
  assert (L1 : get_num_lines one_line <= INT_MAX) by (vm_compute; discriminate).
  assert (L2 : get_num_lines two_lines <= INT_MAX) by (vm_compute; discriminate).
  assert (N1 : num_rf_samples_of no_scatterers one_line
               <= m_num_time_samples (line_buffers no_scatterers))
    by (vm_compute; discriminate).
  assert (N2 : num_rf_samples_of no_scatterers two_lines
               <= m_num_time_samples (line_buffers no_scatterers))
    by (vm_compute; discriminate).
  split; [exact N1 |].
  destruct (scan_sequence_reallocation one_line two_lines no_scatterers L1 L2 N1 N2)
    as (s1 & s2 & E1 & E2 & A1 & _ & A2 & _).
  exists s1, s2. split; [exact E1 |]. split; [exact E2 |].
  split; [exact A1 |].
  apply A2; [vm_compute; discriminate | vm_compute; reflexivity].
Defined.

(** An upload of no spline scatterers leaves the trace as it was. *)
Lemma spline_upload_fails_before_device_work_witness :
  num_scatterers no_splines = 0 /\
  exists s',
    add_spline_scatterers no_splines no_scatterers
    = Throw (runtime_error "No scatterers") s' /\
    cuda_trace s' = cuda_trace no_scatterers.
Proof.
  split; [reflexivity |].
  destruct (spline_upload_fails_before_device_work no_splines no_scatterers
              (or_introl eq_refl)) as (s' & E & T & _).
  exists s'. split; [exact E | exact T].
Defined.

(** Control point two of scatterer one lands at offset [1 + 2 * 2]. *)
Lemma spline_upload_layout_witness :
  add_spline_scatterers two_splines no_scatterers = Ok tt after_spline_upload /\
  exists xs,
    m_device_control_xs (spline after_spline_upload) = Some xs /\
    data xs !! Z.to_nat (1 + 2 * num_scatterers two_splines) = Some 17.
Proof.
  assert (Hb : num_scatterers two_splines * get_num_control_points two_splines < 2 ^ 64)
    by (vm_compute; reflexivity).
  assert (E : add_spline_scatterers two_splines no_scatterers = Ok tt after_spline_upload)
    by (vm_compute; reflexivity).
  split; [exact E |].
  destruct (spline_upload_layout two_splines no_scatterers after_spline_upload E Hb)
    as (h & xs & ys & zs & a_s & _ & Ex & _ & _ & _ & Hc & _).
  exists xs. split; [exact Ex |].
  destruct (Hc 1 2) as (p & Hp & _ & _ & _ & Hx & _).
  - vm_compute. split; [discriminate | reflexivity].
  - vm_compute. split; [discriminate | reflexivity].
  - etransitivity; [exact Hx |]. vm_compute in Hp. injection Hp as <-. reflexivity.
Defined.



(** The second run returns the lines of the first. *)
Lemma simulate_lines_twice_witness :
  simulate_lines 4 one_scatterer = Ok first_out after_first_run /\
  exists s2, simulate_lines 4 after_first_run = Ok first_out s2.
Proof.
  assert (Hb : 0 <= sizeof_complex * m_num_time_samples (line_buffers one_scatterer) < 2 ^ 64)
    by (vm_compute; split; [discriminate | reflexivity]).
  assert (Hp : forall nx, m_fft_plan (excitation one_scatterer) = Some nx ->
                          nx = m_num_time_samples (line_buffers one_scatterer)).
  { intros nx Hnx. simpl in Hnx. injection Hnx as <-. reflexivity. }
  assert (E : simulate_lines 4 one_scatterer = Ok first_out after_first_run)
    by (vm_compute; reflexivity).
  split; [exact E |].
  exact (simulate_lines_twice 4 one_scatterer after_first_run first_out E Hp Hb).
Defined.

(** The call that fails on a scan sequence without lines has created the
    streams by then. *)
Lemma simulate_lines_without_lines_creates_streams :
  m_scan_seq without_lines = Some no_lines /\
  m_stream_wrappers without_lines = [] /\
  exists s',
    simulate_lines 0 without_lines
    = Throw (runtime_error "No scanlines in scansequence") s' /\
    m_can_change_cuda_device s' = false /\
    filter is_allocation (new_calls without_lines s')
    = [call_cudaStreamCreate; call_cudaStreamCreate].
Proof.
  split; [vm_compute; reflexivity |]. split; [vm_compute; reflexivity |].
  exists (default without_lines (final_state (simulate_lines 0 without_lines))).
  split; [vm_compute; reflexivity |]. split; vm_compute; reflexivity.
Qed.

Definition after_two_lines : @GpuAlgorithm float complex double :=
  default no_scatterers (final_state (run (call_set_scan_sequence two_lines) no_scatterers)).

(** Setting a scan sequence leaves the latch locked. *)
Lemma allocating_calls_lock_first_witness :
  allocating (call_set_scan_sequence two_lines) = true /\
  final_state (run (call_set_scan_sequence two_lines) no_scatterers) = Some after_two_lines /\
  m_can_change_cuda_device after_two_lines = false.
Proof.
  assert (E : final_state (run (call_set_scan_sequence two_lines) no_scatterers)
              = Some after_two_lines) by (vm_compute; reflexivity).
  split; [reflexivity |]. split; [exact E |].
  exact (proj1 (allocating_calls_lock_first (call_set_scan_sequence two_lines)
                  no_scatterers after_two_lines eq_refl E)).
Defined.

(** Three samples from index one of a line of four, every second one: the
    reads are at one and three. *)
Lemma assembly_reads_and_capacity_check_witness :
  center_index (m_excitation (excitation no_scatterers))
  + num_rf_samples_of no_scatterers one_line
  <= m_num_time_samples (line_buffers no_scatterers) /\
  read_positions 4 (num_rf_samples_of no_scatterers one_line)
    (to_size_t (center_index (m_excitation (excitation no_scatterers))))
    (m_radial_decimation (base no_scatterers)) 0 = [1; 3] /\
  collect_samples 4 (data (iq_buffer (replicate 4 (7, 7))))
    (num_rf_samples_of no_scatterers one_line)
    (to_size_t (center_index (m_excitation (excitation no_scatterers))))
    (m_radial_decimation (base no_scatterers)) 0 no_scatterers
  <> Undefined.
Proof.
  assert (H1 : Z.of_nat (length (data (iq_buffer (replicate 4 (7, 7)))))
               = m_num_time_samples (line_buffers no_scatterers)) by reflexivity.
  assert (H2 : m_num_time_samples (line_buffers no_scatterers) <= 2 ^ 64)
    by (vm_compute; discriminate).
  assert (H3 : 0 <= center_index (m_excitation (excitation no_scatterers)))
    by (vm_compute; discriminate).
  assert (H4 : center_index (m_excitation (excitation no_scatterers))
               + num_rf_samples_of no_scatterers one_line
               <= m_num_time_samples (line_buffers no_scatterers))
    by (vm_compute; discriminate).
  split; [exact H4 |]. split; [vm_compute; reflexivity |].
  exact (proj1 (proj2 (proj2
           (assembly_reads_and_capacity_check no_scatterers one_line
              (iq_buffer (replicate 4 (7, 7))) 4 H1 H2 H3 H4)))).
Defined.

(** ** Further statements on the machine *)



(** Two streams are accepted, and recorded only. *)
Lemma cuda_streams_parameter_witness :
  stoi "2" = Some 2 /\
  exists s',
    set_parameter "cuda_streams" "2" constructed = Ok tt s' /\
    m_param_num_cuda_streams (params s') = 2 /\
    m_stream_wrappers s' = m_stream_wrappers constructed /\
    line_buffers s' = line_buffers constructed /\
    m_can_change_cuda_device s' = m_can_change_cuda_device constructed /\
    cuda_trace s' = cuda_trace constructed.
Proof.
  assert (P : stoi "2" = Some 2) by (vm_compute; reflexivity).
  assert (R : 0 < 2 <= MAX_NUM_CUDA_STREAMS) by (vm_compute; split; [reflexivity | discriminate]).
  split; [exact P |].
  exact (proj1 (cuda_streams_parameter "2" 2 constructed P) R).
Defined.

Definition after_idle_run : @GpuAlgorithm float complex double :=
  default no_scatterers (final_state (simulate_lines 4 no_scatterers)).

(** A run without scatterers launches no projection. *)
Lemma no_projection_without_scatterers_witness :
  m_num_fixed_scatterers (fixed no_scatterers) <= 0 /\
  m_num_spline_scatterers (spline no_scatterers) <= 0 /\
  final_state (simulate_lines 4 no_scatterers) = Some after_idle_run /\
  Forall (fun c => is_projection c = false /\ is_upload c = false)
         (new_calls no_scatterers after_idle_run).
Proof.
  assert (F : m_num_fixed_scatterers (fixed no_scatterers) <= 0)
    by (vm_compute; discriminate).
  assert (S : m_num_spline_scatterers (spline no_scatterers) <= 0)
    by (vm_compute; discriminate).
  assert (E : final_state (simulate_lines 4 no_scatterers) = Some after_idle_run)
    by (vm_compute; reflexivity).
  split; [exact F |]. split; [exact S |]. split; [exact E |].
  exact (no_projection_without_scatterers 4 no_scatterers after_idle_run F S E).
Defined.

(** The engine with the kernel details switched off. *)
Definition details_off : @GpuAlgorithm float complex double :=
  default one_scatterer
    (final_state (set_parameter "store_kernel_details" "off" one_scatterer)).

Definition after_details_off_run : @GpuAlgorithm float complex double :=
  default details_off (final_state (simulate_lines 4 details_off)).

Lemma details_off_keeps_log_witness :
  m_store_kernel_details (params details_off) = false /\
  final_state (simulate_lines 4 details_off) = Some after_details_off_run /\
  m_debug_data after_details_off_run = m_debug_data details_off.
Proof.
  assert (D : m_store_kernel_details (params details_off) = false) by (vm_compute; reflexivity).
  assert (E : final_state (simulate_lines 4 details_off) = Some after_details_off_run)
    by (vm_compute; reflexivity).
  split; [exact D |]. split; [exact E |].
  exact (details_off_keeps_log 4 details_off after_details_off_run D E).
Defined.

Lemma simulate_lines_keeps_configuration_witness :
  final_state (simulate_lines 4 one_scatterer) = Some after_first_run /\
  excitation after_first_run = excitation one_scatterer /\
  fixed after_first_run = fixed one_scatterer /\
  m_can_change_cuda_device after_first_run = false.
Proof.
  assert (E : final_state (simulate_lines 4 one_scatterer) = Some after_first_run)
    by (vm_compute; reflexivity).
  split; [exact E |].
  destruct (simulate_lines_keeps_configuration 4 one_scatterer after_first_run E)
    as (_ & _ & _ & _ & He & _ & Hf & _ & _ & _ & Hc).
  exact (conj He (conj Hf Hc)).
Defined.

(** The configured engine has no scan sequence. *)
Lemma simulate_lines_before_scan_sequence_witness :
  GpuAlgorithm_new = Ok tt constructed /\
  forallb (fun o => negb (is_set_scan_sequence o)) configuration = true /\
  run_all configuration constructed = Some configured /\
  simulate_lines 4 configured = Undefined.
Proof.
  assert (N : GpuAlgorithm_new = Ok tt constructed) by (vm_compute; reflexivity).
  assert (O : forallb (fun o => negb (is_set_scan_sequence o)) configuration = true)
    by reflexivity.
  assert (R : run_all configuration constructed = Some configured)
    by (vm_compute; reflexivity).
  split; [exact N |]. split; [exact O |]. split; [exact R |].
  exact (simulate_lines_before_scan_sequence 4 constructed configured configuration N O R).
Defined.

Definition only_sequence : list (@operation float) := [call_set_scan_sequence one_line].

Definition with_sequence : @GpuAlgorithm float complex double :=
  default constructed (run_all only_sequence constructed).

(** With a scan sequence and no profile, the call throws. *)
Lemma simulate_lines_before_profile_witness :
  GpuAlgorithm_new = Ok tt constructed /\
  forallb (fun o => negb (is_set_profile o)) only_sequence = true /\
  run_all only_sequence constructed = Some with_sequence /\
  m_scan_seq with_sequence = Some one_line /\
  (1 <= length (scanlines one_line))%nat /\
  exists s',
    simulate_lines 0 with_sequence
    = Throw (runtime_error "No beam profile is configured") s' /\
    Forall (fun c => c = call_cudaStreamCreate) (new_calls with_sequence s') /\
    line_buffers s' = line_buffers with_sequence.
Proof.
  assert (N : GpuAlgorithm_new = Ok tt constructed) by (vm_compute; reflexivity).
  assert (O : forallb (fun o => negb (is_set_profile o)) only_sequence = true)
    by reflexivity.
  assert (R : run_all only_sequence constructed = Some with_sequence)
    by (vm_compute; reflexivity).
  assert (Q : m_scan_seq with_sequence = Some one_line) by (vm_compute; reflexivity).
  assert (L : (1 <= length (scanlines one_line))%nat) by (vm_compute; lia).
  split; [exact N |]. split; [exact O |]. split; [exact R |]. split; [exact Q |].
  split; [exact L |].
  exact (simulate_lines_before_profile 0 constructed with_sequence only_sequence one_line
           N O R Q L).
Defined.

(** The run on one line had its buffers, plan and arrays. *)
Lemma returning_call_was_served_witness :
  simulate_lines 4 one_scatterer = Ok first_out after_first_run /\
  m_scan_seq one_scatterer = Some one_line /\
  is_Some (m_fft_plan (excitation one_scatterer)) /\
  is_Some (m_device_excitation_fft (excitation one_scatterer)) /\
  (length (scanlines one_line) <= length (m_host_rf_lines (line_buffers one_scatterer)))%nat.
Proof.
  assert (Q : m_scan_seq one_scatterer = Some one_line) by reflexivity.
  assert (E : simulate_lines 4 one_scatterer = Ok first_out after_first_run)
    by (vm_compute; reflexivity).
  split; [exact E |]. split; [exact Q |].
  destruct (returning_call_was_served 4 one_scatterer after_first_run first_out one_line E Q)
    as (_ & _ & _ & Hp & Hx & _ & _ & Hl & _).
  exact (conj Hp (conj Hx Hl)).
Defined.

(** The engine after its first run, with a sequence of two lines. *)
Definition one_stream_two_lines : @GpuAlgorithm float complex double :=
  default after_first_run
    (final_state (run (call_set_scan_sequence two_lines) after_first_run)).

Lemma raised_stream_count_breaks_pipeline_witness :
  stoi "2" = Some 2 /\
  m_stream_wrappers one_stream_two_lines <> [] /\
  Z.of_nat (length (m_stream_wrappers one_stream_two_lines)) < 2 <= MAX_NUM_CUDA_STREAMS /\
  2 <= INT_MAX /\
  m_scan_seq one_stream_two_lines = Some two_lines /\
  (length (m_stream_wrappers one_stream_two_lines) < length (scanlines two_lines))%nat /\
  exists t,
    set_parameter "cuda_streams" "2" one_stream_two_lines = Ok tt t /\
    m_stream_wrappers t = m_stream_wrappers one_stream_two_lines /\
    forall fuel out u, simulate_lines fuel t <> Ok out u.
Proof.
  assert (P : stoi "2" = Some 2) by (vm_compute; reflexivity).
  assert (W : m_stream_wrappers one_stream_two_lines <> []) by (vm_compute; discriminate).
  assert (R : Z.of_nat (length (m_stream_wrappers one_stream_two_lines)) < 2
              <= MAX_NUM_CUDA_STREAMS)
    by (vm_compute; split; [reflexivity | discriminate]).
  assert (I : 2 <= INT_MAX) by (vm_compute; discriminate).
  assert (Q : m_scan_seq one_stream_two_lines = Some two_lines) by (vm_compute; reflexivity).
  assert (L : (length (m_stream_wrappers one_stream_two_lines)
               < length (scanlines two_lines))%nat) by (vm_compute; lia).
  split; [exact P |]. split; [exact W |]. split; [exact R |]. split; [exact I |].
  split; [exact Q |]. split; [exact L |].
  exact (raised_stream_count_breaks_pipeline "2" 2 one_stream_two_lines two_lines
           P W R I Q L).
Defined.


(** Two long lines: three hundred samples each, in buffers of four. *)
Definition long_lines : @ScanSequence float :=
  {| line_length := 100; scanlines := [scanline0; scanline0] |}.

Lemma rejected_scan_sequence_is_kept_witness :
  m_num_time_samples (line_buffers one_scatterer) < num_rf_samples_of one_scatterer long_lines /\
  exists t,
    set_scan_sequence long_lines one_scatterer
    = Throw (runtime_error "Too many RF samples required. TODO: remove limitation") t /\
    m_scan_seq t = Some long_lines /\
    line_buffers t = line_buffers one_scatterer /\
    forall fuel out u, simulate_lines fuel t <> Ok out u.
Proof.
  assert (H : m_num_time_samples (line_buffers one_scatterer)
              < num_rf_samples_of one_scatterer long_lines) by (vm_compute; reflexivity).
  assert (L : (length (m_host_rf_lines (line_buffers one_scatterer))
               < length (scanlines long_lines))%nat) by (vm_compute; lia).
  split; [exact H |].
  destruct (rejected_scan_sequence_is_kept long_lines one_scatterer H)
    as (t & Ht & Hq & Hb & Hr).
  exact (ex_intro _ t (conj Ht (conj Hq (conj Hb (Hr L))))).
Defined.

(** One spline scatterer of degree five. *)
Definition quintic : @SplineScatterers float :=
  {| spline_degree := 5;
     knot_vector := [0; 0; 0; 0; 0; 0; 1; 1; 1; 1; 1; 1];
     control_points := [[axis 1 2 3; axis 4 5 6; axis 7 8 9;
                         axis 1 2 3; axis 4 5 6; axis 7 8 9]];
     amplitudes := [21] |}.

Lemma rejected_spline_upload_is_recorded_witness :
  num_scatterers quintic <> 0 /\
  MAX_SPLINE_DEGREE < spline_degree quintic /\
  exists t,
    add_spline_scatterers quintic one_scatterer
    = Throw (runtime_error spline_degree_message) t /\
    m_num_spline_scatterers (spline t) = num_scatterers quintic /\
    m_spline_degree (spline t) = spline_degree quintic /\
    m_device_control_xs (spline t) = m_device_control_xs (spline one_scatterer) /\
    forall fuel out u, simulate_lines fuel t <> Ok out u.
Proof.
  assert (H : num_scatterers quintic <> 0) by (vm_compute; discriminate).
  assert (D : MAX_SPLINE_DEGREE < spline_degree quintic) by (vm_compute; reflexivity).
  assert (X : m_device_control_xs (spline one_scatterer) = None) by reflexivity.
  split; [exact H |]. split; [exact D |].
  destruct (rejected_spline_upload_is_recorded quintic one_scatterer H D)
    as (t & Ht & Hn & Hd & _ & Hx & _ & _ & _ & _ & Hr).
  exact (ex_intro _ t (conj Ht (conj Hn (conj Hd (conj Hx (Hr X)))))).
Defined.

(** Two fixed scatterers. *)
Definition two_points : @FixedScatterers float :=
  {| scatterers := [ {| pos := axis 1 2 3; amplitude := 21 |};
                     {| pos := axis 4 5 6; amplitude := 22 |} ] |}.


(** An excitation of three samples in a buffer of four. *)
Definition pulse : @ExcitationSignal float :=
  {| samples := [1; 2; 1]; sampling_frequency := 3; demod_freq := 1; center_index := 1 |}.


(** Three samples, every second one: two samples in the line. *)
Lemma output_line_length_witness :
  m_scan_seq one_scatterer = Some one_line /\
  simulate_lines 4 one_scatterer = Ok first_out after_first_run /\
  1 <= m_radial_decimation (base one_scatterer) /\
  num_rf_samples_of one_scatterer one_line + m_radial_decimation (base one_scatterer)
  <= 2 ^ 64 /\
  Forall (fun line =>
            Z.of_nat (length line)
            = (num_rf_samples_of one_scatterer one_line
               + m_radial_decimation (base one_scatterer) - 1)
              / m_radial_decimation (base one_scatterer))
         first_out.
Proof.
  assert (Q : m_scan_seq one_scatterer = Some one_line) by reflexivity.
  assert (D : 1 <= m_radial_decimation (base one_scatterer)) by (vm_compute; discriminate).
  assert (B : num_rf_samples_of one_scatterer one_line
              + m_radial_decimation (base one_scatterer) <= 2 ^ 64)
    by (vm_compute; discriminate).
  assert (E : simulate_lines 4 one_scatterer = Ok first_out after_first_run)
    by (vm_compute; reflexivity).
  split; [exact Q |]. split; [exact E |]. split; [exact D |]. split; [exact B |].
  exact (output_line_length 4 one_scatterer after_first_run one_line first_out Q E D B).
Defined.

(** The engine with one scatterer has all a run needs. *)
Lemma simulate_lines_returns_witness :
  m_scan_seq one_scatterer = Some one_line /\
  (1 <= length (scanlines one_line))%nat /\
  fixed_ready one_scatterer /\
  spline_ready one_scatterer one_line /\
  exists out s',
    simulate_lines 4 one_scatterer = Ok out s' /\
    length out = length (scanlines one_line).
Proof.
  assert (Q : m_scan_seq one_scatterer = Some one_line) by reflexivity.
  assert (L : (1 <= length (scanlines one_line))%nat) by (vm_compute; lia).
  assert (F : fixed_ready one_scatterer)
    by (intros _; repeat split; eexists; reflexivity).
  assert (S : spline_ready one_scatterer one_line)
    by (intros H; vm_compute in H; discriminate).
  split; [exact Q |]. split; [exact L |]. split; [exact F |]. split; [exact S |].
  apply (simulate_lines_returns 4 one_scatterer one_line
           (iq_buffer [(3, 0); (1, -2); (-1, 0); (1, 2)]) Q L).
  - reflexivity.
  - vm_compute. discriminate.
  - vm_compute. discriminate.
  - vm_compute. discriminate.
  - vm_compute. discriminate.
  - intros i Hi. assert (Hi0 : i = 0) by (change (get_num_lines one_line) with 1 in Hi; lia). subst i.
    split; [intros C; now contradiction C |].
    split; eexists; (split; [reflexivity | vm_compute; lia]).
  - reflexivity.
  - vm_compute. split; [discriminate | reflexivity].
  - reflexivity.
  - vm_compute. lia.
  - exact F.
  - exact S.
  - vm_compute. split; discriminate.
  - vm_compute. discriminate.
  - vm_compute. discriminate.
  - vm_compute. lia.
Defined.

(** A line of a thousand units: three samples at this sound speed. *)
Definition long_line : @ScanSequence float :=
  {| line_length := 1000; scanlines := [scanline0] |}.

Lemma configured_engine_returns_witness :
  GpuAlgorithm_new = Ok tt constructed /\
  (length (samples pulse) <= Z.to_nat 8192)%nat /\
  center_index pulse
  + to_size_t (compute_num_rf_samples (m_param_sound_speed BaseAlgorithm_new)
                 (line_length long_line) (sampling_frequency pulse)) <= 8192 /\
  exists out s',
    (set_excitation pulse ;;;
     set_scan_sequence long_line ;;;
     set_analytical_profile (GaussianBeamProfile 1 1) ;;;
     add_fixed_scatterers two_points ;;;
     simulate_lines 3)%stmt constructed = Ok out s' /\
    length out = length (scanlines long_line).
Proof.
  assert (N : GpuAlgorithm_new = Ok tt constructed) by (vm_compute; reflexivity).
  assert (L : (length (samples pulse) <= Z.to_nat 8192)%nat)
    by (apply Nat.leb_le; vm_compute; reflexivity).
  assert (C : center_index pulse
              + to_size_t (compute_num_rf_samples (m_param_sound_speed BaseAlgorithm_new)
                             (line_length long_line) (sampling_frequency pulse)) <= 8192)
    by (vm_compute; discriminate).
  split; [exact N |]. split; [exact L |]. split; [exact C |].
  apply (configured_engine_returns pulse long_line 1 1 two_points 3 constructed N L).
  - vm_compute. reflexivity.
  - vm_compute. discriminate.
  - exact C.
  - vm_compute. lia.
  - vm_compute. discriminate.
  - vm_compute. reflexivity.
  - vm_compute. discriminate.
  - vm_compute. split; discriminate.
  - vm_compute. lia.
Defined.



(** Two other fixed scatterers. *)
Definition other_points : @FixedScatterers float :=
  {| scatterers := [ {| pos := axis 7 8 9; amplitude := 23 |};
                     {| pos := axis 1 1 1; amplitude := 24 |} ] |}.

Lemma fixed_upload_after_clear_witness :
  Z.of_nat (length (scatterers two_points)) * sizeof_float < 2 ^ 64 /\
  Z.of_nat (length (scatterers other_points)) * sizeof_float < 2 ^ 64 /\
  well_sized (m_device_point_xs (fixed one_scatterer)) /\
  well_sized (m_device_point_ys (fixed one_scatterer)) /\
  well_sized (m_device_point_zs (fixed one_scatterer)) /\
  well_sized (m_device_point_as (fixed one_scatterer)) /\
  exists s1 s2 s3,
    add_fixed_scatterers two_points one_scatterer = Ok tt s1 /\
    clear_fixed_scatterers s1 = Ok tt s2 /\
    add_fixed_scatterers other_points s2 = Ok tt s3 /\
    m_num_fixed_scatterers (fixed s2) = 0 /\
    new_calls s2 s3
    = [call_cudaMallocHost 8;
       call_cudaMemcpyHostToDevice 8; call_cudaMemcpyHostToDevice 8;
       call_cudaMemcpyHostToDevice 8; call_cudaMemcpyHostToDevice 8].
Proof.
  assert (B1 : Z.of_nat (length (scatterers two_points)) * sizeof_float < 2 ^ 64)
    by (vm_compute; reflexivity).
  assert (B2 : Z.of_nat (length (scatterers other_points)) * sizeof_float < 2 ^ 64)
    by (vm_compute; reflexivity).
  assert (X : well_sized (m_device_point_xs (fixed one_scatterer)))
    by (intros b H; injection H as <-; vm_compute; reflexivity).
  assert (Y : well_sized (m_device_point_ys (fixed one_scatterer)))
    by (intros b H; injection H as <-; vm_compute; reflexivity).
  assert (Z0 : well_sized (m_device_point_zs (fixed one_scatterer)))
    by (intros b H; injection H as <-; vm_compute; reflexivity).
  assert (A : well_sized (m_device_point_as (fixed one_scatterer)))
    by (intros b H; injection H as <-; vm_compute; reflexivity).
  split; [exact B1 |]. split; [exact B2 |]. split; [exact X |]. split; [exact Y |].
  split; [exact Z0 |]. split; [exact A |].
  destruct (fixed_upload_after_clear two_points other_points one_scatterer B1 B2 X Y Z0 A)
    as (s1 & s2 & s3 & H1 & H2 & H3 & Hn & _ & _ & _ & _ & _ & _ & Hc).
  exact (ex_intro _ s1 (ex_intro _ s2 (ex_intro _ s3
           (conj H1 (conj H2 (conj H3 (conj Hn Hc))))))).
Defined.

(** The log of the run on one line with one scatterer. *)
Lemma kernel_details_log_witness :
  m_store_kernel_details (params one_scatterer) = true /\
  m_scan_seq one_scatterer = Some one_line /\
  simulate_lines 4 one_scatterer = Ok first_out after_first_run /\
  log_of "stream_numbers" after_first_run = [0] /\
  log_of "noise" after_first_run = [].
Proof.
  assert (D : m_store_kernel_details (params one_scatterer) = true) by reflexivity.
  assert (Q : m_scan_seq one_scatterer = Some one_line) by reflexivity.
  assert (E : simulate_lines 4 one_scatterer = Ok first_out after_first_run)
    by (vm_compute; reflexivity).
  split; [exact D |]. split; [exact Q |]. split; [exact E |].
  destruct (kernel_details_log 4 one_scatterer after_first_run one_line first_out D Q E)
    as (Hs & _ & Hn).
  split; [exact Hs |].
  apply Hn. intros H. vm_compute in H.
  repeat (apply elem_of_cons in H as [H | H]; [discriminate |]).
  now apply elem_of_nil in H.
Defined.

End Desk.
